(** * Rebase bot: a shallow embedding of [rebasebot/bot.py]

    The bot drives git, the GitHub API, the file system and a Slack
    webhook.  All of these are external: every call to them goes through
    a handler that answers with a value or raises, and every call is
    recorded, in order, in the events of the run.  The functions of
    [bot.py] are written in a state-and-exception monad over that handler,
    one definition per function and under its name; the theorems quantify
    over the handler, that is over every behaviour of git and of GitHub.

    What the model leaves out: [logging] calls (they change nothing the
    bot reads).  The interpreter's recursion limit is a parameter: [fuel]
    is the number of nested calls of [_resolve_rebase_conflicts] that the
    interpreter still has room for, and a call beyond it raises
    [RecursionError], as an exception like any other.

    A Python [str] is a Rocq [string]: a sequence of characters with
    codes below 256. *)

From Stdlib Require Import String Ascii List Bool Arith NArith Lia DecimalString.
Import ListNotations.
Open Scope string_scope.
Open Scope list_scope.
Open Scope nat_scope.

(** ** Python string methods used by the bot *)

Module Py.

(** [s.startswith(p)] *)
Fixpoint startswith (p s : string) : bool :=
  match p, s with
  | EmptyString, _ => true
  | String _ _, EmptyString => false
  | String a p', String b s' => Ascii.eqb a b && startswith p' s'
  end.

(** [s[n:]] *)
Fixpoint drop (n : nat) (s : string) : string :=
  match n, s with
  | O, _ => s
  | S _, EmptyString => EmptyString
  | S k, String _ s' => drop k s'
  end.

(** [s[:n]] *)
Fixpoint take (n : nat) (s : string) : string :=
  match n, s with
  | O, _ => EmptyString
  | S _, EmptyString => EmptyString
  | S k, String c s' => String c (take k s')
  end.

(** [s.removeprefix(p)] *)
Definition removeprefix (p s : string) : string :=
  if startswith p s then drop (String.length p) s else s.

(** [s.partition(sep)] when [sep] occurs: the text before the first
    occurrence and the text after it. *)
Fixpoint find (sep s : string) : option (string * string) :=
  if startswith sep s then Some (EmptyString, drop (String.length sep) s)
  else match s with
       | EmptyString => None
       | String c s' =>
           match find sep s' with
           | Some (before, after) => Some (String c before, after)
           | None => None
           end
       end.

(** [s.split(sep, 1)[0]], which is also [s.split(sep)[0]] *)
Definition split_head (sep s : string) : string :=
  match find sep s with
  | Some (before, _) => before
  | None => s
  end.

(** [s.split(sep)] for a non-empty [sep]: occurrences are taken left to
    right and do not overlap; [skip] counts the characters of the
    separator still to pass. *)
Fixpoint split_from (sep : string) (skip : nat) (s : string) : list string :=
  match s with
  | EmptyString => [EmptyString]
  | String c s' =>
      match skip with
      | S k => split_from sep k s'
      | O =>
          if startswith sep s
          then EmptyString :: split_from sep (String.length sep - 1) s'
          else match split_from sep 0 s' with
               | seg :: rest => String c seg :: rest
               | [] => [String c EmptyString]
               end
      end
  end.

Definition split (sep s : string) : list string := split_from sep 0 s.

(** [s.split(sep)[-1]] *)
Definition split_last (sep s : string) : string := last (split sep s) EmptyString.

(** [s.count(sub)] for a non-empty [sub]: occurrences that do not overlap,
    left to right. *)
Fixpoint count_from (sub : string) (skip : nat) (s : string) : nat :=
  match s with
  | EmptyString => 0
  | String _ s' =>
      match skip with
      | S k => count_from sub k s'
      | O =>
          if startswith sub s
          then S (count_from sub (String.length sub - 1) s')
          else count_from sub 0 s'
      end
  end.

Definition count (sub s : string) : nat := count_from sub 0 s.

Definition code (c : ascii) : nat := nat_of_ascii c.

(** The line boundaries of [str.splitlines] below 256: LF, VT, FF, CR,
    FS, GS, RS and NEL. *)
Definition is_linebreak (c : ascii) : bool :=
  let n := code c in
  ((10 <=? n) && (n <=? 13)) || ((28 <=? n) && (n <=? 30)) || (n =? 133).

(** [s.splitlines()]: CR LF is one boundary, and a final boundary opens
    no further line. *)
Fixpoint splitlines (s : string) : list string :=
  match s with
  | EmptyString => []
  | String c s' =>
      if is_linebreak c then
        match s' with
        | String d s'' =>
            if (code c =? 13) && (code d =? 10)
            then EmptyString :: splitlines s''
            else EmptyString :: splitlines s'
        | EmptyString => [EmptyString]
        end
      else match splitlines s' with
           | l :: ls => String c l :: ls
           | [] => [String c EmptyString]
           end
  end.

(** [str.isspace] on one character, below 256 *)
Definition is_space (c : ascii) : bool :=
  let n := code c in
  ((9 <=? n) && (n <=? 13)) || ((28 <=? n) && (n <=? 32)) || (n =? 133) || (n =? 160).

(** [s.lstrip()] *)
Fixpoint lstrip (s : string) : string :=
  match s with
  | EmptyString => EmptyString
  | String c s' => if is_space c then lstrip s' else s
  end.

Definition is_digit (c : ascii) : bool :=
  let n := code c in (48 <=? n) && (n <=? 57).

(** The characters below 256 with Unicode's numeric property: the ten
    digits, the superscripts two, three and one, and the three vulgar
    fractions. *)
Definition is_numeric_char (c : ascii) : bool :=
  let n := code c in
  is_digit c || (n =? 178) || (n =? 179) || (n =? 185)
  || ((188 <=? n) && (n <=? 190)).

Fixpoint forallb_string (p : ascii -> bool) (s : string) : bool :=
  match s with
  | EmptyString => true
  | String c s' => p c && forallb_string p s'
  end.

(** [s.isnumeric()]: at least one character, all of them numeric *)
Definition isnumeric (s : string) : bool :=
  match s with
  | EmptyString => false
  | _ => forallb_string is_numeric_char s
  end.

Fixpoint digits_value (acc : N) (s : string) : N :=
  match s with
  | EmptyString => acc
  | String c s' => digits_value (acc * 10 + N.of_nat (code c - 48)) s'
  end.

(** The interpreter's limit on the number of digits that [int] converts
    ([sys.int_info.default_max_str_digits]). *)
Definition max_str_digits : N := 4300%N.

(** [int(s)] on a string that passed [isnumeric]: the decimal value when
    every character is a decimal digit and there are no more of them than
    the interpreter converts, leading zeros counted; [ValueError]
    otherwise (a superscript or a fraction is numeric and no digit of a
    literal). *)
Definition int (s : string) : option N :=
  match s with
  | EmptyString => None
  | _ =>
      if forallb_string is_digit s
         && (N.of_nat (String.length s) <=? max_str_digits)%N
      then Some (digits_value 0 s) else None
  end.

(** [str(n)] for a natural number, as an f-string prints it *)
Definition str_of_nat (n : nat) : string :=
  NilEmpty.string_of_uint (Nat.to_uint n).

Definition str_of_N (n : N) : string :=
  NilEmpty.string_of_uint (N.to_uint n).

(** [x in l] for a list of strings *)
Definition in_list (x : string) (l : list string) : bool :=
  existsb (String.eqb x) l.

(** [s.rstrip(ch)] for a single character *)
Fixpoint rstrip_char (ch : ascii) (s : string) : string :=
  match s with
  | EmptyString => EmptyString
  | String c s' =>
      match rstrip_char ch s' with
      | EmptyString => if Ascii.eqb c ch then EmptyString else String c EmptyString
      | r => String c r
      end
  end.

(** [s[-1]] when [s] is not empty *)
Fixpoint last_char (s : string) : option ascii :=
  match s with
  | EmptyString => None
  | String c EmptyString => Some c
  | String _ s' => last_char s'
  end.

(** [s[:-1]] *)
Fixpoint drop_last (s : string) : string :=
  match s with
  | EmptyString => EmptyString
  | String _ EmptyString => EmptyString
  | String c s' => String c (drop_last s')
  end.

Definition slash : ascii := "/"%char.

Fixpoint has_slash (s : string) : bool :=
  match s with
  | EmptyString => false
  | String c s' => Ascii.eqb c slash || has_slash s'
  end.

(** [p[:p.rfind('/') + 1]] *)
Fixpoint upto_last_slash (p : string) : string :=
  match p with
  | EmptyString => EmptyString
  | String c p' =>
      if has_slash p' then String c (upto_last_slash p')
      else if Ascii.eqb c slash then String c EmptyString
      else EmptyString
  end.

(** [os.path.dirname(p)] (posixpath) *)
Definition dirname (p : string) : string :=
  let head := upto_last_slash p in
  if forallb_string (Ascii.eqb slash) head then head
  else rstrip_char slash head.

(** [os.path.join(a, b)] (posixpath) *)
Definition path_join (a b : string) : string :=
  if startswith "/" b then b
  else match last_char a with
       | None => b
       | Some c => if Ascii.eqb c slash then (a ++ b)%string
                   else (a ++ "/" ++ b)%string
       end.

End Py.

(** ** Data *)

(** Modelled from the spec: [rebasebot.github.GitHubBranch] is declared
    outside [bot.py]; the spec's BranchRef is
    {namespace, repoName, branchName, cloneURL}, read by the bot as
    [ns], [name], [branch] and [url]. *)
Record GitHubBranch := {
  ns : string;
  name : string;
  branch : string;
  url : string
}.

(** A [github3] repository handle. *)
Record Repository := {
  repo_ns : string;
  repo_name : string;
  clone_url : string
}.

(** A [github3] pull request as the bot reads it: [labels] holds each
    label's ['name']. *)
Record PullRequest := {
  number : N;
  id : N;
  title : string;
  html_url : string;
  labels : list string
}.

(** One [git.PushInfo] of a push. *)
Record PushInfo := {
  flags : N;
  summary : string
}.

(** [git.PushInfo.ERROR], bit 10 of the flags. *)
Definition PushInfo_ERROR : N := 1024.

(** The two GitHub clients of the [GithubAppProvider]. *)
Inductive client := github_app | github_cloner_app.

(** The exceptions the bot raises, catches or lets through.  All of them
    are subclasses of [Exception]. *)
Inductive exn :=
| GitCommandError (detail : string)
| RepoException (msg : string)
| PullRequestUpdateException (msg : string)
| Exception_ (msg : string)
| ValueError
| IndexError
| StopIteration
| FileExistsError
| RecursionError
| CalledProcessError (detail stderr : string)
| UnprocessableEntity (detail response : string)
| OtherError (detail : string).

(** [str(ex)] inside the bot's messages.  An exception of a library or of
    the bot carries its text.  The text of an exception that the
    interpreter raises itself ([ValueError], [IndexError],
    [StopIteration], [FileExistsError], [RecursionError]) depends on the
    place of the error and is not modelled: the name of the class stands
    for it. *)
Definition str_of_exn (e : exn) : string :=
  match e with
  | GitCommandError d => d
  | RepoException m => m
  | PullRequestUpdateException m => m
  | Exception_ m => m
  | ValueError => "ValueError"
  | IndexError => "IndexError"
  | StopIteration => "StopIteration"
  | FileExistsError => "FileExistsError"
  | RecursionError => "RecursionError"
  | CalledProcessError d _ => d
  | UnprocessableEntity d _ => d
  | OtherError d => d
  end.

(** ** The calls that leave the process

    [Git args] is [gitwd.git.<command>(...)]: the command line GitPython
    builds, keyword options first; it returns git's standard output or
    raises.  The other calls are the GitPython objects, the operating
    system, github3 and the Slack webhook.  Some of the GitPython objects
    run git themselves: [RepoInit] is [git init], [RemoteCreate] and
    [RemoteSetUrl] are [git remote add] and [git remote set-url],
    [RemoteFetch] is [git fetch], [RemotePush] is [git push], and
    [HeadReset index working_tree] is [gitwd.head.reset(index=...,
    working_tree=...)], a [git reset] of [HEAD] that is hard when both
    flags are set. *)
Inductive call : Type -> Type :=
| Git (args : list string) : call string
| RepoInit (path : string) : call unit
| RemoteExists (remote : string) : call bool
| RemoteSetUrl (remote url_ : string) : call unit
| RemoteCreate (remote url_ : string) : call unit
| ConfigSet (section key value : string) : call unit
| AppToken : call string
| ClonerToken : call string
| RemoteFetch (remote refspec : string) : call unit
| RemotePush (remote refspec : string) : call (list PushInfo)
| RemoteHasRef (remote ref : string) : call bool
| HeadExists (head : string) : call bool
| HeadSetCommit (head commit_ : string) : call unit
| HeadCreate (head commit_ : string) : call unit
| HeadReset (index working_tree : bool) : call unit
| IsDirty : call bool
| OsMkdir (path : string) : call unit
| OsChdir (path : string) : call unit
| OsPathExists (path : string) : call bool
| Glob (pattern : string) : call (list string)
| Subprocess (command cwd : string) : call string
| GhRepository (c : client) (ns_ name_ : string) : call Repository
| GhPullRequests (r : Repository) (head : option string) : call (list PullRequest)
| GhPullRequest (r : Repository) (n : N) : call PullRequest
| GhIsMerged (pr : PullRequest) : call bool
| GhCreatePull (r : Repository) (title_ head base : string)
    (maintainer_can_modify : bool) : call PullRequest
| GhUpdateTitle (pr : PullRequest) (title_ : string) : call bool
| SlackPost (webhook_url text : string) : call unit.

Inductive event :=
| Event (A : Type) (c : call A).
Arguments Event {A} c.

(** What a call answers. *)
Inductive res (A : Type) :=
| Ok (a : A)
| Err (e : exn).
Arguments Ok {A} a.
Arguments Err {A} e.

(** The outside world: a state of type [W] and its answer to each call. *)
Definition handler (W : Type) : Type :=
  forall A : Type, call A -> W -> res A * W.

(** ** The monad of the bot *)

Record state (W : Type) := mkState {
  world : W;
  events : list event
}.
Arguments mkState {W} world events.
Arguments world {W} s.
Arguments events {W} s.

(** A computation returns or raises. *)
Inductive outcome (A : Type) :=
| Ret (a : A)
| Raise (e : exn).
Arguments Ret {A} a.
Arguments Raise {A} e.

Definition M (W A : Type) : Type := state W -> outcome A * state W.

Definition ret {W A} (a : A) : M W A := fun st => (Ret a, st).

Definition raise {W A} (e : exn) : M W A := fun st => (Raise e, st).

Definition bind {W A B} (m : M W A) (k : A -> M W B) : M W B :=
  fun st =>
    match m st with
    | (Ret a, st') => k a st'
    | (Raise e, st') => (Raise e, st')
    end.

(** [try: m except ...]: [clause e] is the body of the clause that
    matches [e], [None] when no clause does. *)
Definition try_except {W A} (m : M W A) (clause : exn -> option (M W A)) : M W A :=
  fun st =>
    match m st with
    | (Raise e, st') =>
        match clause e with
        | Some recover => recover st'
        | None => (Raise e, st')
        end
    | r => r
    end.

Notation "x <- m ;; k" := (bind m (fun x => k))
  (at level 61, m at next level, right associativity).
Notation "m ;; k" := (bind m (fun _ => k))
  (at level 61, right associativity).

(** One call: the handler answers, and the call joins the events. *)
Definition perform {W A} (h : handler W) (c : call A) : M W A :=
  fun st =>
    let (r, w) := h A c (world st) in
    (match r with Ok a => Ret a | Err e => Raise e end,
     mkState w (events st ++ [Event c])).

(** ** The functions of [bot.py] *)

Definition MERGE_TMP_BRANCH : string := "merge-tmp".

(** The message of the commit that [_commit_go_mod_updates] makes and
    that [_do_rebase] prunes. *)
Definition GO_MOD_COMMIT_MESSAGE : string :=
  "UPSTREAM: <carry>: Updating and vendoring go modules after an upstream rebase".

Definition dquote : ascii := "034"%char.

Definition newline : ascii := "010"%char.

(** A commit buffered for squashing: [{"sha": ..., "commit_message": ...}] *)
Record squash_entry := {
  entry_sha : string;
  entry_message : string
}.

(** [commits_to_squash]: a [defaultdict(list)], iterated in the order in
    which its keys were first used. *)
Definition squash_map : Type := list (string * list squash_entry).

(** [commits_to_squash[key].append(entry)] *)
Fixpoint squash_append (key : string) (entry : squash_entry) (d : squash_map)
  : squash_map :=
  match d with
  | [] => [(key, [entry])]
  | (k, v) :: d' =>
      if String.eqb k key then (k, v ++ [entry]) :: d'
      else (k, v) :: squash_append key entry d'
  end.

(** [sha, commit_message, committer_email = commit.split(" || ", 2)]:
    [None] stands for the [ValueError] of an unpacking that does not get
    three parts. *)
Definition split_commit_line (commit : string) : option (string * string * string) :=
  match Py.find " || " commit with
  | Some (sha, rest) =>
      match Py.find " || " rest with
      | Some (commit_message, committer_email) =>
          Some (sha, commit_message, committer_email)
      | None => None
      end
  | None => None
  end.

(** Lines 148-149: the tag of a message that starts with ["UPSTREAM: "],
    the text between that prefix and the next colon. *)
Definition commit_tag (commit_message : string) : string :=
  Py.split_head ":" (Py.removeprefix "UPSTREAM: " commit_message).

(** Lines 166-171. *)
Fixpoint _in_excluded_commits (sha : string) (exclude_commits : list string) : bool :=
  match exclude_commits with
  | [] => false
  | excluded_sha :: rest =>
      if Py.startswith excluded_sha sha then true
      else _in_excluded_commits sha rest
  end.

Definition allowed_conflict_prefixes : list string :=
  ["UD "; "DU "; "AU "; "UA "; "DD "].

Definition allowed_status_prefixes : list string :=
  ["M  "; "D  "; "A  "].

(** Where a block of [run] leaves it: at a [return], or at the statement
    after the block. *)
Inductive flow (A : Type) :=
| Return (result : bool)
| Next (a : A).
Arguments Return {A} result.
Arguments Next {A} a.

(** [{source.url}:{source.branch} into {dest.ns}/{dest.name}:{dest.branch}],
    the subject of the messages of lines 635-654. *)
Definition rebase_target (source dest : GitHubBranch) : string :=
  (url source ++ ":" ++ branch source ++ " into " ++ ns dest ++ "/" ++ name dest
     ++ ":" ++ branch dest)%string.

(** The message of lines 585 and 589. *)
Definition manual_label_message (dest_repo : Repository) (pull_req : PullRequest)
  : string :=
  ("Repo " ++ clone_url dest_repo ++ " has PR " ++ html_url pull_req
     ++ " with 'rebase/manual' label, aborting")%string.

(** The message of lines 639-642. *)
Definition manual_intervention_message (source dest : GitHubBranch) (ex : string)
  : string :=
  ("Manual intervention is needed to rebase " ++ rebase_target source dest
     ++ ": " ++ ex)%string.

Section Bot.

Variable W : Type.
Variable h : handler W.

(** The codec chain of line 315,
    [encode('ascii').decode('unicode_escape').encode('latin1').decode(defenc)],
    belongs to Python's codecs: it is a parameter, and it may raise. *)
Variable unicode_unescape : string -> res string.

(** [gitwd.git.<command>(...)] *)
Definition git (args : list string) : M W string := perform h (Git args).

(** Lines 59-63. *)
Definition _message_slack (webhook_url : option string) (msg : string) : M W unit :=
  match webhook_url with
  | None => ret tt
  | Some u => perform h (SlackPost u msg)
  end.

(** Lines 115-129. *)
Definition _needs_rebase (source dest : GitHubBranch) : M W bool :=
  try_except
    (branches_with_commit <-
       git [ "branch"; "-r"; "--contains"; ("source/" ++ branch source)%string ] ;;
     let dest_branch := ("dest/" ++ branch dest)%string in
     if existsb (fun b => String.eqb (Py.lstrip b) dest_branch)
          (Py.splitlines branches_with_commit)
     then ret false
     else ret true)
    (fun ex => match ex with
               | GitCommandError _ => Some (ret true)
               | _ => None
               end).

(** Lines 132-135. *)
Definition _is_pr_merged (pr_number : N) (source_repo : Repository) : M W bool :=
  gh_pr <- perform h (GhPullRequest source_repo pr_number) ;;
  perform h (GhIsMerged gh_pr).

(** Lines 138-163. *)
Definition _add_to_rebase (commit_message : string) (source_repo : Repository)
    (tag_policy : string) : M W bool :=
  let valid_tag_policy := ["soft"; "strict"; "none"] in
  if negb (Py.in_list tag_policy valid_tag_policy) then
    raise (Exception_ ("Unknown tag policy: " ++ tag_policy))
  else if String.eqb tag_policy "none" then ret true
  else if Py.startswith "UPSTREAM: " commit_message then
    let commit_message := Py.removeprefix "UPSTREAM: " commit_message in
    let commit_tag := Py.split_head ":" commit_message in
    if String.eqb commit_tag "<drop>" then ret false
    else if String.eqb commit_tag "<carry>" then ret true
    else if Py.isnumeric commit_tag then
      match Py.int commit_tag with
      | Some pr_number =>
          merged <- _is_pr_merged pr_number source_repo ;;
          ret (negb merged)
      | None => raise ValueError
      end
    else raise (Exception_ ("Unknown commit message tag: " ++ commit_tag))
  else ret (String.eqb tag_policy "soft").

(** Lines 311-319: the file of one status line; a name in double quotes
    is unquoted and unescaped. *)
Definition status_filename (line : string) : res string :=
  let filename := Py.rstrip_char newline (Py.drop 3 line) in
  match filename, Py.last_char filename with
  | String first _, Some last_ =>
      if Ascii.eqb first last_ && Ascii.eqb last_ dquote
      then unicode_unescape (Py.drop_last (Py.drop 1 filename))
      else Ok filename
  | _, _ => Err IndexError
  end.

(** Lines 301-319, the loop over the status lines: [Ok None] is the
    [return False] of line 310, [Ok (Some ud_files)] the end of the loop. *)
Fixpoint scan_status (lines ud_files : list string) : res (option (list string)) :=
  match lines with
  | [] => Ok (Some ud_files)
  | line :: rest =>
      let file_status := Py.take 3 line in
      if Py.in_list file_status allowed_status_prefixes then
        scan_status rest ud_files
      else if negb (Py.in_list file_status allowed_conflict_prefixes) then
        Ok None
      else
        match status_filename line with
        | Ok filename => scan_status rest (ud_files ++ [filename])
        | Err e => Err e
        end
  end.

(** Lines 321-322. *)
Fixpoint rm_all (ud_files : list string) : M W unit :=
  match ud_files with
  | [] => ret tt
  | ud_file :: rest => git ["rm"; ud_file] ;; rm_all rest
  end.

(** Lines 281-326. *)
Definition _resolve_conflict : M W bool :=
  status <- git ["status"; "--porcelain"] ;;
  match status with
  | EmptyString =>
      git ["cherry-pick"; "--skip"] ;;
      ret true
  | _ =>
      match scan_status (Py.splitlines status) [] with
      | Err e => raise e
      | Ok None => ret false
      | Ok (Some ud_files) =>
          rm_all ud_files ;;
          git ["commit"; "--no-edit"] ;;
          ret true
      end
  end.

(** Lines 329-338.  The source recurses with no bound of its own: the
    bound is the interpreter's.  [fuel] is the number of nested calls that
    the interpreter still has room for, and the call after the last of
    them raises [RecursionError]. *)
Fixpoint _resolve_rebase_conflicts (fuel : nat) : M W bool :=
  match fuel with
  | O => raise RecursionError
  | S fuel' =>
      try_except
        (resolved <- _resolve_conflict ;;
         if negb resolved then ret false else ret true)
        (fun ex => match ex with
                   | GitCommandError _ => Some (_resolve_rebase_conflicts fuel')
                   | _ => None
                   end)
  end.

(** Lines 226-230 and 238-242, the same statement twice: cherry-pick
    [sha], and on a git error try to resolve the conflict. *)
Definition cherry_pick_or_resolve (fuel : nat) (sha : string) : M W unit :=
  try_except
    (git [ "cherry-pick"; sha; "-Xtheirs" ] ;; ret tt)
    (fun ex => match ex with
               | GitCommandError _ =>
                   Some (resolved <- _resolve_rebase_conflicts fuel ;;
                         if negb resolved
                         then raise (RepoException
                                       ("Git rebase failed: " ++ str_of_exn ex))
                         else ret tt)
               | _ => None
               end).

Section Replay.

Variable fuel : nat.
Variable source_repo : Repository.
Variable tag_policy : string.
Variable bot_emails : list string.
Variable exclude_commits : list string.
Variable update_go_modules : bool.

(** Line 178. *)
Definition allow_bot_squash : bool := 0 <? List.length bot_emails.

(** Lines 194-230: the loop over the lines of the log, with
    [commits_to_squash] as it stands. *)
Fixpoint replay_commits (commits : list string) (commits_to_squash : squash_map)
  : M W squash_map :=
  match commits with
  | [] => ret commits_to_squash
  | commit :: rest =>
      match split_commit_line commit with
      | None => raise ValueError
      | Some (sha, commit_message, committer_email) =>
          if _in_excluded_commits sha exclude_commits then
            replay_commits rest commits_to_squash
          else if update_go_modules
                  && String.eqb commit_message GO_MOD_COMMIT_MESSAGE then
            replay_commits rest commits_to_squash
          else
            add <- _add_to_rebase commit_message source_repo tag_policy ;;
            if negb add then replay_commits rest commits_to_squash
            else
              let email := Py.split_last "+" committer_email in
              if allow_bot_squash && Py.in_list email bot_emails then
                replay_commits rest
                  (squash_append email
                     {| entry_sha := sha; entry_message := commit_message |}
                     commits_to_squash)
              else
                cherry_pick_or_resolve fuel sha ;;
                replay_commits rest commits_to_squash
      end
  end.

(** Lines 237-242. *)
Fixpoint pick_buffered (value : list squash_entry) : M W unit :=
  match value with
  | [] => ret tt
  | commit :: rest =>
      cherry_pick_or_resolve fuel (entry_sha commit) ;;
      pick_buffered rest
  end.

(** Lines 236-247, one bot: [value[-1]] of an empty list is an
    [IndexError]. *)
Definition squash_bot (key : string) (value : list squash_entry) : M W unit :=
  pick_buffered value ;;
  git [ "reset"; "--soft"; ("HEAD~" ++ Py.str_of_nat (List.length value))%string ] ;;
  match List.rev value with
  | [] => raise IndexError
  | newest :: _ =>
      let newest_bot_commit_message := entry_message newest in
      git [ "commit"; "-m"; newest_bot_commit_message; "--author"; key ] ;;
      ret tt
  end.

(** Line 235. *)
Fixpoint squash_bots (commits_to_squash : squash_map) : M W unit :=
  match commits_to_squash with
  | [] => ret tt
  | (key, value) :: rest => squash_bot key value ;; squash_bots rest
  end.

(** Lines 174-247. *)
Definition _do_rebase (source dest : GitHubBranch) : M W unit :=
  merge_base <-
    git [ "merge-base"; ("source/" ++ branch source)%string;
          ("dest/" ++ branch dest)%string ] ;;
  commits <-
    git [ "log"; "--reverse"; "--pretty=format:%H || %s || %aE"; "--no-merges";
          "--ancestry-path"; (merge_base ++ "..dest/" ++ branch dest)%string ] ;;
  commits_to_squash <- replay_commits (Py.splitlines commits) [] ;;
  if allow_bot_squash then squash_bots commits_to_squash else ret tt.

End Replay.

(** Lines 74-82: the [for] over [go.mod] and [go.sum]; a failed checkout
    is the [break]. *)
Fixpoint reset_go_files (source : GitHubBranch) (module_base_path : string)
    (filenames : list string) : M W unit :=
  match filenames with
  | [] => ret tt
  | filename :: rest =>
      let full_path := Py.path_join module_base_path filename in
      present <- perform h (OsPathExists full_path) ;;
      if negb present then reset_go_files source module_base_path rest
      else
        checked_out <-
          try_except
            (git [ "checkout"; ("source/" ++ branch source)%string; full_path ] ;;
             ret true)
            (fun _ => Some (ret false)) ;;
        if checked_out then reset_go_files source module_base_path rest
        else ret tt
  end.

(** Lines 69-99, one module root. *)
Definition update_go_module (source : GitHubBranch) (filepath : string) : M W unit :=
  let module_base_path := Py.dirname filepath in
  try_except
    (reset_go_files source module_base_path [ "go.mod"; "go.sum" ] ;;
     perform h (Subprocess "go mod tidy" module_base_path) ;;
     vendored <- perform h (OsPathExists (Py.path_join module_base_path "vendor")) ;;
     if vendored
     then perform h (Subprocess "go mod vendor" module_base_path) ;; ret tt
     else ret tt)
    (fun err => match err with
                | CalledProcessError _ stderr =>
                    Some (raise (RepoException
                                   ("Unable to update go modules: " ++ str_of_exn err
                                      ++ ": " ++ stderr)))
                | _ => None
                end).

Fixpoint update_go_modules_in (source : GitHubBranch) (filepaths : list string)
  : M W unit :=
  match filepaths with
  | [] => ret tt
  | filepath :: rest =>
      update_go_module source filepath ;; update_go_modules_in source rest
  end.

(** Lines 66-112. *)
Definition _commit_go_mod_updates (source : GitHubBranch) : M W unit :=
  filepaths <- perform h (Glob "./**/go.mod") ;;
  update_go_modules_in source filepaths ;;
  dirty <- perform h IsDirty ;;
  if dirty then
    try_except
      (git [ "add"; "--all" ] ;;
       git [ "commit"; "-m"; GO_MOD_COMMIT_MESSAGE ] ;;
       ret tt)
      (fun err => Some (raise err))
  else ret tt.

(** Lines 253-258 and 271-276: delete a branch, whether it exists or not. *)
Definition delete_branch (branch_name : string) : M W unit :=
  try_except
    (git [ "branch"; "--force"; "-d"; branch_name ] ;; ret tt)
    (fun ex => match ex with
               | GitCommandError _ => Some (ret tt)
               | _ => None
               end).

(** Lines 250-278. *)
Definition _prepare_rebase_branch (source dest : GitHubBranch) : M W unit :=
  delete_branch MERGE_TMP_BRANCH ;;
  git [ "checkout"; "-b"; MERGE_TMP_BRANCH; ("source/" ++ branch source)%string ] ;;
  git [ "checkout"; ("dest/" ++ branch dest)%string ] ;;
  commit <-
    git [ "commit-tree"; (MERGE_TMP_BRANCH ++ "^{tree}")%string;
          "-p"; "HEAD"; "-p"; MERGE_TMP_BRANCH; "-m";
          ("merge upstream/" ++ branch source ++ " into " ++ branch dest)%string ] ;;
  delete_branch "rebase" ;;
  git [ "checkout"; "-b"; "rebase"; commit ] ;;
  ret tt.

(** Lines 341-353. *)
Definition _is_push_required (dest source rebase : GitHubBranch) : M W bool :=
  needs_rebase <- _needs_rebase source dest ;;
  if negb needs_rebase then ret false
  else
    known <- perform h (RemoteHasRef "rebase" (branch rebase)) ;;
    if known then
      diff_index <- git [ "diff"; ("rebase/" ++ branch rebase)%string ] ;;
      if String.length diff_index =? 0 then ret false else ret true
    else ret true.

(** Lines 356-366: [.next()] of an iterator with nothing left raises
    [StopIteration]. *)
Definition _is_pr_available (dest_repo : Repository) (rebase : GitHubBranch)
  : M W (option PullRequest * bool) :=
  try_except
    (prs <- perform h (GhPullRequests dest_repo
                         (Some (ns rebase ++ ":" ++ branch rebase)%string)) ;;
     match prs with
     | gh_pr :: _ => ret (Some gh_pr, true)
     | [] => raise StopIteration
     end)
    (fun ex => match ex with
               | StopIteration => Some (ret (None, false))
               | _ => None
               end).

(** The title of lines 381 and 513, from ["Merge"] on. *)
Definition merge_title (source dest : GitHubBranch) (source_head_commit : string)
  : string :=
  ("Merge " ++ url source ++ ":" ++ branch source ++ " (" ++ source_head_commit
     ++ ") into " ++ branch dest)%string.

(** Lines 369-389. *)
Definition _create_pr (dest source rebase : GitHubBranch) : M W string :=
  source_head_commit <-
    git [ "rev-parse"; "--short=7"; ("source/" ++ branch source)%string ] ;;
  repo <- perform h (GhRepository github_app (ns dest) (name dest)) ;;
  pull_request <-
    perform h (GhCreatePull repo (merge_title source dest source_head_commit)
                 (ns rebase ++ ":" ++ branch rebase)%string (branch dest) false) ;;
  ret (html_url pull_request).

(** Lines 392-398. *)
Definition is_ref_a_tag (ref : string) : M W bool :=
  try_except
    (git [ "show-ref"; "--tags"; ref ] ;; ret true)
    (fun ex => match ex with
               | GitCommandError _ => Some (ret false)
               | _ => None
               end).

(** Lines 412-420, one remote. *)
Definition configure_remote (remote remote_url : string) : M W unit :=
  known <- perform h (RemoteExists remote) ;;
  if known then perform h (RemoteSetUrl remote remote_url)
  else perform h (RemoteCreate remote remote_url).

(** Lines 430-440, one credential. *)
Definition configure_credential (git_username git_email repo credentials : string)
  : M W unit :=
  perform h (ConfigSet
               ("credential " ++ String dquote repo ++ String dquote "")%string
               "helper"
               (String dquote "!f() { echo " ++ String dquote "password="
                  ++ credentials ++ String dquote "; }; f" ++ String dquote "")%string) ;;
  (if negb (String.eqb git_email "")
   then perform h (ConfigSet "user" "email" git_email) else ret tt) ;;
  (if negb (String.eqb git_username "")
   then perform h (ConfigSet "user" "name" git_username) else ret tt) ;;
  perform h (ConfigSet "merge" "renameLimit" "999999").

(** Lines 401-479, with [workdir] at its default. *)
Definition _init_working_dir (source dest rebase : GitHubBranch)
    (git_username git_email : string) : M W unit :=
  perform h (RepoInit ".") ;;
  configure_remote "source" (url source) ;;
  configure_remote "dest" (url dest) ;;
  configure_remote "rebase" (url rebase) ;;
  perform h (ConfigSet "credential" "username" "x-access-token") ;;
  perform h (ConfigSet "credential" "useHttpPath" "true") ;;
  app_token <- perform h AppToken ;;
  cloner_token <- perform h ClonerToken ;;
  configure_credential git_username git_email (url dest) app_token ;;
  configure_credential git_username git_email (url rebase) cloner_token ;;
  perform h (RemoteFetch "dest" (branch dest)) ;;
  perform h (RemoteFetch "source" (branch source)) ;;
  perform h (RemoteFetch "source" "refs/tags/*:refs/tags/*") ;;
  is_tag <- is_ref_a_tag (branch source) ;;
  (if is_tag
   then git [ "branch"; "-f"; ("source/" ++ branch source)%string; branch source ] ;;
        ret tt
   else ret tt) ;;
  let source_ref := ("source/" ++ branch source)%string in
  rebase_ref <- git [ "ls-remote"; "--heads"; "rebase"; branch rebase ] ;;
  (if 0 <? String.length rebase_ref
   then perform h (RemoteFetch "rebase" (branch rebase)) else ret tt) ;;
  head_commit <- git [ "rev-parse"; source_ref ] ;;
  has_rebase <- perform h (HeadExists "rebase") ;;
  (if has_rebase then perform h (HeadSetCommit "rebase" head_commit)
   else perform h (HeadCreate "rebase" head_commit)) ;;
  git [ "checkout"; "rebase" ] ;;
  perform h (HeadReset true true).

(** Lines 482-489. *)
Definition _manual_rebase_pr_in_repo (repo : Repository) : M W (option PullRequest) :=
  prs <- perform h (GhPullRequests repo None) ;;
  ret (List.find (fun pull_req => Py.in_list "rebase/manual" (labels pull_req)) prs).

(** Lines 492-500: [result[0]] of an empty list is an [IndexError].  The
    message of line 500 prints the [GitHubBranch] object itself, with the
    text that its class gives it outside [bot.py]; the name of the branch
    stands for that text here, and [run] does not pass it on. *)
Definition _push_rebase_branch (rebase : GitHubBranch) : M W unit :=
  result <- perform h (RemotePush "rebase" ("HEAD:" ++ branch rebase)%string) ;;
  match result with
  | [] => raise IndexError
  | first :: _ =>
      if negb (N.eqb (N.land (flags first) PushInfo_ERROR) 0)
      then raise (Exception_ ("Error pushing to " ++ branch rebase ++ ": "
                                ++ summary first))
      else ret tt
  end.

(** Lines 503-518. *)
Definition _update_pr_title (pull_req : PullRequest) (source dest : GitHubBranch)
  : M W unit :=
  source_head_commit <-
    git [ "rev-parse"; "--short=7"; ("source/" ++ branch source)%string ] ;;
  if Py.count "Merge" (title pull_req) =? 1 then
    let tags := Py.split_head "Merge" (title pull_req) in
    let new_title := (tags ++ merge_title source dest source_head_commit)%string in
    updated <- perform h (GhUpdateTitle pull_req new_title) ;;
    if negb updated
    then raise (Exception_ ("Error updating title for pull request: "
                              ++ html_url pull_req))
    else ret tt
  else ret tt.

(** Lines 523-546: the message of a successful run. *)
Definition report_message (push_required pr_available : bool) (pr_url dest_url : string)
  : string :=
  if push_required then
    if negb pr_available
    then ("I created a new rebase PR: " ++ pr_url)%string
    else ("I updated existing rebase PR: " ++ pr_url)%string
  else if negb (String.eqb pr_url "") then
    if negb pr_available
    then ("I created a new rebase PR: " ++ pr_url)%string
    else ("PR " ++ pr_url ++ " already contains the latest changes")%string
  else ("Destination repo " ++ dest_url ++ " already contains the latest changes")%string.

(** Lines 521-550. *)
Definition _report_result (push_required pr_available : bool)
    (pr_url dest_url : string) (slack_webhook : option string) : M W unit :=
  _message_slack slack_webhook
    (report_message push_required pr_available pr_url dest_url).

Section Run.

Variable fuel : nat.
Variables source dest rebase : GitHubBranch.
Variable working_dir : string.
Variables git_username git_email : string.
Variable slack_webhook : option string.
Variable tag_policy : string.
Variables bot_emails exclude_commits : list string.
Variables update_go_modules dry_run ignore_manual_label : bool.


(** Lines 573-599: the repositories, and the check for a pull request
    labelled [rebase/manual]. *)
Definition run_lookup : M W (flow (Repository * Repository)) :=
  try_except
    (dest_repo <- perform h (GhRepository github_app (ns dest) (name dest)) ;;
     rebase_repo <-
       perform h (GhRepository github_cloner_app (ns rebase) (name rebase)) ;;
     source_repo <- perform h (GhRepository github_app (ns source) (name source)) ;;
     if negb ignore_manual_label then
       pull_req <- _manual_rebase_pr_in_repo dest_repo ;;
       match pull_req with
       | Some pr =>
           _message_slack slack_webhook (manual_label_message dest_repo pr) ;;
           ret (Return true)
       | None => ret (Next (dest_repo, source_repo))
       end
     else ret (Next (dest_repo, source_repo)))
    (fun ex =>
       Some (_message_slack slack_webhook
               ("I got an error fetching repo information from GitHub: "
                  ++ str_of_exn ex)%string ;;
             ret (Return false))).

(** Lines 601-622: the working directory. *)
Definition run_workdir : M W (flow unit) :=
  try_except (perform h (OsMkdir working_dir))
    (fun ex => match ex with
               | FileExistsError => Some (ret tt)
               | _ => None
               end) ;;
  try_except
    (perform h (OsChdir working_dir) ;;
     _init_working_dir source dest rebase git_username git_email ;;
     ret (Next tt))
    (fun ex =>
       Some (_message_slack slack_webhook
               ("I got an error initializing the git directory: "
                  ++ str_of_exn ex)%string ;;
             ret (Return false))).

(** Lines 625-632: the body of the third [try]. *)
Definition rebase_phase (source_repo : Repository) : M W unit :=
  needs_rebase <- _needs_rebase source dest ;;
  if needs_rebase then
    _prepare_rebase_branch source dest ;;
    _do_rebase fuel source_repo tag_policy bot_emails exclude_commits
      update_go_modules source dest ;;
    if update_go_modules then _commit_go_mod_updates source else ret tt
  else ret tt.

(** Lines 624-656. *)
Definition run_rebase (source_repo : Repository) : M W (flow unit) :=
  try_except
    (rebase_phase source_repo ;; ret (Next tt))
    (fun ex =>
       match ex with
       | RepoException _ =>
           Some (_message_slack slack_webhook
                   (manual_intervention_message source dest (str_of_exn ex)) ;;
                 ret (Return true))
       | _ =>
           Some (_message_slack slack_webhook
                   ("I got an error trying to rebase " ++ rebase_target source dest
                      ++ ": " ++ str_of_exn ex)%string ;;
                 ret (Return false))
       end).

(** Lines 667-689: the push, and the title of a pull request that exists. *)
Definition run_push (push_required pr_available : bool)
    (pull_req : option PullRequest) : M W (flow unit) :=
  if push_required then
    pushed <-
      try_except
        (_push_rebase_branch rebase ;; ret (Next tt))
        (fun ex =>
           Some (_message_slack slack_webhook
                   ("I got an error pushing to " ++ ns rebase ++ "/" ++ name rebase
                      ++ ":" ++ branch rebase)%string ;;
                 ret (Return false))) ;;
    match pushed with
    | Return result => ret (Return result)
    | Next _ =>
        if pr_available then
          try_except
            (match pull_req with
             | Some pr => _update_pr_title pr source dest
             | None => raise (OtherError "AttributeError")
             end ;;
             ret (Next tt))
            (fun ex =>
               Some (match pull_req with
                     | Some pr =>
                         _message_slack slack_webhook
                           ("I got an error changing title of PR " ++ ns dest ++ "/"
                              ++ name dest ++ " #" ++ Py.str_of_N (id pr) ++ ": "
                              ++ str_of_exn ex)%string
                     | None => raise (OtherError "AttributeError")
                     end ;;
                     ret (Return false)))
        else ret (Next tt)
    end
  else ret (Next tt).

(** Lines 662-712: everything after the dry-run check. *)
Definition run_publish (dest_repo : Repository) : M W bool :=
  push_required <- _is_push_required dest source rebase ;;
  available <- _is_pr_available dest_repo rebase ;;
  let (pull_req, pr_available) := available in
  let pr_url := match pull_req with
                | Some pr => html_url pr
                | None => EmptyString
                end in
  pushed <- run_push push_required pr_available pull_req ;;
  match pushed with
  | Return result => ret result
  | Next _ =>
      created <-
        try_except
          (if negb pr_available && push_required
           then new_url <- _create_pr dest source rebase ;; ret (Next new_url)
           else ret (Next pr_url))
          (fun ex =>
             match ex with
             | UnprocessableEntity _ response =>
                 Some (_message_slack slack_webhook
                         ("Failed to create a pull request: " ++ str_of_exn ex
                            ++ String newline " Response: " ++ response)%string ;;
                       ret (Return false))
             | _ =>
                 Some (_message_slack slack_webhook
                         ("I got an error creating a rebase PR in " ++ ns dest ++ "/"
                            ++ name dest ++ ": " ++ str_of_exn ex)%string ;;
                       ret (Return false))
             end) ;;
      match created with
      | Return result => ret result
      | Next pr_url =>
          _report_result push_required pr_available pr_url (url dest) slack_webhook ;;
          ret true
      end
  end.

(** Lines 553-712. *)
Definition run : M W bool :=
  looked_up <- run_lookup ;;
  match looked_up with
  | Return result => ret result
  | Next (dest_repo, source_repo) =>
      prepared <- run_workdir ;;
      match prepared with
      | Return result => ret result
      | Next _ =>
          rebased <- run_rebase source_repo ;;
          match rebased with
          | Return result => ret result
          | Next _ =>
              if dry_run then ret true
              else run_publish dest_repo
          end
      end
  end.

End Run.

End Bot.

Arguments git {W} h args.
Arguments _message_slack {W} h webhook_url msg.
Arguments _needs_rebase {W} h source dest.
Arguments _is_pr_merged {W} h pr_number source_repo.
Arguments _add_to_rebase {W} h commit_message source_repo tag_policy.
Arguments rm_all {W} h ud_files.
Arguments _resolve_conflict {W} h unicode_unescape.
Arguments _resolve_rebase_conflicts {W} h unicode_unescape fuel.
Arguments cherry_pick_or_resolve {W} h unicode_unescape fuel sha.
Arguments replay_commits {W} h unicode_unescape fuel source_repo tag_policy
  bot_emails exclude_commits update_go_modules commits commits_to_squash.
Arguments pick_buffered {W} h unicode_unescape fuel value.
Arguments squash_bot {W} h unicode_unescape fuel key value.
Arguments squash_bots {W} h unicode_unescape fuel commits_to_squash.
Arguments _do_rebase {W} h unicode_unescape fuel source_repo tag_policy
  bot_emails exclude_commits update_go_modules source dest.
Arguments reset_go_files {W} h source module_base_path filenames.
Arguments update_go_module {W} h source filepath.
Arguments update_go_modules_in {W} h source filepaths.
Arguments _commit_go_mod_updates {W} h source.
Arguments delete_branch {W} h branch_name.
Arguments is_ref_a_tag {W} h ref.
Arguments configure_remote {W} h remote remote_url.
Arguments configure_credential {W} h git_username git_email repo credentials.
Arguments _prepare_rebase_branch {W} h source dest.
Arguments _is_push_required {W} h dest source rebase.
Arguments _is_pr_available {W} h dest_repo rebase.
Arguments _create_pr {W} h dest source rebase.
Arguments _init_working_dir {W} h source dest rebase git_username git_email.
Arguments _manual_rebase_pr_in_repo {W} h repo.
Arguments _push_rebase_branch {W} h rebase.
Arguments _update_pr_title {W} h pull_req source dest.
Arguments _report_result {W} h push_required pr_available pr_url dest_url
  slack_webhook.
Arguments run_lookup {W} h source dest rebase slack_webhook ignore_manual_label.
Arguments run_workdir {W} h source dest rebase working_dir git_username git_email
  slack_webhook.
Arguments rebase_phase {W} h unicode_unescape fuel source dest tag_policy
  bot_emails exclude_commits update_go_modules source_repo.
Arguments run_rebase {W} h unicode_unescape fuel source dest slack_webhook
  tag_policy bot_emails exclude_commits update_go_modules source_repo.
Arguments run_push {W} h source dest rebase slack_webhook push_required
  pr_available pull_req.
Arguments run_publish {W} h source dest rebase slack_webhook dest_repo.
Arguments run {W} h unicode_unescape fuel source dest rebase working_dir
  git_username git_email slack_webhook tag_policy bot_emails exclude_commits
  update_go_modules dry_run ignore_manual_label.

(** ** Simulated worlds

    A world whose state is a clock: the number of calls answered so far.
    [answers] says what each call gets at each time. *)

Definition simulated (answers : forall A : Type, call A -> nat -> res A)
  : handler nat :=
  fun A c t => (answers A c t, S t).

(** A world where nothing goes wrong and nothing is there: git prints
    nothing, no remote, ref or file exists, GitHub lists no pull request. *)
Definition quiet_answer (A : Type) (c : call A) : res A :=
  match c in call T return res T with
  | Git _ => Ok EmptyString
  | RepoInit _ => Ok tt
  | RemoteExists _ => Ok false
  | RemoteSetUrl _ _ => Ok tt
  | RemoteCreate _ _ => Ok tt
  | ConfigSet _ _ _ => Ok tt
  | AppToken => Ok "app-token"
  | ClonerToken => Ok "cloner-token"
  | RemoteFetch _ _ => Ok tt
  | RemotePush _ _ => Ok [ {| flags := 0; summary := EmptyString |} ]
  | RemoteHasRef _ _ => Ok false
  | HeadExists _ => Ok false
  | HeadSetCommit _ _ => Ok tt
  | HeadCreate _ _ => Ok tt
  | HeadReset _ _ => Ok tt
  | IsDirty => Ok false
  | OsMkdir _ => Ok tt
  | OsChdir _ => Ok tt
  | OsPathExists _ => Ok false
  | Glob _ => Ok []
  | Subprocess _ _ => Ok EmptyString
  | GhRepository _ ns_ name_ =>
      Ok {| repo_ns := ns_; repo_name := name_;
            clone_url := ("https://github.com/" ++ ns_ ++ "/" ++ name_)%string |}
  | GhPullRequests _ _ => Ok []
  | GhPullRequest _ n =>
      Ok {| number := n; id := n; title := EmptyString; html_url := EmptyString;
            labels := [] |}
  | GhIsMerged _ => Ok false
  | GhCreatePull _ title_ _ _ _ =>
      Ok {| number := 1; id := 1; title := title_;
            html_url := "https://github.com/pull/1"; labels := [] |}
  | GhUpdateTitle _ _ => Ok true
  | SlackPost _ _ => Ok tt
  end.

Definition quiet : handler nat := simulated (fun A c _ => quiet_answer A c).

(** No file name of these worlds carries an escape. *)
Definition no_escapes (s : string) : res string := Ok s.

Definition start : state nat := mkState 0 [].

Definition upstream : Repository :=
  {| repo_ns := "kubernetes"; repo_name := "autoscaler";
     clone_url := "https://github.com/kubernetes/autoscaler" |}.

(** ** Notions used by the statements *)

(** The git commands [cmds], run one after the other from the world [w],
    all succeed and leave the world [w']. *)
Fixpoint git_all_succeed {W} (h : handler W) (cmds : list (list string))
    (w w' : W) : Prop :=
  match cmds with
  | [] => w' = w
  | args :: rest =>
      exists out w1,
        h string (Git args) w = (Ok out, w1) /\ git_all_succeed h rest w1 w'
  end.

(** A status line whose code is one of the single-side changes that the
    automaton passes over. *)
Definition ignored_entry (line : string) : bool :=
  Py.in_list (Py.take 3 line) allowed_status_prefixes.

(** A status line whose code is one of the five delete/modify shapes. *)
Definition conflict_entry (line : string) : bool :=
  Py.in_list (Py.take 3 line) allowed_conflict_prefixes.

(** [k] attempts of [_resolve_conflict] in a row, from [st], each raise a
    [GitCommandError], and leave the state [st']. *)
Fixpoint attempts_raise {W} (h : handler W) (unicode_unescape : string -> res string)
    (k : nat) (st st' : state W) : Prop :=
  match k with
  | O => st' = st
  | S k' =>
      exists detail st1,
        _resolve_conflict h unicode_unescape st
        = (Raise (GitCommandError detail), st1)
        /\ attempts_raise h unicode_unescape k' st1 st'
  end.

(** A world for the retry cycle, whose state says whether [old.txt] has
    been removed from the index.  The picked commit deletes [old.txt],
    which the branch has modified: the status is [UD old.txt] until
    [git rm] has removed the file, and [D  old.txt], a staged deletion,
    from then on.  A pre-commit hook of the working directory refuses
    every [git commit]. *)
Definition hook_refuses : handler bool :=
  fun A c removed =>
    match c in call T return res T * bool with
    | Git args =>
        if Py.in_list "status" args
        then (Ok (if removed then "D  old.txt" else "UD old.txt"), removed)
        else if Py.in_list "rm" args then (Ok "rm 'old.txt'", true)
        else if Py.in_list "commit" args
             then (Err (GitCommandError "pre-commit hook exited with code 1"),
                   removed)
             else (Ok EmptyString, removed)
    | other => (quiet_answer _ other, removed)
    end.

(** The calls of [git status --porcelain], one for each attempt of
    [_resolve_conflict]. *)
Definition is_status_call (e : event) : bool :=
  match e with
  | Event c =>
      match c with
      | Git [cmd; flag] => String.eqb cmd "status" && String.eqb flag "--porcelain"
      | _ => false
      end
  end.

(** A world where a cherry-pick stops and the status is empty: the change
    of the commit is already there. *)
Definition already_applied : handler nat :=
  simulated (fun A c _ =>
    match c in call T return res T with
    | Git args =>
        if Py.in_list "-Xtheirs" args
        then Err (GitCommandError "The previous cherry-pick is now empty")
        else Ok EmptyString
    | other => quiet_answer _ other
    end).

Definition LF : string := String newline EmptyString.

(** A world where a cherry-pick stops on two files deleted on one side. *)
Definition deleted_files : handler nat :=
  simulated (fun A c _ =>
    match c in call T return res T with
    | Git args =>
        if Py.in_list "-Xtheirs" args
        then Err (GitCommandError "CONFLICT (modify/delete)")
        else if Py.in_list "status" args
             then Ok ("DD old.txt" ++ LF ++ "UD docs/gone.md")%string
             else Ok EmptyString
    | other => quiet_answer _ other
    end).

(** A world where a cherry-pick stops on a file changed on both sides. *)
Definition both_modified : handler nat :=
  simulated (fun A c _ =>
    match c in call T return res T with
    | Git args =>
        if Py.in_list "-Xtheirs" args
        then Err (GitCommandError "CONFLICT (content)")
        else if Py.in_list "status" args
             then Ok ("DD old.txt" ++ LF ++ "UU main.go")%string
             else Ok EmptyString
    | other => quiet_answer _ other
    end).

(** A world where removing the conflicting file leaves nothing to commit:
    the first status shows the file, [git commit] then fails on an empty
    pick, and the status asked again is empty. *)
Definition empty_after_removal : handler nat :=
  simulated (fun A c t =>
    match c in call T return res T with
    | Git args =>
        if Py.in_list "status" args
        then (if t <? 3 then Ok "DD old.txt" else Ok EmptyString)
        else if Py.in_list "commit" args
             then Err (GitCommandError "nothing to commit")
             else Ok EmptyString
    | other => quiet_answer _ other
    end).

(** A world where the source head is [def5678]. *)
Definition head_def5678 : handler nat :=
  simulated (fun A c _ =>
    match c in call T return res T with
    | Git args =>
        if Py.in_list "rev-parse" args then Ok "def5678" else Ok EmptyString
    | other => quiet_answer _ other
    end).

Definition old_old : GitHubBranch :=
  {| ns := "old-org"; name := "old"; branch := "old"; url := "old" |}.

Definition downstream_main : GitHubBranch :=
  {| ns := "openshift"; name := "old"; branch := "main";
     url := "https://github.com/openshift/old" |}.

Definition jira_pr : PullRequest :=
  {| number := 7; id := 7007;
     title := "[JIRA-1] Merge old:old (abc1234) into main";
     html_url := "https://github.com/openshift/old/pull/7"; labels := [] |}.

(** The events a computation adds, whatever its outcome, all satisfy [P]. *)
Definition emits {W A} (P : event -> Prop) (m : M W A) : Prop :=
  forall st,
    exists added, events (snd (m st)) = events st ++ added /\ Forall P added.

(** The commands that build the rebase branch: a cherry-pick of a commit,
    a soft reset, and a commit with a message and an author. *)
Definition is_replay_command (args : list string) : bool :=
  match args with
  | [cmd; a; b] =>
      (String.eqb cmd "cherry-pick" && String.eqb b "-Xtheirs")
      || (String.eqb cmd "reset" && String.eqb a "--soft")
  | [cmd; m; _; author; _] =>
      String.eqb cmd "commit" && String.eqb m "-m" && String.eqb author "--author"
  | _ => false
  end.

Definition is_replay (e : event) : bool :=
  match e with
  | Event c =>
      match c with
      | Git args => is_replay_command args
      | _ => false
      end
  end.

(** The replay of a run: its replay commands, in the order issued. *)
Definition replayed (l : list event) : list event := filter is_replay l.

(** The calls of the part of [run] that follows the dry-run check: the
    queries of [_is_push_required] and [_is_pr_available] that nothing
    before them makes, the push, and the creation or the retitling of a
    pull request. *)
Definition is_publish (e : event) : bool :=
  match e with
  | Event c =>
      match c with
      | Git (cmd :: _) => String.eqb cmd "diff"
      | RemoteHasRef _ _ => true
      | RemotePush _ _ => true
      | GhPullRequests _ (Some _) => true
      | GhCreatePull _ _ _ _ _ => true
      | GhUpdateTitle _ _ => true
      | _ => false
      end
  end.

Definition quiet_event (e : event) : Prop :=
  is_replay e = false /\ is_publish e = false.

Definition not_publish (e : event) : Prop := is_publish e = false.

(** ** The replay as the specification words it *)

(** A commit of the range, as one line of the log gives it. *)
Record Commit := {
  sha : string;
  message : string;
  author_email : string
}.

Definition commit_parts (c : Commit) : string * string * string :=
  (sha c, message c, author_email c).

(** The identity behind an author email: what follows its last [+]. *)
Definition bot_identity (c : Commit) : string :=
  Py.split_last "+" (author_email c).

Definition by_bot (bot_emails : list string) (c : Commit) : bool :=
  Py.in_list (bot_identity c) bot_emails.

(** A commit that reaches the tag rules: its hash is not excluded, and it
    is not the go modules commit of an earlier run. *)
Definition offered (exclude_commits : list string) (update_go_modules : bool)
    (c : Commit) : bool :=
  negb (_in_excluded_commits (sha c) exclude_commits)
  && negb (update_go_modules && String.eqb (message c) GO_MOD_COMMIT_MESSAGE).

(** The tag rules answer [carry c] for each commit [c] of the range that
    reaches them, in whatever state they are asked. *)
Definition verdicts {W} (h : handler W) (source_repo : Repository)
    (tag_policy : string) (exclude_commits : list string) (update_go_modules : bool)
    (carry : Commit -> bool) (commits : list Commit) : Prop :=
  forall c, In c commits -> offered exclude_commits update_go_modules c = true ->
    forall st, exists st',
        _add_to_rebase h (message c) source_repo tag_policy st = (Ret (carry c), st').

Definition pick_event (commit_sha : string) : event :=
  Event (Git ["cherry-pick"; commit_sha; "-Xtheirs"]).

Definition reset_event (n : nat) : event :=
  Event (Git ["reset"; "--soft"; ("HEAD~" ++ Py.str_of_nat n)%string]).

Definition commit_event (msg author : string) : event :=
  Event (Git ["commit"; "-m"; msg; "--author"; author]).

(** The keys of a list in the order of their first appearance. *)
Fixpoint first_seen (keys : list string) : list string :=
  match keys with
  | [] => []
  | k :: rest => k :: filter (fun k' => negb (String.eqb k' k)) (first_seen rest)
  end.

(** One bot's commits picked in order, then collapsed into one commit
    that carries the last message and the bot as author. *)
Definition squashed_group (key : string) (group : list Commit) : list event :=
  map (fun c => pick_event (sha c)) group
  ++ [reset_event (List.length group);
      commit_event (last (map message group) EmptyString) key].

(** What the claim says the replay of the carried commits is: the commits
    of no bot, in their order; then, bot by bot in the order in which the
    bots first appear, that bot's commits squashed. *)
Definition expected_replay (bot_emails : list string) (carried : list Commit)
  : list event :=
  let bots := filter (by_bot bot_emails) carried in
  map (fun c => pick_event (sha c))
    (filter (fun c => negb (by_bot bot_emails c)) carried)
  ++ flat_map
       (fun key =>
          squashed_group key
            (filter (fun c => String.eqb (bot_identity c) key) bots))
       (first_seen (map bot_identity bots)).

Definition entry_of (c : Commit) : squash_entry :=
  {| entry_sha := sha c; entry_message := message c |}.

(** [commits_to_squash] after the bot commits [bots] were buffered, in
    order, on top of [squash]. *)
Definition buffer (squash : squash_map) (bots : list Commit) : squash_map :=
  fold_left (fun d c => squash_append (bot_identity c) (entry_of c) d) bots squash.

(** The bot commits grouped by identity, identities in the order of their
    first appearance, commits in their order. *)
Definition groups (bots : list Commit) : squash_map :=
  map (fun key =>
         (key, map entry_of (filter (fun c => String.eqb (bot_identity c) key) bots)))
    (first_seen (map bot_identity bots)).

(** ** A range of carried commits

    Five commits over the merge base, two of them by a bot (one under an
    anonymised address); pull request 42 of the source is merged; the
    cherry-pick of [a3] stops on a file deleted on both sides. *)

Definition range_log : string :=
  ("a1 || UPSTREAM: <carry>: fix X || dev@example.com" ++ LF
   ++ "b1 || UPSTREAM: <carry>: bump deps || 41898282+bot@example.com" ++ LF
   ++ "a2 || UPSTREAM: 42: revert Y || dev@example.com" ++ LF
   ++ "a3 || add feature || dev@example.com" ++ LF
   ++ "b2 || UPSTREAM: <carry>: bump deps again || bot@example.com")%string.

Definition range_commits : list Commit :=
  [ {| sha := "a1"; message := "UPSTREAM: <carry>: fix X";
       author_email := "dev@example.com" |};
    {| sha := "b1"; message := "UPSTREAM: <carry>: bump deps";
       author_email := "41898282+bot@example.com" |};
    {| sha := "a2"; message := "UPSTREAM: 42: revert Y";
       author_email := "dev@example.com" |};
    {| sha := "a3"; message := "add feature";
       author_email := "dev@example.com" |};
    {| sha := "b2"; message := "UPSTREAM: <carry>: bump deps again";
       author_email := "bot@example.com" |} ].

Definition carries : handler nat :=
  simulated (fun A c _ =>
    match c in call T return res T with
    | Git args =>
        if Py.in_list "log" args then Ok range_log
        else if Py.in_list "a3" args
             then Err (GitCommandError "CONFLICT (modify/delete)")
             else if Py.in_list "status" args then Ok "DD old.txt"
                  else Ok EmptyString
    | GhIsMerged _ => Ok true
    | other => quiet_answer _ other
    end).

(** What the tag rules say in that world under [soft]: all but the commit
    of the merged pull request are carried. *)
Definition range_carry (c : Commit) : bool :=
  negb (String.eqb (sha c) "a2").

Definition upstream_branch : GitHubBranch :=
  {| ns := "kubernetes"; name := "autoscaler"; branch := "master";
     url := "https://github.com/kubernetes/autoscaler" |}.

Definition downstream_branch : GitHubBranch :=
  {| ns := "openshift"; name := "autoscaler"; branch := "main";
     url := "https://github.com/openshift/autoscaler" |}.

Definition rebase_branch : GitHubBranch :=
  {| ns := "openshift-bot"; name := "autoscaler"; branch := "rebase-bot-main";
     url := "https://github.com/openshift-bot/autoscaler" |}.

(** The notification is delivered: the webhook, when one is configured,
    answers every post. *)
Definition notified {W} (h : handler W) (slack_webhook : option string) : Prop :=
  forall msg st, exists st', _message_slack h slack_webhook msg st = (Ret tt, st').

(** The events of one notification. *)
Definition slack_events (slack_webhook : option string) (msg : string) : list event :=
  match slack_webhook with
  | None => []
  | Some webhook_url => [Event (SlackPost webhook_url msg)]
  end.

Definition has_manual_label (pull_req : PullRequest) : bool :=
  Py.in_list "rebase/manual" (labels pull_req).

(** A world where the destination has an open pull request labelled
    [rebase/manual]. *)
Definition held_pr : PullRequest :=
  {| number := 12; id := 1200; title := "Merge by hand";
     html_url := "https://github.com/openshift/autoscaler/pull/12";
     labels := ["approved"; "rebase/manual"] |}.


(** A world where the one carried commit stops on a file changed on both
    sides. *)
Definition unresolvable : handler nat :=
  simulated (fun A c _ =>
    match c in call T return res T with
    | Git args =>
        if Py.in_list "log" args then Ok "a3 || add feature || dev@example.com"
        else if Py.in_list "-Xtheirs" args
             then Err (GitCommandError "CONFLICT (content)")
             else if Py.in_list "status" args then Ok "UU main.go"
                  else Ok EmptyString
    | other => quiet_answer _ other
    end).

(** Git answers every command. *)
Definition git_succeeds {W} (h : handler W) : Prop :=
  forall args w, exists out w', h string (Git args) w = (Ok out, w').

(** The number of places of [s] at which [sub] starts. *)
Fixpoint occurrences (sub s : string) : nat :=
  match s with
  | EmptyString => 0
  | String _ s' => (if Py.startswith sub s then 1 else 0) + occurrences sub s'
  end.

(** The replay commands of the squash phase for a buffer, bot by bot. *)
Definition squashed (squash : squash_map) : list event :=
  flat_map (fun kv =>
              map (fun e => pick_event (entry_sha e)) (snd kv)
              ++ [reset_event (List.length (snd kv));
                  commit_event (last (map entry_message (snd kv)) EmptyString)
                    (fst kv)])
    squash.

(** ** Notions used by the further properties *)

(** A line of [git log --pretty=format:%H || %s || %aE] for a commit: its
    hash, its subject and its author email, joined by [" || "]. *)
Definition log_line (c : Commit) : string :=
  (sha c ++ " || " ++ message c ++ " || " ++ author_email c)%string.

(** No vertical bar occurs in [s]. *)
Definition no_bar (s : string) : bool :=
  Py.forallb_string (fun ch => negb (Ascii.eqb ch "|")) s.

(** The commit that a cherry-pick event picks. *)
Definition picked_sha (e : event) : option string :=
  match e with
  | Event c =>
      match c with
      | Git [cmd; commit_sha; flag] =>
          if String.eqb cmd "cherry-pick" && String.eqb flag "-Xtheirs"
          then Some commit_sha else None
      | _ => None
      end
  end.

(** An event that picks no commit matched by an exclusion. *)
Definition spares_excluded (exclude_commits : list string) (e : event) : Prop :=
  forall commit_sha,
    picked_sha e = Some commit_sha ->
    _in_excluded_commits commit_sha exclude_commits = false.

(** The one-half sign, numeric and no decimal digit. *)
Definition one_half : string := String (ascii_of_nat 189) EmptyString.

(** The events a computation adds, whatever its outcome, all satisfy [P],
    and the value it returns, when it returns, satisfies [Q]. *)
Definition yields {W A} (P : event -> Prop) (Q : A -> Prop) (m : M W A) : Prop :=
  forall st,
    (exists added, events (snd (m st)) = events st ++ added /\ Forall P added)
    /\ forall a, fst (m st) = Ret a -> Q a.

(** Every commit buffered for squashing passed the exclusions. *)
Definition spared_buffer (exclude_commits : list string) (d : squash_map) : Prop :=
  Forall (fun kv =>
            Forall (fun e => _in_excluded_commits (entry_sha e) exclude_commits = false)
              (snd kv)) d.

(** A world where a cherry-pick stops with two staged changes and one file
    deleted on both sides. *)
Definition staged_and_deleted : handler nat :=
  simulated (fun A c _ =>
    match c in call T return res T with
    | Git args =>
        if Py.in_list "-Xtheirs" args
        then Err (GitCommandError "CONFLICT (modify/delete)")
        else if Py.in_list "status" args
             then Ok ("M  kept.go" ++ LF ++ "DD old.txt" ++ LF ++ "A  new.go")%string
             else Ok EmptyString
    | other => quiet_answer _ other
    end).

(** The answer of a branch deletion that [_prepare_rebase_branch] goes
    on after: the branch was deleted, or git refused. *)
Definition tolerated (r : res string) : Prop :=
  match r with
  | Ok _ => True
  | Err (GitCommandError _) => True
  | Err _ => False
  end.

(** A world where the remote refuses the push. *)
Definition push_rejected : handler nat :=
  simulated (fun A c _ =>
    match c in call T return res T with
    | RemotePush _ _ =>
        Ok [ {| flags := 1032; summary := "[rejected] (fetch first)" |};
             {| flags := 0; summary := EmptyString |} ]
    | other => quiet_answer _ other
    end).

(** A world where only a later result of the push carries the error
    flag. *)
Definition push_error_later : handler nat :=
  simulated (fun A c _ =>
    match c in call T return res T with
    | RemotePush _ _ =>
        Ok [ {| flags := 128; summary := "forced update" |};
             {| flags := 1024; summary := "error" |} ]
    | other => quiet_answer _ other
    end).

(** A world where the rebase branch is on the remote and differs from
    what the bot built. *)
Definition rebase_branch_differs : handler nat :=
  simulated (fun A c _ =>
    match c in call T return res T with
    | Git args =>
        if Py.in_list "diff" args then Ok "diff --git a/go.mod b/go.mod"
        else Ok EmptyString
    | RemoteHasRef _ _ => Ok true
    | other => quiet_answer _ other
    end).

(** A world where git has no branch to delete. *)
Definition no_branch_to_delete : handler nat :=
  simulated (fun A c _ =>
    match c in call T return res T with
    | Git args =>
        if Py.in_list "-d" args then Err (GitCommandError "branch not found")
        else if Py.in_list "commit-tree" args then Ok "c0ffee"
             else Ok EmptyString
    | other => quiet_answer _ other
    end).

Definition approved_pr : PullRequest :=
  {| number := 11; id := 1100; title := "Bump deps";
     html_url := "https://github.com/openshift/autoscaler/pull/11";
     labels := ["approved"] |}.

(** A world where the second open pull request of the destination is
    labelled [rebase/manual]. *)
Definition second_held_back : handler nat :=
  simulated (fun A c _ =>
    match c in call T return res T with
    | GhPullRequests _ _ => Ok [approved_pr; held_pr; jira_pr]
    | other => quiet_answer _ other
    end).

(** A computation that never ends in an exception. *)
Definition never_raises {W A} (m : M W A) : Prop :=
  forall st e, fst (m st) <> Raise e.

(** [os.mkdir] creates the directory or finds it there. *)
Definition mkdir_settles {W} (h : handler W) (working_dir : string) : Prop :=
  forall w, exists r w',
      h unit (OsMkdir working_dir) w = (r, w')
      /\ (r = Ok tt \/ r = Err FileExistsError).

(** The git subcommands of the bot. *)
Definition git_subcommands : list string :=
  [ "add"; "checkout"; "cherry-pick"; "commit"; "commit-tree"; "diff"; "log";
    "ls-remote"; "merge-base"; "rev-parse"; "rm"; "show-ref"; "status" ].

(** A git command line within bounds: one of the subcommands above; a
    [branch] that lists remote branches, forces one branch onto a ref, or
    force-deletes [merge-tmp] or [rebase]; a [reset] that is soft. *)
Definition git_within_bounds (args : list string) : bool :=
  match args with
  | [] => false
  | cmd :: options =>
      if String.eqb cmd "branch" then
        match options with
        | [a; b; c] =>
            (String.eqb a "-r" && String.eqb b "--contains")
            || String.eqb a "-f"
            || (String.eqb a "--force" && String.eqb b "-d"
                && Py.in_list c [MERGE_TMP_BRANCH; "rebase"])
        | _ => false
        end
      else if String.eqb cmd "reset" then
        match options with
        | [a; _] => String.eqb a "--soft"
        | _ => false
        end
      else Py.in_list cmd git_subcommands
  end.

(** The four parts of a run, in their order: the lookups on GitHub, the
    set-up of the working directory, the rebase, and the publication of
    its result. *)
Inductive part := InLookup | InSetup | InRebase | InPublish.

Definition part_eqb (p q : part) : bool :=
  match p, q with
  | InLookup, InLookup | InSetup, InSetup | InRebase, InRebase
  | InPublish, InPublish => true
  | _, _ => false
  end.

(** A call within the bounds of a part of the run.

    A command line handed to [gitwd.git] is within bounds, in every part
    but the lookup, which runs none.  The calls that create the
    repository, set remotes and configuration, read the tokens, fetch,
    create or move a head, and reset [HEAD] through
    [gitwd.head.reset(index=True, working_tree=True)], which is a hard
    reset, belong to the set-up alone, as do [os.mkdir] and [os.chdir].
    The go tools, [go mod tidy] and [go mod vendor] and no other command,
    belong to the rebase alone, as do the reads of the file system and of
    one pull request of the source repository.  A repository and its open
    pull requests are read in the lookup and in the publication.  A push
    belongs to the publication alone, and is a push of [HEAD] to the
    rebase branch on the remote [rebase]; so do the creation and the
    retitling of a pull request, and the look at the refs of the remote
    [rebase].  A post goes to the configured webhook. *)
Definition within_bounds (now : part) (rebase : GitHubBranch)
    (slack_webhook : option string) (e : event) : bool :=
  match e with
  | Event c =>
      match c with
      | Git args => negb (part_eqb now InLookup) && git_within_bounds args
      | RepoInit _ | RemoteExists _ | RemoteSetUrl _ _ | RemoteCreate _ _
      | ConfigSet _ _ _ | AppToken | ClonerToken | RemoteFetch _ _
      | HeadExists _ | HeadSetCommit _ _ | HeadCreate _ _ | HeadReset _ _
      | OsMkdir _ | OsChdir _ => part_eqb now InSetup
      | IsDirty | OsPathExists _ | Glob _ | GhPullRequest _ _ | GhIsMerged _ =>
          part_eqb now InRebase
      | Subprocess command _ =>
          part_eqb now InRebase
          && Py.in_list command ["go mod tidy"; "go mod vendor"]
      | GhRepository _ _ _ | GhPullRequests _ _ =>
          part_eqb now InLookup || part_eqb now InPublish
      | RemoteHasRef _ _ => part_eqb now InPublish
      | RemotePush remote refspec =>
          part_eqb now InPublish
          && String.eqb remote "rebase"
          && String.eqb refspec ("HEAD:" ++ branch rebase)
      | GhCreatePull _ _ _ _ _ | GhUpdateTitle _ _ => part_eqb now InPublish
      | SlackPost webhook_url _ =>
          match slack_webhook with
          | Some configured => String.eqb webhook_url configured
          | None => false
          end
      end
  end.

(** A world where GitHub cannot be reached. *)
Definition github_down : handler nat :=
  simulated (fun A c _ =>
    match c in call T return res T with
    | GhRepository _ _ _ => Err (OtherError "ConnectionError")
    | other => quiet_answer _ other
    end).

(** A world where a pull request is labelled [rebase/manual] and the
    first post to the webhook fails. *)
Definition label_unannounced : handler nat :=
  simulated (fun A c t =>
    match c in call T return res T with
    | GhPullRequests _ None => Ok [held_pr]
    | SlackPost _ _ => if t <? 5 then Err (OtherError "ReadTimeout") else Ok tt
    | other => quiet_answer _ other
    end).

(** A world where the working directory cannot be created. *)
Definition readonly_parent : handler nat :=
  simulated (fun A c _ =>
    match c in call T return res T with
    | OsMkdir _ => Err (OtherError "PermissionError")
    | other => quiet_answer _ other
    end).

(** A world where the rebase branch is on the remote and [git diff]
    fails. *)
Definition diff_fails : handler nat :=
  simulated (fun A c _ =>
    match c in call T return res T with
    | Git args =>
        if Py.in_list "diff" args then Err (GitCommandError "bad revision")
        else Ok EmptyString
    | RemoteHasRef _ _ => Ok true
    | other => quiet_answer _ other
    end).

(** A world where source and destination share no history. *)
Definition no_merge_base : handler nat :=
  simulated (fun A c _ =>
    match c in call T return res T with
    | Git args =>
        if Py.in_list "merge-base" args then Err (GitCommandError "exit code 1")
        else Ok EmptyString
    | other => quiet_answer _ other
    end).

(** A world with one go module whose [go mod tidy] fails. *)
Definition go_tidy_fails : handler nat :=
  simulated (fun A c _ =>
    match c in call T return res T with
    | Glob _ => Ok ["./go.mod"]
    | Subprocess _ _ =>
        Err (CalledProcessError
               "Command 'go mod tidy' returned non-zero exit status 1."
               "go: errors parsing go.mod")
    | other => quiet_answer _ other
    end).

Definition hook : option string := Some "https://hooks.example".

(** A world where the destination already holds the source head. *)
Definition up_to_date : handler nat :=
  simulated (fun A c _ =>
    match c in call T return res T with
    | Git args =>
        if Py.in_list "--contains" args
        then Ok ("  dest/main" ++ LF ++ "  source/master")%string
        else Ok EmptyString
    | other => quiet_answer _ other
    end).

(** The section of the git configuration that holds the credential
    helper of a repository, as line 431 writes it. *)
Definition credential_section (repo : string) : string :=
  ("credential " ++ String dquote repo ++ String dquote "")%string.

(** What the set-up of the working directory may do to remotes, to the
    git configuration and by fetching: point the remotes [source], [dest]
    and [rebase] at their addresses; set [user.email] and [user.name] to
    the configured values, when these are not empty; set a credential
    helper for the address of the destination and of the rebase
    repository; set other keys of the sections [credential] and [merge];
    fetch the configured branch of each remote, and the tags of the
    source.  No pull request is created or retitled, nothing is pushed or
    posted. *)
Definition init_within_bounds (source dest rebase : GitHubBranch)
    (git_username git_email : string) (e : event) : bool :=
  match e with
  | Event c =>
      match c with
      | RemoteSetUrl remote remote_url | RemoteCreate remote remote_url =>
          (String.eqb remote "source" && String.eqb remote_url (url source))
          || (String.eqb remote "dest" && String.eqb remote_url (url dest))
          || (String.eqb remote "rebase" && String.eqb remote_url (url rebase))
      | ConfigSet section key value =>
          if String.eqb section "user" then
            negb (String.eqb value EmptyString)
            && ((String.eqb key "email" && String.eqb value git_email)
                || (String.eqb key "name" && String.eqb value git_username))
          else if String.eqb key "helper" then
            String.eqb section (credential_section (url dest))
            || String.eqb section (credential_section (url rebase))
          else Py.in_list section ["credential"; "merge"]
      | RemoteFetch remote refspec =>
          (String.eqb remote "dest" && String.eqb refspec (branch dest))
          || (String.eqb remote "source"
              && (String.eqb refspec (branch source)
                  || String.eqb refspec "refs/tags/*:refs/tags/*"))
          || (String.eqb remote "rebase" && String.eqb refspec (branch rebase))
      | RemotePush _ _ => false
      | GhCreatePull _ _ _ _ _ => false
      | GhUpdateTitle _ _ => false
      | SlackPost _ _ => false
      | _ => true
      end
  end.

(** A world with one go module that the source does not have. *)
Definition module_of_the_fork : handler nat :=
  simulated (fun A c _ =>
    match c in call T return res T with
    | Glob _ => Ok ["./tools/go.mod"]
    | OsPathExists path => Ok (negb (String.eqb path "./tools/vendor"))
    | Git args =>
        if Py.in_list "checkout" args
        then Err (GitCommandError "pathspec did not match")
        else Ok EmptyString
    | other => quiet_answer _ other
    end).

(** A world where updating the go modules left changes in the tree. *)
Definition dirty_tree : handler nat :=
  simulated (fun A c _ =>
    match c in call T return res T with
    | IsDirty => Ok true
    | other => quiet_answer _ other
    end).

(** A tag that is numeric and no decimal literal: the superscript two. *)
Definition squared_message : string :=
  ("UPSTREAM: " ++ String (ascii_of_nat 178) EmptyString ++ ": square the matrix")%string.

(** A tag of 4301 decimal digits. *)
Definition long_numbered_message : string :=
  ("UPSTREAM: " ++ String.concat EmptyString (List.repeat "7"%string 4301)
     ++ ": count the stars")%string.


(** The exceptions whose text the model carries.  The others are raised
    by the interpreter itself, and their text is the interpreter's. *)
Definition carries_text (e : exn) : bool :=
  match e with
  | ValueError | IndexError | StopIteration | FileExistsError | RecursionError =>
      false
  | _ => true
  end.






(** ** A working tree of git, as far as the replay goes

    The commands of the replay act on a branch.  This world keeps the
    branch itself: what a cherry-pick, a skip, a soft reset and a commit
    do to it. *)

(** A commit of the branch: its subject, its author, and the changes it
    makes.  A change is named by the file it writes and by what it
    writes, as in [go.mod=v1.2], so that two commits make the same change
    when they write the same content to the same file. *)
Record Revision := {
  subject : string;
  author : string;
  changes : list string
}.

(** The working tree: the commits of the checked-out branch, from the
    oldest to [HEAD]; the changes that are staged, in the index and in no
    commit of the branch; and whether a cherry-pick has stopped. *)
Record WorkTree := {
  history : list Revision;
  staged : list string;
  stopped : bool
}.

(** The changes that the index holds. *)
Definition applied (tree : WorkTree) : list string :=
  flat_map changes (history tree) ++ staged tree.

(** [git cherry-pick <sha> -Xtheirs]: the commit is added to the branch
    with the changes that the index does not hold yet; when it holds them
    all the pick is empty, and git stops with an error and nothing
    staged. *)
Definition cherry_pick (range : list (Commit * list string)) (commit_sha : string)
    (tree : WorkTree) : res string * WorkTree :=
  match List.find (fun entry => String.eqb (sha (fst entry)) commit_sha) range with
  | None => (Err (GitCommandError ("fatal: bad revision '" ++ commit_sha ++ "'")), tree)
  | Some (commit, commit_changes) =>
      if stopped tree || negb (Nat.eqb (List.length (staged tree)) 0) then
        (Err (GitCommandError "error: your local changes would be overwritten"), tree)
      else
        match filter (fun change => negb (Py.in_list change (applied tree)))
                commit_changes with
        | [] =>
            (Err (GitCommandError "The previous cherry-pick is now empty"),
             {| history := history tree; staged := staged tree; stopped := true |})
        | fresh =>
            (Ok EmptyString,
             {| history := history tree
                           ++ [{| subject := message commit;
                                  author := author_email commit;
                                  changes := fresh |}];
                staged := staged tree; stopped := false |})
        end
  end.

(** [git cherry-pick --skip] *)
Definition skip_pick (tree : WorkTree) : res string * WorkTree :=
  if stopped tree then
    (Ok EmptyString,
     {| history := history tree; staged := staged tree; stopped := false |})
  else (Err (GitCommandError "error: no cherry-pick in progress"), tree).

(** [git reset --soft HEAD~n]: the last [n] commits leave the branch and
    their changes stay in the index, staged. *)
Definition reset_soft (target : string) (tree : WorkTree) : res string * WorkTree :=
  match Py.int (Py.removeprefix "HEAD~" target) with
  | Some back =>
      let n := N.to_nat back in
      if n <? List.length (history tree) then
        let kept := List.length (history tree) - n in
        (Ok EmptyString,
         {| history := firstn kept (history tree);
            staged := flat_map changes (skipn kept (history tree)) ++ staged tree;
            stopped := stopped tree |})
      else (Err (GitCommandError ("fatal: ambiguous argument '" ++ target ++ "'")), tree)
  | None => (Err (GitCommandError ("fatal: ambiguous argument '" ++ target ++ "'")), tree)
  end.

(** [git commit -m <msg> --author <who>]: one commit of what is staged. *)
Definition commit_as (msg who : string) (tree : WorkTree) : res string * WorkTree :=
  match staged tree with
  | [] => (Err (GitCommandError "nothing to commit, working tree clean"), tree)
  | staged_changes =>
      (Ok EmptyString,
       {| history := history tree
                     ++ [{| subject := msg; author := who; changes := staged_changes |}];
          staged := []; stopped := false |})
  end.

(** The commands of the replay on a working tree, [range] being the
    commits of the destination over the merge base, with their changes. *)
Definition git_answer (range : list (Commit * list string)) (args : list string)
    (tree : WorkTree) : res string * WorkTree :=
  let usage := (Err (GitCommandError "usage"), tree) in
  match args with
  | [] => usage
  | cmd :: options =>
      if String.eqb cmd "merge-base" then (Ok "0a1b2c3", tree)
      else if String.eqb cmd "log" then
        (Ok (String.concat LF (map (fun entry => log_line (fst entry)) range)), tree)
      else if String.eqb cmd "status" then
        (Ok (String.concat LF
               (map (fun change => ("M  " ++ Py.split_head "=" change)%string)
                  (staged tree))),
         tree)
      else if String.eqb cmd "cherry-pick" then
        match options with
        | [flag] => if String.eqb flag "--skip" then skip_pick tree else usage
        | [commit_sha; _] => cherry_pick range commit_sha tree
        | _ => usage
        end
      else if String.eqb cmd "reset" then
        match options with
        | [_; target] => reset_soft target tree
        | _ => usage
        end
      else if String.eqb cmd "commit" then
        match options with
        | [_; msg; _; who] => commit_as msg who tree
        | _ => usage
        end
      else usage
  end.

Definition mini_git (range : list (Commit * list string)) : handler WorkTree :=
  fun A c tree =>
    match c in call T return res T * WorkTree with
    | Git args => git_answer range args tree
    | other => (quiet_answer _ other, tree)
    end.

(** The commit that [_prepare_rebase_branch] makes and checks out as
    [rebase]: its tree is that of the source, where upstream has bumped
    its dependencies to v1.2. *)
Definition merge_of_source : Revision :=
  {| subject := "merge upstream/master into main"; author := "rebase-bot";
     changes := ["go.mod=v1.2"] |}.

(** The range of the destination: a fix of a developer, then two commits
    of the bot, the first of which bumped the dependencies as upstream has
    done since. *)
Definition bot_range : list (Commit * list string) :=
  [ ({| sha := "a1"; message := "UPSTREAM: <carry>: fix X";
        author_email := "dev@example.com" |}, ["pkg/x.go=fixed"]);
    ({| sha := "b1"; message := "UPSTREAM: <carry>: bump deps";
        author_email := "41898282+bot@example.com" |}, ["go.mod=v1.2"]);
    ({| sha := "b2"; message := "UPSTREAM: <carry>: bump deps again";
        author_email := "bot@example.com" |}, ["go.mod=v1.3"]) ].

(** The rebase branch as [_prepare_rebase_branch] leaves it. *)
Definition fresh_rebase_branch : state WorkTree :=
  mkState {| history := [merge_of_source]; staged := []; stopped := false |} [].

(** The replay of that range, with the bot configured. *)
Definition bot_replay : outcome unit * state WorkTree :=
  _do_rebase (mini_git bot_range) no_escapes 2 upstream "soft" ["bot@example.com"]
    [] false upstream_branch downstream_branch fresh_rebase_branch.


(** * Proofs *)

(** ** The monad *)

Section MonadFacts.

Context {W : Type} (h : handler W).

Lemma perform_answer {A} (c : call A) (st : state W) (r : res A) (w : W) :
  h A c (world st) = (r, w) ->
  perform h c st =
    (match r with Ok a => Ret a | Err e => Raise e end,
     mkState w (events st ++ [Event c])).
Proof.
  intros E. unfold perform. rewrite E. reflexivity.
Qed.

End MonadFacts.

(** ** Commit selection: [_add_to_rebase] *)

Lemma digit_is_numeric (c : ascii) :
  Py.is_digit c = true -> Py.is_numeric_char c = true.
Proof.
  intros D. unfold Py.is_numeric_char. rewrite D. reflexivity.
Qed.

Lemma digits_are_numeric (s : string) :
  Py.forallb_string Py.is_digit s = true ->
  Py.forallb_string Py.is_numeric_char s = true.
Proof.
  induction s as [|c s IH]; simpl; intros D; [reflexivity|].
  apply andb_true_iff in D as [Dc Ds].
  rewrite (digit_is_numeric c Dc), (IH Ds). reflexivity.
Qed.

(** A string that starts with a digit is neither [<drop>] nor [<carry>]. *)
Lemma digit_is_not_angle (c : ascii) :
  Py.is_digit c = true -> Ascii.eqb c "<" = false.
Proof.
  destruct c as [[] [] [] [] [] [] [] []]; vm_compute; congruence.
Qed.

Lemma int_of_digits (s : string) :
  s <> EmptyString -> Py.forallb_string Py.is_digit s = true ->
  String.length s <= 4300 ->
  Py.isnumeric s = true /\ Py.int s = Some (Py.digits_value 0 s)
  /\ String.eqb s "<drop>" = false /\ String.eqb s "<carry>" = false.
Proof.
  intros NE D L.
  assert (B : (N.of_nat (String.length s) <=? Py.max_str_digits)%N = true).
  { apply N.leb_le. unfold Py.max_str_digits.
    lia. }
  destruct s as [|c s]; [congruence|].
  unfold Py.isnumeric, Py.int. rewrite D, B, (digits_are_numeric _ D).
  simpl in D. apply andb_true_iff in D as [Dc _].
  simpl. rewrite (digit_is_not_angle c Dc). repeat split; reflexivity.
Qed.

(** C2, as amended: a message tagged [<carry>] is carried under each of
    the three tag policies; a message tagged [<drop>] is dropped under
    [soft] and [strict] and carried under [none], which carries every
    commit before any tag is read.  No call is made either way. *)
Theorem carry_and_drop_tags {W} (h : handler W) (commit_message : string)
    (source_repo : Repository) (tag_policy : string) (st : state W) :
  Py.startswith "UPSTREAM: " commit_message = true ->
  In tag_policy ["none"; "soft"; "strict"] ->
  (commit_tag commit_message = "<carry>" ->
   _add_to_rebase h commit_message source_repo tag_policy st = (Ret true, st))
  /\ (commit_tag commit_message = "<drop>" ->
      _add_to_rebase h commit_message source_repo tag_policy st
      = (Ret (String.eqb tag_policy "none"), st)).
Proof.
  intros P Hin. unfold commit_tag, _add_to_rebase.
  rewrite P.
  destruct Hin as [<-|[<-|[<-|[]]]];
    cbn [Py.in_list existsb String.eqb Ascii.eqb Bool.eqb orb negb andb];
    split; intros T; try reflexivity; rewrite T; reflexivity.
Qed.

(** C2 as the claim has it fails: under [none] a [<drop>] commit is
    carried. *)
Lemma drop_tag_carried_under_none :
  Py.startswith "UPSTREAM: " "UPSTREAM: <drop>: remove the fork" = true
  /\ commit_tag "UPSTREAM: <drop>: remove the fork" = "<drop>"
  /\ _add_to_rebase quiet "UPSTREAM: <drop>: remove the fork" upstream "none" start
     = (Ret true, start).
Proof.
  repeat split.
Qed.

Lemma carry_and_drop_tags_witness :
  _add_to_rebase quiet "UPSTREAM: <carry>: fix X" upstream "strict" start
  = (Ret true, start)
  /\ _add_to_rebase quiet "UPSTREAM: <drop>: fix Y" upstream "soft" start
     = (Ret false, start).
Proof.
  split.
  - apply (carry_and_drop_tags quiet "UPSTREAM: <carry>: fix X" upstream "strict" start).
    + reflexivity.
    + simpl. tauto.
    + reflexivity.
  - apply (carry_and_drop_tags quiet "UPSTREAM: <drop>: fix Y" upstream "soft" start).
    + reflexivity.
    + simpl. tauto.
    + reflexivity.
Defined.

(** C3, as amended: under [soft] and [strict], a message whose tag is a
    string of one to 4300 of the decimal digits [0] to [9] makes the bot
    look up the pull request of that number in the source repository and
    ask whether it is merged, these two calls and no other; the commit is
    dropped when the answer is yes and carried when it is no. *)
Theorem numeric_tag_follows_merged_status {W} (h : handler W)
    (commit_message : string) (source_repo : Repository) (tag_policy : string)
    (st : state W) (gh_pr : PullRequest) (merged : bool) (w1 w2 : W) :
  Py.startswith "UPSTREAM: " commit_message = true ->
  commit_tag commit_message <> EmptyString ->
  Py.forallb_string Py.is_digit (commit_tag commit_message) = true ->
  String.length (commit_tag commit_message) <= 4300 ->
  tag_policy = "soft" \/ tag_policy = "strict" ->
  let pr_number := Py.digits_value 0 (commit_tag commit_message) in
  h _ (GhPullRequest source_repo pr_number) (world st) = (Ok gh_pr, w1) ->
  h _ (GhIsMerged gh_pr) w1 = (Ok merged, w2) ->
  _add_to_rebase h commit_message source_repo tag_policy st
  = (Ret (negb merged),
     mkState w2 (events st ++ [Event (GhPullRequest source_repo pr_number);
                               Event (GhIsMerged gh_pr)])).
Proof.
  intros P NE D L Hpol pr_number Hpr Hm.
  destruct (int_of_digits _ NE D L) as (Hnum & Hint & Hdrop & Hcarry).
  unfold commit_tag in *. unfold _add_to_rebase. rewrite P.
  assert (Hvalid : Py.in_list tag_policy ["soft"; "strict"; "none"] = true)
    by (destruct Hpol as [-> | ->]; reflexivity).
  assert (Hnone : String.eqb tag_policy "none" = false)
    by (destruct Hpol as [-> | ->]; reflexivity).
  rewrite Hvalid, Hnone, Hdrop, Hcarry, Hnum, Hint.
  subst pr_number. unfold _is_pr_merged, bind, perform, ret.
  cbn [negb]. rewrite Hpr. cbn [world events]. rewrite Hm, <- app_assoc.
  reflexivity.
Qed.

Lemma numeric_tag_follows_merged_status_witness :
  _add_to_rebase quiet "UPSTREAM: 42: revert Y" upstream "soft" start
  = (Ret true,
     mkState 2
       [Event (GhPullRequest upstream 42);
        Event (GhIsMerged {| number := 42; id := 42; title := EmptyString;
                             html_url := EmptyString; labels := [] |})]).
Proof.
  apply (numeric_tag_follows_merged_status quiet "UPSTREAM: 42: revert Y"
           upstream "soft" start
           {| number := 42; id := 42; title := EmptyString;
              html_url := EmptyString; labels := [] |} false 1 2).
  - reflexivity.
  - discriminate.
  - reflexivity.
  - vm_compute. lia.
  - left. reflexivity.
  - reflexivity.
  - reflexivity.
Defined.

(** C3 as the claim has it fails: a tag can be numeric for
    [str.isnumeric] and still be no number that [int] reads.  The
    superscript two is numeric and no decimal digit; 4301 digits are one
    more than the interpreter converts.  Either tag ends the selection in
    a [ValueError], with no pull request looked up and no verdict. *)
Lemma numeric_tag_without_query :
  (Py.startswith "UPSTREAM: " squared_message = true
   /\ Py.isnumeric (commit_tag squared_message) = true
   /\ _add_to_rebase quiet squared_message upstream "soft" start
      = (Raise ValueError, start))
  /\ (Py.startswith "UPSTREAM: " long_numbered_message = true
      /\ Py.forallb_string Py.is_digit (commit_tag long_numbered_message) = true
      /\ String.length (commit_tag long_numbered_message) = 4301
      /\ _add_to_rebase quiet long_numbered_message upstream "strict" start
         = (Raise ValueError, start)).
Proof.
  split; repeat split; vm_compute; reflexivity.
Qed.

(** C4: a message that does not start with ["UPSTREAM: "] is carried
    under [soft] and dropped under [strict]; under [none] every message
    is carried, whatever it says.  No call is made. *)
Theorem untagged_follows_policy {W} (h : handler W) (source_repo : Repository)
    (st : state W) :
  (forall commit_message,
      Py.startswith "UPSTREAM: " commit_message = false ->
      _add_to_rebase h commit_message source_repo "soft" st = (Ret true, st)
      /\ _add_to_rebase h commit_message source_repo "strict" st = (Ret false, st))
  /\ (forall commit_message,
         _add_to_rebase h commit_message source_repo "none" st = (Ret true, st)).
Proof.
  split.
  - intros m U. unfold _add_to_rebase. rewrite U. split; reflexivity.
  - intros m. reflexivity.
Qed.

Lemma untagged_follows_policy_witness :
  _add_to_rebase quiet "add feature" upstream "soft" start = (Ret true, start)
  /\ _add_to_rebase quiet "add feature" upstream "strict" start = (Ret false, start).
Proof.
  apply (proj1 (untagged_follows_policy quiet upstream start) "add feature").
  reflexivity.
Defined.

(** ** The conflict automaton: [_resolve_conflict] and its retry cycle *)

Lemma resolve_once {W} (h : handler W) unicode_unescape (fuel : nat)
    (st st' : state W) (resolved : bool) :
  _resolve_conflict h unicode_unescape st = (Ret resolved, st') ->
  _resolve_rebase_conflicts h unicode_unescape (S fuel) st = (Ret resolved, st').
Proof.
  intros E. cbn [_resolve_rebase_conflicts]. unfold try_except, bind.
  rewrite E. destruct resolved; reflexivity.
Qed.

Lemma pick_then_resolve {W} (h : handler W) unicode_unescape (fuel : nat)
    (sha detail : string) (st : state W) (w : W) :
  h _ (Git ["cherry-pick"; sha; "-Xtheirs"]) (world st)
  = (Err (GitCommandError detail), w) ->
  cherry_pick_or_resolve h unicode_unescape fuel sha st
  = bind (_resolve_rebase_conflicts h unicode_unescape fuel)
      (fun resolved =>
         if negb resolved
         then raise (RepoException ("Git rebase failed: " ++ detail))
         else ret tt)
      (mkState w (events st ++ [Event (Git ["cherry-pick"; sha; "-Xtheirs"])])).
Proof.
  intros E. unfold cherry_pick_or_resolve, try_except, bind at 1, git, perform.
  rewrite E. reflexivity.
Qed.

(** C5: when the cherry-pick of a commit fails and the status report that
    follows is empty, the automaton runs [git cherry-pick --skip] and
    nothing else, no commit among it, and reports success; the replay
    goes on to the next commit. *)
Theorem empty_status_skips_pick {W} (h : handler W) unicode_unescape
    (fuel : nat) (sha detail out : string) (st : state W) (w0 w1 w2 : W) :
  h _ (Git ["cherry-pick"; sha; "-Xtheirs"]) (world st)
  = (Err (GitCommandError detail), w0) ->
  h _ (Git ["status"; "--porcelain"]) w0 = (Ok EmptyString, w1) ->
  h _ (Git ["cherry-pick"; "--skip"]) w1 = (Ok out, w2) ->
  let failed := mkState w0 (events st ++ [Event (Git ["cherry-pick"; sha; "-Xtheirs"])]) in
  let skipped :=
    mkState w2 (events st ++ [Event (Git ["cherry-pick"; sha; "-Xtheirs"]);
                              Event (Git ["status"; "--porcelain"]);
                              Event (Git ["cherry-pick"; "--skip"])]) in
  _resolve_conflict h unicode_unescape failed = (Ret true, skipped)
  /\ _resolve_rebase_conflicts h unicode_unescape (S fuel) failed = (Ret true, skipped)
  /\ cherry_pick_or_resolve h unicode_unescape (S fuel) sha st = (Ret tt, skipped).
Proof.
  intros Hpick Hstatus Hskip failed skipped.
  assert (E : _resolve_conflict h unicode_unescape failed = (Ret true, skipped)).
  { unfold _resolve_conflict, bind, git, perform, ret, failed, skipped.
    cbn [world events]. rewrite Hstatus. cbn [world events]. rewrite Hskip.
    rewrite <- !app_assoc. reflexivity. }
  split; [exact E|]. split; [exact (resolve_once h _ fuel _ _ _ E)|].
  rewrite (pick_then_resolve h _ _ _ _ _ _ Hpick).
  fold failed. unfold bind. rewrite (resolve_once h _ fuel _ _ _ E). reflexivity.
Qed.

Lemma empty_status_skips_pick_witness :
  cherry_pick_or_resolve already_applied no_escapes 1 "abc123" start
  = (Ret tt,
     mkState 3 [Event (Git ["cherry-pick"; "abc123"; "-Xtheirs"]);
                Event (Git ["status"; "--porcelain"]);
                Event (Git ["cherry-pick"; "--skip"])]).
Proof.
  apply (empty_status_skips_pick already_applied no_escapes 0 "abc123"
           "The previous cherry-pick is now empty" EmptyString start 1 2 3);
    reflexivity.
Defined.

Lemma in_list_In (x : string) (l : list string) :
  Py.in_list x l = true -> In x l.
Proof.
  unfold Py.in_list. intros E. apply existsb_exists in E as (y & Hy & Exy).
  apply String.eqb_eq in Exy. subst y. exact Hy.
Qed.

(** The two lists of status codes share no code. *)
Lemma conflict_not_ignored (line : string) :
  conflict_entry line = true -> ignored_entry line = false.
Proof.
  unfold conflict_entry, ignored_entry. intros C.
  apply in_list_In in C. unfold allowed_conflict_prefixes in C.
  repeat (destruct C as [<- | C]; [reflexivity|]). destruct C.
Qed.

Lemma scan_status_conflicts unicode_unescape (lines files : list string) :
  Forall2 (fun line file =>
             conflict_entry line = true
             /\ status_filename unicode_unescape line = Ok file) lines files ->
  forall ud_files,
    scan_status unicode_unescape lines ud_files = Ok (Some (ud_files ++ files)).
Proof.
  induction 1 as [|line file lines files [C F] _ IH]; intros ud_files.
  - cbn. rewrite app_nil_r. reflexivity.
  - cbn [scan_status].
    pose proof (conflict_not_ignored line C) as I.
    unfold conflict_entry in C. unfold ignored_entry in I.
    rewrite I, C, F. cbn [negb]. rewrite IH, <- app_assoc. reflexivity.
Qed.

Lemma scan_status_unresolvable unicode_unescape (lines : list string) :
  Exists (fun line => ignored_entry line = false /\ conflict_entry line = false)
    lines ->
  Forall (fun line => conflict_entry line = true ->
                      exists file, status_filename unicode_unescape line = Ok file)
    lines ->
  forall ud_files, scan_status unicode_unescape lines ud_files = Ok None.
Proof.
  induction lines as [|line lines IH]; intros Bad Wf ud_files.
  - inversion Bad.
  - cbn [scan_status]. inversion Wf as [|? ? Wline Wrest]; subst.
    unfold ignored_entry, conflict_entry in *.
    destruct (Py.in_list (Py.take 3 line) allowed_status_prefixes) eqn:I.
    + apply IH; [|exact Wrest].
      inversion Bad as [? ? [B _]|]; subst; [congruence|assumption].
    + destruct (Py.in_list (Py.take 3 line) allowed_conflict_prefixes) eqn:C;
        cbn [negb]; [|reflexivity].
      destruct (Wline eq_refl) as [file F]. rewrite F.
      apply IH; [|exact Wrest].
      inversion Bad as [? ? [_ B]|]; subst; [congruence|assumption].
Qed.

Lemma rm_all_succeeds {W} (h : handler W) (more : list (list string)) (w' : W)
    (files : list string) :
  forall st : state W,
    git_all_succeed h (map (fun file => ["rm"; file]) files ++ more) (world st) w' ->
    exists w,
      rm_all h files st
      = (Ret tt, mkState w (events st ++ map (fun file => Event (Git ["rm"; file])) files))
      /\ git_all_succeed h more w w'.
Proof.
  induction files as [|file files IH]; intros st G.
  - exists (world st). cbn. rewrite app_nil_r. destruct st. split; [reflexivity|exact G].
  - cbn in G. destruct G as (out & w1 & E & G).
    destruct (IH (mkState w1 (events st ++ [Event (Git ["rm"; file])])) G)
      as (w & R & G').
    exists w. split; [|exact G'].
    cbn [rm_all map]. unfold bind, git, perform. rewrite E, R.
    cbn [events]. rewrite <- app_assoc. reflexivity.
Qed.

(** C6: when the status report after a failed cherry-pick holds only
    entries of the five delete/modify shapes, the automaton removes each
    listed file, in the order of the report, commits with [--no-edit] (the
    message of the pick as it is), and reports success; when some entry
    has a code that is neither one of these five nor one of the three
    single-side codes it passes over, it reports the conflict as
    unresolvable, having removed nothing and committed nothing. *)
Theorem delete_modify_conflicts {W} (h : handler W) unicode_unescape
    (fuel : nat) (st : state W) (report : string) (w1 : W) :
  h _ (Git ["status"; "--porcelain"]) (world st) = (Ok report, w1) ->
  let lines := Py.splitlines report in
  let asked := events st ++ [Event (Git ["status"; "--porcelain"])] in
  (forall (files : list string) (w2 : W),
      report <> EmptyString ->
      Forall2 (fun line file =>
                 conflict_entry line = true
                 /\ status_filename unicode_unescape line = Ok file) lines files ->
      git_all_succeed h
        (map (fun file => ["rm"; file]) files ++ [["commit"; "--no-edit"]]) w1 w2 ->
      let resolved :=
        mkState w2 (asked ++ map (fun file => Event (Git ["rm"; file])) files
                      ++ [Event (Git ["commit"; "--no-edit"])]) in
      _resolve_conflict h unicode_unescape st = (Ret true, resolved)
      /\ _resolve_rebase_conflicts h unicode_unescape (S fuel) st = (Ret true, resolved))
  /\ (Exists (fun line => ignored_entry line = false /\ conflict_entry line = false)
        lines ->
      Forall (fun line => conflict_entry line = true ->
                          exists file, status_filename unicode_unescape line = Ok file)
        lines ->
      _resolve_conflict h unicode_unescape st = (Ret false, mkState w1 asked)
      /\ _resolve_rebase_conflicts h unicode_unescape (S fuel) st
         = (Ret false, mkState w1 asked)).
Proof.
  intros Hstatus lines asked. split.
  - intros files w2 NE Shapes G resolved.
    assert (E : _resolve_conflict h unicode_unescape st = (Ret true, resolved)).
    { unfold _resolve_conflict, bind at 1, git at 1, perform. rewrite Hstatus.
      destruct report as [|c report]; [congruence|].
      fold lines. rewrite (scan_status_conflicts _ _ _ Shapes []). cbn [app].
      destruct (rm_all_succeeds h _ w2 files (mkState w1 asked) G) as (w & R & G').
      cbn in G'. destruct G' as (out & w3 & C & ->).
      unfold bind. fold asked. rewrite R. unfold git, perform. cbn [world events].
      rewrite C. unfold ret, resolved. rewrite <- app_assoc. reflexivity. }
    split; [exact E|exact (resolve_once h _ fuel _ _ _ E)].
  - intros Bad Wf.
    assert (E : _resolve_conflict h unicode_unescape st = (Ret false, mkState w1 asked)).
    { unfold _resolve_conflict, bind at 1, git at 1, perform. rewrite Hstatus.
      destruct report as [|c report]; [inversion Bad|].
      fold lines. rewrite (scan_status_unresolvable _ _ Bad Wf []). reflexivity. }
    split; [exact E|exact (resolve_once h _ fuel _ _ _ E)].
Qed.

Lemma delete_modify_conflicts_witness :
  _resolve_conflict deleted_files no_escapes start
  = (Ret true,
     mkState 4 [Event (Git ["status"; "--porcelain"]);
                Event (Git ["rm"; "old.txt"]);
                Event (Git ["rm"; "docs/gone.md"]);
                Event (Git ["commit"; "--no-edit"])])
  /\ _resolve_conflict both_modified no_escapes start
     = (Ret false, mkState 1 [Event (Git ["status"; "--porcelain"])]).
Proof.
  split.
  - apply (proj1 (delete_modify_conflicts deleted_files no_escapes 0 start
                    ("DD old.txt" ++ LF ++ "UD docs/gone.md")%string 1 eq_refl)
             ["old.txt"; "docs/gone.md"] 4).
    + discriminate.
    + repeat constructor.
    + cbn. do 2 eexists. split; [reflexivity|].
      do 2 eexists. split; [reflexivity|].
      do 2 eexists. split; reflexivity.
  - apply (proj2 (delete_modify_conflicts both_modified no_escapes 0 start
                    ("DD old.txt" ++ LF ++ "UU main.go")%string 1 eq_refl)).
    + apply Exists_cons_tl, Exists_cons_hd. split; reflexivity.
    + repeat constructor; intros _; eexists; reflexivity.
Defined.

(** ** The retry cycle has no bound of its own *)

Lemma retry_after_git_error {W} (h : handler W) unicode_unescape (fuel : nat)
    (st st1 : state W) (detail : string) :
  _resolve_conflict h unicode_unescape st = (Raise (GitCommandError detail), st1) ->
  _resolve_rebase_conflicts h unicode_unescape (S fuel) st
  = _resolve_rebase_conflicts h unicode_unescape fuel st1.
Proof.
  intros E. cbn [_resolve_rebase_conflicts]. unfold try_except, bind.
  rewrite E. reflexivity.
Qed.

(** C9, as amended: the cycle runs [_resolve_conflict] again after each
    attempt that raises a git error and returns the verdict of the first
    attempt that raises none.  Nothing in the cycle counts attempts or
    compares them with the status report: the one bound is the
    interpreter's limit on nested calls.  When [k] attempts raise a git
    error before one that gives a verdict, the cycle returns that verdict
    if the interpreter has room for more than [k] nested calls, and ends
    in a [RecursionError] if it has room for [k] or fewer. *)
Theorem retry_until_no_git_error {W} (h : handler W) unicode_unescape (k : nat)
    (st st1 st2 : state W) (resolved : bool) :
  attempts_raise h unicode_unescape k st st1 ->
  _resolve_conflict h unicode_unescape st1 = (Ret resolved, st2) ->
  (forall fuel, k < fuel ->
     _resolve_rebase_conflicts h unicode_unescape fuel st = (Ret resolved, st2))
  /\ (forall fuel, fuel <= k ->
        fst (_resolve_rebase_conflicts h unicode_unescape fuel st)
        = Raise RecursionError).
Proof.
  revert st. induction k as [|k IH]; intros st A E.
  - cbn in A. subst st1. split; intros fuel Hf.
    + destruct fuel as [|fuel]; [lia|]. exact (resolve_once h _ fuel _ _ _ E).
    + assert (fuel = 0) as -> by lia. reflexivity.
  - cbn in A. destruct A as (detail & st' & R & A).
    destruct (IH st' A E) as [Hret Hout]. split; intros fuel Hf.
    + destruct fuel as [|fuel]; [lia|].
      rewrite (retry_after_git_error h _ fuel _ _ _ R). apply Hret. lia.
    + destruct fuel as [|fuel]; [reflexivity|].
      rewrite (retry_after_git_error h _ fuel _ _ _ R). apply Hout. lia.
Qed.

(** In the world [hook_refuses], once the file is removed, every attempt
    asks for the status, finds the staged deletion, tries to commit and
    fails. *)
Lemma hook_refuses_attempt (seen : list event) :
  _resolve_conflict hook_refuses no_escapes (mkState true seen)
  = (Raise (GitCommandError "pre-commit hook exited with code 1"),
     mkState true ((seen ++ [Event (Git ["status"; "--porcelain"])])
                     ++ [Event (Git ["commit"; "--no-edit"])])).
Proof.
  reflexivity.
Qed.

Lemma hook_refuses_every_attempt (fuel : nat) :
  forall seen,
    let r := _resolve_rebase_conflicts hook_refuses no_escapes fuel
               (mkState true seen) in
    fst r = Raise RecursionError
    /\ length (filter is_status_call (events (snd r)))
       = length (filter is_status_call seen) + fuel.
Proof.
  induction fuel as [|fuel IH]; intros seen; cbv zeta.
  - split; [reflexivity|]. cbn. lia.
  - rewrite (retry_after_git_error hook_refuses _ fuel _ _ _
               (hook_refuses_attempt seen)).
    destruct (IH ((seen ++ [Event (Git ["status"; "--porcelain"])])
                    ++ [Event (Git ["commit"; "--no-edit"])])) as [R C].
    split; [exact R|]. rewrite C, !filter_app, !length_app. cbn. lia.
Qed.

(** C9 as the claim has it fails: in the world [hook_refuses] the status
    report has one conflicted entry, and the cycle makes as many attempts
    as the interpreter has room for nested calls, each with its own
    [git status], and then ends in a [RecursionError], with no verdict. *)
Lemma retries_exceed_the_conflicts :
  map conflict_entry (Py.splitlines "UD old.txt") = [true]
  /\ (forall fuel,
        let r := _resolve_rebase_conflicts hook_refuses no_escapes (S fuel)
                   (mkState false []) in
        fst r = Raise RecursionError
        /\ length (filter is_status_call (events (snd r))) = S fuel).
Proof.
  split; [reflexivity|]. intros fuel. cbv zeta.
  assert (First : _resolve_conflict hook_refuses no_escapes (mkState false [])
                  = (Raise (GitCommandError "pre-commit hook exited with code 1"),
                     mkState true [Event (Git ["status"; "--porcelain"]);
                                   Event (Git ["rm"; "old.txt"]);
                                   Event (Git ["commit"; "--no-edit"])]))
    by reflexivity.
  rewrite (retry_after_git_error hook_refuses _ fuel _ _ _ First).
  destruct (hook_refuses_every_attempt fuel
              [Event (Git ["status"; "--porcelain"]);
               Event (Git ["rm"; "old.txt"]);
               Event (Git ["commit"; "--no-edit"])]) as [R C].
  split; [exact R|]. rewrite C. reflexivity.
Qed.

Lemma retry_until_no_git_error_witness :
  _resolve_rebase_conflicts empty_after_removal no_escapes 2 start
  = (Ret true,
     mkState 5 [Event (Git ["status"; "--porcelain"]);
                Event (Git ["rm"; "old.txt"]);
                Event (Git ["commit"; "--no-edit"]);
                Event (Git ["status"; "--porcelain"]);
                Event (Git ["cherry-pick"; "--skip"])])
  /\ fst (_resolve_rebase_conflicts empty_after_removal no_escapes 1 start)
     = Raise RecursionError.
Proof.
  pose proof (retry_until_no_git_error empty_after_removal no_escapes 1 start
                (mkState 3 [Event (Git ["status"; "--porcelain"]);
                            Event (Git ["rm"; "old.txt"]);
                            Event (Git ["commit"; "--no-edit"])])
                (mkState 5 [Event (Git ["status"; "--porcelain"]);
                            Event (Git ["rm"; "old.txt"]);
                            Event (Git ["commit"; "--no-edit"]);
                            Event (Git ["status"; "--porcelain"]);
                            Event (Git ["cherry-pick"; "--skip"])])
                true) as H.
  destruct H as [Hret Hout].
  - cbn [attempts_raise]. do 2 eexists. split; reflexivity.
  - reflexivity.
  - split; [apply Hret; lia | apply Hout; lia].
Defined.

(** ** The title of the pull request: [_update_pr_title] *)

Lemma count_from_drop (sub : string) (s : string) :
  forall skip, Py.count_from sub skip s = Py.count sub (Py.drop skip s).
Proof.
  induction s as [|c s IH]; intros [|k]; try reflexivity.
  cbn [Py.count_from Py.drop]. apply IH.
Qed.

Lemma startswith_app (p s t : string) :
  Py.startswith p s = true -> Py.startswith p (s ++ t) = true.
Proof.
  revert s. induction p as [|a p IH]; intros [|b s]; cbn; try congruence.
  intros E. apply andb_true_iff in E as [Eab Eps].
  rewrite Eab, (IH _ Eps). reflexivity.
Qed.

Lemma startswith_split (p s : string) :
  Py.startswith p s = true -> s = (p ++ Py.drop (String.length p) s)%string.
Proof.
  revert s. induction p as [|a p IH]; intros [|b s]; cbn; try congruence.
  intros E. apply andb_true_iff in E as [Eab Eps].
  apply Ascii.eqb_eq in Eab. subst b. f_equal. apply IH, Eps.
Qed.

(** What [find] returns: the text around the first occurrence. *)
Lemma py_find_some (c : ascii) (sub s before after : string) :
  Py.find (String c sub) s = Some (before, after) ->
  s = (before ++ String c sub ++ after)%string
  /\ Py.count (String c sub) before = 0
  /\ Py.count (String c sub) s = S (Py.count (String c sub) after).
Proof.
  revert before after.
  induction s as [|d s IH]; intros before after F.
  - cbn in F. discriminate.
  - unfold Py.find in F; fold Py.find in F.
    destruct (Py.startswith (String c sub) (String d s)) eqn:P.
    + injection F as <- <-. split; [|split].
      * exact (startswith_split _ _ P).
      * reflexivity.
      * unfold Py.count at 1. cbn [Py.count_from]. rewrite P.
        rewrite count_from_drop. cbn [String.length Nat.sub Py.drop].
        rewrite Nat.sub_0_r. reflexivity.
    + destruct (Py.find (String c sub) s) as [[b a]|] eqn:Fs; [|discriminate].
      injection F as <- <-. destruct (IH b a eq_refl) as (Es & Cb & Cs).
      split; [|split].
      * cbn [append]. f_equal. exact Es.
      * unfold Py.count. cbn [Py.count_from].
        destruct (Py.startswith (String c sub) (String d b)) eqn:Pb.
        -- apply (startswith_app _ _ (String c sub ++ a)) in Pb.
           change (String d b ++ (String c sub ++ a))%string
             with (String d (b ++ String c sub ++ a)) in Pb.
           rewrite <- Es in Pb. congruence.
        -- exact Cb.
      * unfold Py.count at 1. cbn [Py.count_from]. rewrite P. exact Cs.
Qed.

Lemma py_find_none (c : ascii) (sub s : string) :
  Py.find (String c sub) s = None -> Py.count (String c sub) s = 0.
Proof.
  set (sep := String c sub).
  induction s as [|d s IH]; intros F; [reflexivity|].
  unfold Py.find in F; fold Py.find in F.
  destruct (Py.startswith sep (String d s)) eqn:P; [discriminate|].
  destruct (Py.find sep s) as [[b a]|] eqn:Fs; [discriminate|].
  unfold Py.count. cbn [Py.count_from]. rewrite P. apply IH. reflexivity.
Qed.

(** A string that holds [Merge] once splits around it. *)
Lemma one_merge (s : string) :
  Py.count "Merge" s = 1 ->
  exists rest,
    s = (Py.split_head "Merge" s ++ "Merge" ++ rest)%string
    /\ Py.count "Merge" (Py.split_head "Merge" s) = 0
    /\ Py.count "Merge" rest = 0.
Proof.
  intros C. unfold Py.split_head.
  destruct (Py.find "Merge" s) as [[before after]|] eqn:F.
  - destruct (py_find_some _ _ _ _ _ F) as (Es & Cb & Cs).
    exists after. repeat split; [exact Es|exact Cb|lia].
  - apply py_find_none in F. lia.
Qed.

(** Two occurrences of [Merge] cannot overlap, so what [count] counts is
    the number of places at which [Merge] starts. *)
Lemma count_from_merge_occurrences (s : string) :
  forall skip,
    (forall i, i < skip -> Py.startswith "Merge" (Py.drop i s) = false) ->
    Py.count_from "Merge" skip s = occurrences "Merge" s.
Proof.
  induction s as [|c s IH]; intros skip Clear; [reflexivity|].
  destruct skip as [|k].
  - cbn [Py.count_from occurrences].
    destruct (Py.startswith "Merge" (String c s)) eqn:P.
    + cbn [String.length Nat.sub]. rewrite IH; [reflexivity|].
      pose proof (startswith_split _ _ P) as E. cbn [append] in E.
      injection E as _ Es. cbn [String.length Py.drop] in Es.
      intros i Hi. rewrite Es.
      destruct i as [|[|[|[|i]]]]; try reflexivity. lia.
    + apply IH. intros i Hi. lia.
  - cbn [Py.count_from occurrences].
    pose proof (Clear 0 (Nat.lt_0_succ k)) as C0. cbn [Py.drop] in C0.
    rewrite C0. cbn [Nat.add].
    apply IH. intros i Hi. apply (Clear (S i)). lia.
Qed.

Lemma count_merge_occurrences (s : string) :
  Py.count "Merge" s = occurrences "Merge" s.
Proof.
  apply count_from_merge_occurrences. intros i Hi. lia.
Qed.

(** C7: with the source head read, [_update_pr_title] asks GitHub to
    change the title exactly when [Merge] occurs once in the title; the
    new title is the text before that occurrence followed by
    [Merge {url}:{branch} ({sha}) into {dest branch}], and the update is the
    only call made.  When [Merge] occurs no times or several times, no
    update is asked and nothing is raised. *)
Theorem title_rewritten_when_one_merge {W} (h : handler W) (pull_req : PullRequest)
    (source dest : GitHubBranch) (st : state W) (source_head_commit : string)
    (w1 : W) :
  h _ (Git ["rev-parse"; "--short=7"; ("source/" ++ branch source)%string]) (world st)
  = (Ok source_head_commit, w1) ->
  let asked :=
    events st
    ++ [Event (Git ["rev-parse"; "--short=7"; ("source/" ++ branch source)%string])] in
  let description := merge_title source dest source_head_commit in
  let tags := Py.split_head "Merge" (title pull_req) in
  (occurrences "Merge" (title pull_req) = 1 ->
   (exists rest,
       title pull_req = (tags ++ "Merge" ++ rest)%string
       /\ occurrences "Merge" tags = 0
       /\ occurrences "Merge" rest = 0)
   /\ forall (answer : res bool) (w2 : W),
        h _ (GhUpdateTitle pull_req (tags ++ description)) w1 = (answer, w2) ->
        _update_pr_title h pull_req source dest st
        = (match answer with
           | Ok true => Ret tt
           | Ok false =>
               Raise (Exception_ ("Error updating title for pull request: "
                                    ++ html_url pull_req))
           | Err e => Raise e
           end,
           mkState w2
             (asked ++ [Event (GhUpdateTitle pull_req (tags ++ description))])))
  /\ (occurrences "Merge" (title pull_req) <> 1 ->
      _update_pr_title h pull_req source dest st = (Ret tt, mkState w1 asked)).
Proof.
  intros Hrev asked description tags.
  rewrite <- !count_merge_occurrences. split.
  - intros C. split.
    + destruct (one_merge _ C) as (rest & Et & Ct & Cr). exists rest.
      rewrite <- !count_merge_occurrences. repeat split; assumption.
    + intros answer w2 Hup.
      unfold _update_pr_title, bind, git, perform. rewrite Hrev, C.
      cbn [Nat.eqb world events]. fold description tags. rewrite Hup.
      fold asked. destruct answer as [[|]|e]; reflexivity.
  - intros C. unfold _update_pr_title, bind, git, perform. rewrite Hrev.
    apply Nat.eqb_neq in C. rewrite C. reflexivity.
Qed.

Lemma title_rewritten_when_one_merge_witness :
  _update_pr_title head_def5678 jira_pr old_old downstream_main start
  = (Ret tt,
     mkState 2
       [Event (Git ["rev-parse"; "--short=7"; "source/old"]);
        Event (GhUpdateTitle jira_pr "[JIRA-1] Merge old:old (def5678) into main")]).
Proof.
  apply (proj2 (proj1 (title_rewritten_when_one_merge head_def5678 jira_pr old_old
                         downstream_main start "def5678" 1 eq_refl) eq_refl)
           (Ok true) 2).
  reflexivity.
Defined.

(** ** Which events a function can add *)

Section Emits.

Context {W : Type} (P : event -> Prop).

Lemma emits_ret {A} (a : A) : emits P (@ret W A a).
Proof.
  intros st. exists []. cbn. rewrite app_nil_r. split; [reflexivity|constructor].
Qed.

Lemma emits_raise {A} (e : exn) : emits P (@raise W A e).
Proof.
  intros st. exists []. cbn. rewrite app_nil_r. split; [reflexivity|constructor].
Qed.

Lemma emits_perform (h : handler W) {A} (c : call A) :
  P (Event c) -> emits P (perform h c).
Proof.
  intros Pc st. exists [Event c]. unfold perform.
  destruct (h A c (world st)) as [r w]. cbn. split; [reflexivity|].
  constructor; [exact Pc|constructor].
Qed.

Lemma emits_bind {A B} (m : M W A) (k : A -> M W B) :
  emits P m -> (forall a, emits P (k a)) -> emits P (bind m k).
Proof.
  intros Hm Hk st. unfold bind. destruct (Hm st) as (d1 & E1 & F1).
  destruct (m st) as [[a|e] st1]; cbn in E1; cbn [snd].
  - destruct (Hk a st1) as (d2 & E2 & F2). exists (d1 ++ d2).
    rewrite E2, E1, app_assoc. split; [reflexivity|].
    apply Forall_app. split; assumption.
  - exists d1. split; assumption.
Qed.

Lemma emits_try {A} (m : M W A) (clause : exn -> option (M W A)) :
  emits P m -> (forall e recover, clause e = Some recover -> emits P recover) ->
  emits P (try_except m clause).
Proof.
  intros Hm Hc st. unfold try_except. destruct (Hm st) as (d1 & E1 & F1).
  destruct (m st) as [[a|e] st1]; cbn in E1; cbn [snd].
  - exists d1. split; assumption.
  - destruct (clause e) as [recover|] eqn:C.
    + destruct (Hc e recover C st1) as (d2 & E2 & F2). exists (d1 ++ d2).
      rewrite E2, E1, app_assoc. split; [reflexivity|].
      apply Forall_app. split; assumption.
    + exists d1. split; assumption.
Qed.

End Emits.

Lemma emits_weaken {W A} (P Q : event -> Prop) (m : M W A) :
  (forall e, P e -> Q e) -> emits P m -> emits Q m.
Proof.
  intros PQ Hm st. destruct (Hm st) as (d & E & F). exists d.
  split; [exact E|]. eapply Forall_impl; eassumption.
Qed.

Create HintDb emits.

(** One step through a computation: its shape decides. *)
Ltac emits_step :=
  match goal with
  | |- emits _ (ret _) => apply emits_ret
  | |- emits _ (raise _) => apply emits_raise
  | |- emits _ (bind _ _) => apply emits_bind; [|intro]
  | |- emits _ (try_except _ _) =>
      apply emits_try;
      [|let e := fresh "e" in
        let r := fresh "recover" in
        let C := fresh "C" in
        intros e r C; cbv beta in C;
        try (destruct e; try discriminate C); injection C as <-]
  | |- emits _ (git _ _) => unfold git
  | |- emits _ (perform _ _) =>
      apply emits_perform; first [reflexivity | split; reflexivity]
  | |- emits _ (if ?b then _ else _) => destruct b
  | |- emits _ (match ?x with _ => _ end) => destruct x
  | |- emits _ (let (_, _) := ?x in _) => destruct x
  end.

Ltac emits_all := repeat first [solve [auto with emits] | emits_step].

Lemma quiet_is_not_publish {W A} (m : M W A) :
  emits quiet_event m -> emits not_publish m.
Proof.
  apply emits_weaken. intros e [_ H]. exact H.
Qed.
#[export] Hint Resolve quiet_is_not_publish : emits.

Section Frames.

Context {W : Type} (h : handler W) (unicode_unescape : string -> res string).

Lemma slack_is_quiet webhook msg : emits quiet_event (_message_slack h webhook msg).
Proof. unfold _message_slack. emits_all. Qed.
Hint Resolve slack_is_quiet : emits.

Lemma needs_rebase_is_quiet source dest :
  emits quiet_event (_needs_rebase h source dest).
Proof. unfold _needs_rebase. emits_all. Qed.
Hint Resolve needs_rebase_is_quiet : emits.

Lemma add_to_rebase_is_quiet msg repo policy :
  emits quiet_event (_add_to_rebase h msg repo policy).
Proof. unfold _add_to_rebase, _is_pr_merged. emits_all. Qed.
Hint Resolve add_to_rebase_is_quiet : emits.

Lemma rm_all_is_quiet files : emits quiet_event (rm_all h files).
Proof. induction files; cbn [rm_all]; emits_all. Qed.
Hint Resolve rm_all_is_quiet : emits.

Lemma resolve_conflict_is_quiet :
  emits quiet_event (_resolve_conflict h unicode_unescape).
Proof. unfold _resolve_conflict. emits_all. Qed.
Hint Resolve resolve_conflict_is_quiet : emits.

Lemma resolve_rebase_conflicts_is_quiet fuel :
  emits quiet_event (_resolve_rebase_conflicts h unicode_unescape fuel).
Proof. induction fuel; cbn [_resolve_rebase_conflicts]; emits_all. Qed.
Hint Resolve resolve_rebase_conflicts_is_quiet : emits.

Lemma cherry_pick_not_publish fuel sha :
  emits not_publish (cherry_pick_or_resolve h unicode_unescape fuel sha).
Proof. unfold cherry_pick_or_resolve. emits_all. Qed.
Hint Resolve cherry_pick_not_publish : emits.

Lemma replay_commits_not_publish fuel repo policy bots excl gomod commits :
  forall squash,
    emits not_publish
      (replay_commits h unicode_unescape fuel repo policy bots excl gomod
         commits squash).
Proof.
  induction commits as [|commit commits IH]; intros squash;
    cbn [replay_commits]; emits_all.
Qed.
Hint Resolve replay_commits_not_publish : emits.

Lemma pick_buffered_not_publish fuel value :
  emits not_publish (pick_buffered h unicode_unescape fuel value).
Proof. induction value; cbn [pick_buffered]; emits_all. Qed.
Hint Resolve pick_buffered_not_publish : emits.

Lemma squash_bots_not_publish fuel squash :
  emits not_publish (squash_bots h unicode_unescape fuel squash).
Proof.
  induction squash as [|[key value] squash IH]; cbn [squash_bots];
    unfold squash_bot; emits_all.
Qed.
Hint Resolve squash_bots_not_publish : emits.

Lemma do_rebase_not_publish fuel repo policy bots excl gomod source dest :
  emits not_publish
    (_do_rebase h unicode_unescape fuel repo policy bots excl gomod source dest).
Proof. unfold _do_rebase. emits_all. Qed.
Hint Resolve do_rebase_not_publish : emits.

Lemma reset_go_files_is_quiet source base filenames :
  emits quiet_event (reset_go_files h source base filenames).
Proof. induction filenames; cbn [reset_go_files]; emits_all. Qed.
Hint Resolve reset_go_files_is_quiet : emits.

Lemma update_go_modules_in_is_quiet source filepaths :
  emits quiet_event (update_go_modules_in h source filepaths).
Proof.
  induction filepaths; cbn [update_go_modules_in]; unfold update_go_module;
    emits_all.
Qed.
Hint Resolve update_go_modules_in_is_quiet : emits.

Lemma commit_go_mod_updates_is_quiet source :
  emits quiet_event (_commit_go_mod_updates h source).
Proof. unfold _commit_go_mod_updates. emits_all. Qed.
Hint Resolve commit_go_mod_updates_is_quiet : emits.

Lemma prepare_rebase_branch_is_quiet source dest :
  emits quiet_event (_prepare_rebase_branch h source dest).
Proof. unfold _prepare_rebase_branch, delete_branch. emits_all. Qed.
Hint Resolve prepare_rebase_branch_is_quiet : emits.

Lemma init_working_dir_is_quiet source dest rebase username email :
  emits quiet_event (_init_working_dir h source dest rebase username email).
Proof.
  unfold _init_working_dir, configure_remote, configure_credential, is_ref_a_tag.
  emits_all.
Qed.
Hint Resolve init_working_dir_is_quiet : emits.

Lemma manual_rebase_pr_is_quiet repo :
  emits quiet_event (_manual_rebase_pr_in_repo h repo).
Proof. unfold _manual_rebase_pr_in_repo. emits_all. Qed.
Hint Resolve manual_rebase_pr_is_quiet : emits.

Lemma run_lookup_is_quiet source dest rebase webhook ignore :
  emits quiet_event (run_lookup h source dest rebase webhook ignore).
Proof. unfold run_lookup. emits_all. Qed.

Lemma run_workdir_is_quiet source dest rebase dir username email webhook :
  emits quiet_event (run_workdir h source dest rebase dir username email webhook).
Proof. unfold run_workdir. emits_all. Qed.

Lemma rebase_phase_not_publish fuel source dest policy bots excl gomod repo :
  emits not_publish
    (rebase_phase h unicode_unescape fuel source dest policy bots excl gomod repo).
Proof. unfold rebase_phase. emits_all. Qed.
Hint Resolve rebase_phase_not_publish : emits.

Lemma run_rebase_not_publish fuel source dest webhook policy bots excl gomod repo :
  emits not_publish
    (run_rebase h unicode_unescape fuel source dest webhook policy bots excl gomod
       repo).
Proof. unfold run_rebase. emits_all. Qed.

End Frames.

(** ** The squash buffer groups by identity, in order of first appearance *)

Lemma in_list_iff (x : string) (l : list string) :
  Py.in_list x l = true <-> In x l.
Proof.
  split; [apply in_list_In|]. intros H. unfold Py.in_list.
  apply existsb_exists. exists x. split; [exact H|apply String.eqb_refl].
Qed.

Lemma first_seen_In (k : string) (l : list string) :
  In k (first_seen l) <-> In k l.
Proof.
  induction l as [|x l IH]; cbn; [tauto|].
  rewrite filter_In, IH, negb_true_iff, String.eqb_neq.
  destruct (String.eqb_spec x k) as [->|N]; [tauto|].
  split; [tauto|]. intros [E|Hk]; [congruence|]. right. split; congruence.
Qed.

Lemma first_seen_NoDup (l : list string) : NoDup (first_seen l).
Proof.
  induction l as [|x l IH]; cbn; constructor.
  - rewrite filter_In, negb_true_iff, String.eqb_neq. tauto.
  - apply NoDup_filter, IH.
Qed.

Lemma first_seen_snoc (l : list string) (k : string) :
  first_seen (l ++ [k])
  = if Py.in_list k l then first_seen l else first_seen l ++ [k].
Proof.
  induction l as [|x l IH]; [reflexivity|].
  cbn [app first_seen]. rewrite IH. unfold Py.in_list. cbn [existsb].
  fold (Py.in_list k l).
  destruct (String.eqb_spec k x) as [->|N]; cbn [orb].
  - destruct (Py.in_list x l); [reflexivity|].
    rewrite filter_app. cbn [filter]. rewrite String.eqb_refl. cbn [negb].
    rewrite app_nil_r. reflexivity.
  - destruct (Py.in_list k l); [reflexivity|].
    rewrite filter_app. cbn [filter].
    destruct (String.eqb_spec k x) as [E|_]; [congruence|]. reflexivity.
Qed.

Lemma squash_append_present (v : string -> list squash_entry) (k : string)
    (e : squash_entry) (ks : list string) :
  NoDup ks -> In k ks ->
  squash_append k e (map (fun k' => (k', v k')) ks)
  = map (fun k' => (k', v k' ++ (if String.eqb k k' then [e] else []))) ks.
Proof.
  induction ks as [|x ks IH]; intros ND Hin; [destruct Hin|].
  inversion ND as [|? ? Hx ND']; subst. cbn [map squash_append].
  destruct (String.eqb_spec x k) as [->|N].
  - rewrite String.eqb_refl. f_equal. apply map_ext_in. intros k' Hk'.
    destruct (String.eqb_spec k k') as [->|_]; [tauto|].
    rewrite app_nil_r. reflexivity.
  - destruct (String.eqb_spec k x) as [E|_]; [congruence|].
    rewrite app_nil_r. f_equal. apply IH; [exact ND'|].
    destruct Hin; [congruence|assumption].
Qed.

Lemma squash_append_absent (v : string -> list squash_entry) (k : string)
    (e : squash_entry) (ks : list string) :
  ~ In k ks ->
  squash_append k e (map (fun k' => (k', v k')) ks)
  = map (fun k' => (k', v k')) ks ++ [(k, [e])].
Proof.
  induction ks as [|x ks IH]; intros Hin; [reflexivity|].
  cbn [map squash_append app].
  destruct (String.eqb_spec x k) as [->|N]; [cbn in Hin; tauto|].
  f_equal. apply IH. cbn in Hin. tauto.
Qed.

Lemma filter_none {A} (f : A -> bool) (l : list A) :
  (forall x, In x l -> f x = false) -> filter f l = [].
Proof.
  induction l as [|x l IH]; intros H; [reflexivity|].
  cbn [filter]. rewrite (H x (or_introl eq_refl)). apply IH.
  intros y Hy. apply H. right. exact Hy.
Qed.

Lemma groups_snoc (bots : list Commit) (c : Commit) :
  groups (bots ++ [c]) = squash_append (bot_identity c) (entry_of c) (groups bots).
Proof.
  unfold groups. rewrite map_app. cbn [map]. rewrite first_seen_snoc.
  set (k := bot_identity c). set (ks := first_seen (map bot_identity bots)).
  set (v := fun key =>
              map entry_of (filter (fun c0 => String.eqb (bot_identity c0) key) bots)).
  assert (Hv : forall k',
             map entry_of
               (filter (fun c0 => String.eqb (bot_identity c0) k') (bots ++ [c]))
             = v k' ++ (if String.eqb k k' then [entry_of c] else [])).
  { intros k'. rewrite filter_app, map_app. cbn [filter]. fold k.
    destruct (String.eqb k k'); reflexivity. }
  destruct (Py.in_list k (map bot_identity bots)) eqn:I.
  - rewrite (squash_append_present v); [|apply first_seen_NoDup|].
    + apply map_ext. intros k'. rewrite Hv. reflexivity.
    + unfold ks. apply first_seen_In, in_list_iff, I.
  - assert (Hk : ~ In k (map bot_identity bots)).
    { intros H. apply in_list_iff in H. congruence. }
    rewrite (squash_append_absent v); [|unfold ks; rewrite first_seen_In; exact Hk].
    rewrite map_app. cbn [map]. f_equal.
    + apply map_ext_in. intros k' Hk'. rewrite Hv.
      destruct (String.eqb_spec k k') as [<-|_].
      * exfalso. apply Hk. apply (proj1 (first_seen_In _ _)). exact Hk'.
      * rewrite app_nil_r. reflexivity.
    + rewrite Hv, String.eqb_refl. unfold v.
      replace (filter (fun c0 => String.eqb (bot_identity c0) k) bots) with (@nil Commit).
      * reflexivity.
      * symmetry. apply filter_none. intros c0 Hc0.
        apply String.eqb_neq. intros E.
        apply Hk. rewrite <- E. apply in_map. exact Hc0.
Qed.

Lemma buffer_groups (bots : list Commit) : buffer [] bots = groups bots.
Proof.
  induction bots as [|c bots IH] using rev_ind; [reflexivity|].
  unfold buffer in *. rewrite fold_left_app. cbn [fold_left].
  rewrite IH. symmetry. apply groups_snoc.
Qed.

(** ** The replay: [_do_rebase] *)

Lemma replayed_app (l1 l2 : list event) :
  replayed (l1 ++ l2) = replayed l1 ++ replayed l2.
Proof.
  apply filter_app.
Qed.

Lemma replayed_quiet {W A} (m : M W A) :
  emits quiet_event m ->
  forall st, replayed (events (snd (m st))) = replayed (events st).
Proof.
  intros Hm st. destruct (Hm st) as (added & E & Q). rewrite E, replayed_app.
  unfold replayed at 2. rewrite filter_none; [apply app_nil_r|].
  intros e He. rewrite Forall_forall in Q. apply (Q e He).
Qed.

Section ReplayFacts.

Context {W : Type} (h : handler W) (unicode_unescape : string -> res string).
Variable fuel : nat.

(** Whatever comes of it, a pick adds one replay command: the
    cherry-pick itself. *)
Lemma pick_replayed (commit_sha : string) (st : state W) :
  replayed (events (snd (cherry_pick_or_resolve h unicode_unescape fuel commit_sha st)))
  = replayed (events st) ++ [pick_event commit_sha].
Proof.
  unfold cherry_pick_or_resolve, try_except, bind at 1, git, perform.
  destruct (h string (Git ["cherry-pick"; commit_sha; "-Xtheirs"]) (world st))
    as [[out|e] w].
  - cbn. apply replayed_app.
  - assert (Quiet : forall detail,
               emits quiet_event
                 (resolved <- _resolve_rebase_conflicts h unicode_unescape fuel ;;
                  if negb resolved
                  then raise (RepoException ("Git rebase failed: " ++ detail))
                  else @ret W unit tt)).
    { intros detail. apply emits_bind.
      - apply resolve_rebase_conflicts_is_quiet.
      - intros []; [apply emits_ret|apply emits_raise]. }
    destruct e; try (cbn; apply replayed_app).
    cbn [str_of_exn]. rewrite (replayed_quiet _ (Quiet detail)).
    cbn [events]. apply replayed_app.
Qed.

Lemma pick_buffered_replayed (value : list squash_entry) :
  forall st st',
    pick_buffered h unicode_unescape fuel value st = (Ret tt, st') ->
    replayed (events st')
    = replayed (events st) ++ map (fun e => pick_event (entry_sha e)) value.
Proof.
  induction value as [|e value IH]; intros st st' R.
  - cbn in R. injection R as <-. cbn. rewrite app_nil_r. reflexivity.
  - cbn [pick_buffered] in R. unfold bind in R.
    pose proof (pick_replayed (entry_sha e) st) as P.
    destruct (cherry_pick_or_resolve h unicode_unescape fuel (entry_sha e) st)
      as [[[]|x] st1]; try discriminate R.
    cbn [snd] in P. rewrite (IH _ _ R), P, <- app_assoc. reflexivity.
Qed.

Lemma last_rev {A} (l : list A) (x d : A) (rest : list A) :
  rev l = x :: rest -> last l d = x.
Proof.
  intros E. rewrite <- (rev_involutive l), E. cbn [rev]. apply last_last.
Qed.

Lemma squash_bots_replayed (squash : squash_map) :
  forall st st',
    squash_bots h unicode_unescape fuel squash st = (Ret tt, st') ->
    replayed (events st') = replayed (events st) ++ squashed squash.
Proof.
  induction squash as [|[key value] squash IH]; intros st st' R.
  - cbn in R. injection R as <-. cbn. rewrite app_nil_r. reflexivity.
  - cbn [squash_bots] in R. unfold bind at 1 in R. unfold squash_bot in R.
    unfold bind at 1 in R.
    destruct (pick_buffered h unicode_unescape fuel value st) as [[[]|x] st1] eqn:P;
      try discriminate R.
    apply pick_buffered_replayed in P.
    unfold bind at 1, git at 1, perform at 1 in R.
    destruct (h string _ (world st1)) as [[out|x] w1]; try discriminate R.
    destruct (rev value) as [|newest older] eqn:V; [discriminate R|].
    unfold bind at 1, git at 1, perform at 1 in R. cbn [world events] in R.
    destruct (h string _ w1) as [[out2|x] w2]; try discriminate R.
    unfold ret at 1 in R.
    rewrite (IH _ _ R). cbn [events squashed flat_map fst snd].
    rewrite !replayed_app, P. cbn [replayed filter is_replay is_replay_command].
    cbn. rewrite <- !app_assoc. cbn [app].
    assert (L : last (map entry_message value) EmptyString = entry_message newest).
    { apply (last_rev _ _ _ (map entry_message older)).
      rewrite <- map_rev, V. reflexivity. }
    rewrite L. reflexivity.
Qed.

End ReplayFacts.

Section ReplayLoop.

Context {W : Type} (h : handler W) (unicode_unescape : string -> res string).
Variable fuel : nat.
Variable source_repo : Repository.
Variable tag_policy : string.
Variables bot_emails exclude_commits : list string.
Variable update_go_modules : bool.
Variable carry : Commit -> bool.

Let carried (commits : list Commit) : list Commit :=
  filter (fun c => offered exclude_commits update_go_modules c && carry c) commits.

(** The loop over the range: the commits of no bot are picked in their
    order, the commits of bots are buffered in their order. *)
Lemma replay_commits_replayed (commits : list Commit) :
  bot_emails <> [] ->
  forall lines,
    map split_commit_line lines = map (fun c => Some (commit_parts c)) commits ->
    verdicts h source_repo tag_policy exclude_commits update_go_modules carry commits ->
    forall squash st squash' st',
      replay_commits h unicode_unescape fuel source_repo tag_policy bot_emails
        exclude_commits update_go_modules lines squash st = (Ret squash', st') ->
      replayed (events st')
      = replayed (events st)
        ++ map (fun c => pick_event (sha c))
             (filter (fun c => negb (by_bot bot_emails c)) (carried commits))
      /\ squash' = buffer squash (filter (by_bot bot_emails) (carried commits)).
Proof.
  intros Bots.
  assert (Allow : allow_bot_squash bot_emails = true).
  { unfold allow_bot_squash. destruct bot_emails; [congruence|reflexivity]. }
  induction commits as [|c commits IH]; intros lines Hlines V squash st squash' st' R.
  - destruct lines; [|discriminate Hlines]. cbn in R. injection R as <- <-.
    cbn. rewrite app_nil_r. split; reflexivity.
  - destruct lines as [|line lines]; [discriminate Hlines|].
    cbn [map] in Hlines. injection Hlines as Hline Hlines.
    assert (V' : verdicts h source_repo tag_policy exclude_commits
                   update_go_modules carry commits).
    { intros c' Hc'. apply V. right. exact Hc'. }
    specialize (IH lines Hlines V').
    cbn [replay_commits] in R. rewrite Hline in R. unfold commit_parts in R.
    change (carried (c :: commits))
      with (if offered exclude_commits update_go_modules c && carry c
            then c :: carried commits else carried commits).
    destruct (_in_excluded_commits (sha c) exclude_commits) eqn:X.
    { assert (O : offered exclude_commits update_go_modules c = false)
        by (unfold offered; rewrite X; reflexivity).
      rewrite O. apply (IH _ _ _ _ R). }
    destruct (update_go_modules && String.eqb (message c) GO_MOD_COMMIT_MESSAGE)
      eqn:G.
    { assert (O : offered exclude_commits update_go_modules c = false)
        by (unfold offered; rewrite X, G; reflexivity).
      rewrite O. apply (IH _ _ _ _ R). }
    assert (O : offered exclude_commits update_go_modules c = true)
      by (unfold offered; rewrite X, G; reflexivity).
    rewrite O. cbn [andb].
    destruct (V c (or_introl eq_refl) O st) as (st1 & A).
    pose proof (replayed_quiet _ (add_to_rebase_is_quiet h (message c) source_repo
                                    tag_policy) st) as Q.
    unfold bind at 1 in R. rewrite A in R, Q. cbn [snd] in Q.
    destruct (carry c).
    + cbn [negb] in R. rewrite Allow in R. cbn [andb] in R. cbn [filter].
      change (Py.in_list (Py.split_last "+" (author_email c)) bot_emails)
        with (by_bot bot_emails c) in R.
      destruct (by_bot bot_emails c) eqn:B.
      * cbn [negb]. destruct (IH _ _ _ _ R) as [E S]. rewrite E, Q.
        split; [reflexivity|]. rewrite S. reflexivity.
      * cbn [negb map]. unfold bind at 1 in R.
        pose proof (pick_replayed h unicode_unescape fuel (sha c) st1) as P.
        destruct (cherry_pick_or_resolve h unicode_unescape fuel (sha c) st1)
          as [[[]|x] st2]; try discriminate R.
        cbn [snd] in P. destruct (IH _ _ _ _ R) as [E S].
        rewrite E, P, Q, <- app_assoc. split; [reflexivity|exact S].
    + cbn [negb] in R. destruct (IH _ _ _ _ R) as [E S]. rewrite E, Q.
      split; [reflexivity|exact S].
Qed.

End ReplayLoop.

Lemma squashed_groups (bots : list Commit) :
  squashed (groups bots)
  = flat_map
      (fun key =>
         squashed_group key (filter (fun c => String.eqb (bot_identity c) key) bots))
      (first_seen (map bot_identity bots)).
Proof.
  unfold groups, squashed. induction (first_seen (map bot_identity bots)) as [|key keys IH];
    [reflexivity|].
  cbn [map flat_map fst snd]. rewrite IH. f_equal.
  unfold squashed_group. rewrite !map_map, length_map. reflexivity.
Qed.

(** The commands of the replay.  With bot squashing on, a replay that
    runs to its end has issued these replay commands, in this order: a
    cherry-pick of each carried
    commit whose author is no configured bot, in the order of the range;
    then, for each bot identity (the author email after its last [+]) in
    the order in which the identities first appear, a cherry-pick of each
    carried commit of that identity in the order of the range, one
    [reset --soft HEAD~n] with [n] the number of these commits, and one
    [commit] whose message is that of the last of them and whose author
    is the identity. *)
Theorem replay_order_and_bot_squash {W} (h : handler W)
    (unicode_unescape : string -> res string) (fuel : nat)
    (source_repo : Repository) (tag_policy : string)
    (bot_emails exclude_commits : list string) (update_go_modules : bool)
    (source dest : GitHubBranch) (st st' : state W) (merge_base log : string)
    (w1 w2 : W) (commits : list Commit) (carry : Commit -> bool) :
  bot_emails <> [] ->
  h _ (Git ["merge-base"; ("source/" ++ branch source)%string;
            ("dest/" ++ branch dest)%string]) (world st)
  = (Ok merge_base, w1) ->
  h _ (Git ["log"; "--reverse"; "--pretty=format:%H || %s || %aE"; "--no-merges";
            "--ancestry-path"; (merge_base ++ "..dest/" ++ branch dest)%string]) w1
  = (Ok log, w2) ->
  map split_commit_line (Py.splitlines log)
  = map (fun c => Some (commit_parts c)) commits ->
  verdicts h source_repo tag_policy exclude_commits update_go_modules carry commits ->
  _do_rebase h unicode_unescape fuel source_repo tag_policy bot_emails
    exclude_commits update_go_modules source dest st = (Ret tt, st') ->
  replayed (events st')
  = replayed (events st)
    ++ expected_replay bot_emails
         (filter (fun c => offered exclude_commits update_go_modules c && carry c)
            commits).
Proof.
  intros Bots Hbase Hlog Hlines V R.
  unfold _do_rebase in R. unfold bind at 1, git at 1, perform at 1 in R.
  rewrite Hbase in R. unfold bind at 1, git at 1, perform at 1 in R.
  cbn [world events] in R. rewrite Hlog in R. unfold bind at 1 in R.
  destruct (replay_commits h unicode_unescape fuel source_repo tag_policy bot_emails
              exclude_commits update_go_modules (Py.splitlines log) [] _)
    as [[squash|x] st3] eqn:L; try discriminate R.
  destruct (replay_commits_replayed h unicode_unescape fuel source_repo tag_policy
              bot_emails exclude_commits update_go_modules carry commits Bots
              _ Hlines V _ _ _ _ L) as [E S].
  assert (Allow : allow_bot_squash bot_emails = true).
  { unfold allow_bot_squash. destruct bot_emails; [congruence|reflexivity]. }
  rewrite Allow in R. apply squash_bots_replayed in R.
  rewrite R, E, S, buffer_groups, squashed_groups. cbn [events].
  rewrite !replayed_app.
  change (replayed [Event (Git ["merge-base"; ("source/" ++ branch source)%string;
                                ("dest/" ++ branch dest)%string])])
    with (@nil event).
  change (replayed [Event (Git ["log"; "--reverse"; "--pretty=format:%H || %s || %aE";
                                "--no-merges"; "--ancestry-path";
                                (merge_base ++ "..dest/" ++ branch dest)%string])])
    with (@nil event).
  rewrite !app_nil_r. unfold expected_replay. rewrite <- app_assoc. reflexivity.
Qed.

(** C1, at an input where the code fails it.  The range has a commit of a
    developer, [a1], and two commits of the bot, [b1] and [b2], and the
    change of [b1] is in the source already.  The commands are those the
    claim expects: [a1] is picked, then [b1] and [b2], then comes the
    soft reset over two commits and the commit under the message of [b2],
    authored as the bot.  But the pick of [b1] is empty and is skipped, so
    that the bot has added one commit, not two: [reset --soft HEAD~2]
    counts the buffered commits, not the commits picked, and takes the
    commit of the developer off the branch together with that of the bot.
    The branch ends with a single commit over the merge of the source,
    authored as the bot, which holds the change of the developer; the
    commit of the developer is gone. *)
Theorem bot_squash_folds_a_developer_commit :
  fst bot_replay = Ret tt
  /\ events (snd bot_replay)
     = [Event (Git ["merge-base"; "source/master"; "dest/main"]);
        Event (Git ["log"; "--reverse"; "--pretty=format:%H || %s || %aE";
                    "--no-merges"; "--ancestry-path"; "0a1b2c3..dest/main"]);
        pick_event "a1";
        pick_event "b1";
        Event (Git ["status"; "--porcelain"]);
        Event (Git ["cherry-pick"; "--skip"]);
        pick_event "b2";
        reset_event 2;
        commit_event "UPSTREAM: <carry>: bump deps again" "bot@example.com"]
  /\ world (snd bot_replay)
     = {| history :=
            [merge_of_source;
             {| subject := "UPSTREAM: <carry>: bump deps again";
                author := "bot@example.com";
                changes := ["pkg/x.go=fixed"; "go.mod=v1.3"] |}];
          staged := []; stopped := false |}.
Proof.
  repeat split; vm_compute; reflexivity.
Qed.

Lemma range_verdicts :
  verdicts carries upstream "soft" [] false range_carry range_commits.
Proof.
  intros c Hc _ st. destruct st as [w seen].
  cbn in Hc. repeat (destruct Hc as [<- | Hc]; [eexists; lazy; reflexivity|]).
  destruct Hc.
Defined.

Lemma replay_order_and_bot_squash_witness :
  replayed
    (events
       (snd (_do_rebase carries no_escapes 2 upstream "soft" ["bot@example.com"] []
               false upstream_branch downstream_branch start)))
  = [pick_event "a1"; pick_event "a3";
     pick_event "b1"; pick_event "b2"; reset_event 2;
     commit_event "UPSTREAM: <carry>: bump deps again" "bot@example.com"].
Proof.
  apply (replay_order_and_bot_squash carries no_escapes 2 upstream "soft"
           ["bot@example.com"] [] false upstream_branch downstream_branch start
           _ EmptyString range_log 1 2 range_commits range_carry).
  - discriminate.
  - reflexivity.
  - reflexivity.
  - reflexivity.
  - exact range_verdicts.
  - reflexivity.
Defined.

(** ** The run: [run] *)

Section RunFacts.

Context {W : Type} (h : handler W) (unicode_unescape : string -> res string).
Variable fuel : nat.
Variables source dest rebase : GitHubBranch.
Variable working_dir : string.
Variables git_username git_email : string.
Variable slack_webhook : option string.
Variable tag_policy : string.
Variables bot_emails exclude_commits : list string.
Variable update_go_modules : bool.

Lemma slack_delivered (msg : string) (st : state W) :
  notified h slack_webhook ->
  exists w,
    _message_slack h slack_webhook msg st
    = (Ret tt, mkState w (events st ++ slack_events slack_webhook msg)).
Proof.
  intros N. destruct (N msg st) as (st' & E). revert E.
  unfold _message_slack, slack_events. destruct slack_webhook as [u|].
  - unfold perform. destruct (h unit (SlackPost u msg) (world st)) as [[[]|e] w];
      intros E; [|discriminate E]. exists w. reflexivity.
  - intros _. exists (world st). destruct st as [w seen]. unfold ret. cbn.
    rewrite app_nil_r. reflexivity.
Qed.

(** The three blocks of [run] before the dry-run check went through. *)
Lemma run_after_rebase (dry_run ignore_manual_label : bool)
    (dest_repo source_repo : Repository) (st st1 st2 st3 : state W) :
  run_lookup h source dest rebase slack_webhook ignore_manual_label st
  = (Ret (Next (dest_repo, source_repo)), st1) ->
  run_workdir h source dest rebase working_dir git_username git_email
    slack_webhook st1 = (Ret (Next tt), st2) ->
  rebase_phase h unicode_unescape fuel source dest tag_policy bot_emails
    exclude_commits update_go_modules source_repo st2 = (Ret tt, st3) ->
  run h unicode_unescape fuel source dest rebase working_dir git_username
    git_email slack_webhook tag_policy bot_emails exclude_commits
    update_go_modules dry_run ignore_manual_label st
  = if dry_run then (Ret true, st3)
    else run_publish h source dest rebase slack_webhook dest_repo st3.
Proof.
  intros L D R. unfold run, bind at 1. rewrite L.
  unfold bind at 1. rewrite D. unfold bind at 1.
  unfold run_rebase, try_except, bind at 1. rewrite R. unfold ret at 1.
  destruct dry_run; reflexivity.
Qed.

Lemma run_dry_emits (ignore_manual_label : bool) :
  emits not_publish
    (run h unicode_unescape fuel source dest rebase working_dir git_username
       git_email slack_webhook tag_policy bot_emails exclude_commits
       update_go_modules true ignore_manual_label).
Proof.
  unfold run. apply emits_bind.
  - apply quiet_is_not_publish, run_lookup_is_quiet.
  - intros [result|[dest_repo source_repo]]; [apply emits_ret|].
    apply emits_bind.
    + apply quiet_is_not_publish, run_workdir_is_quiet.
    + intros [result|[]]; [apply emits_ret|].
      apply emits_bind; [apply run_rebase_not_publish|].
      intros [result|[]]; apply emits_ret.
Qed.

End RunFacts.

(** C10: in a dry run, no call of the part of [run] that follows the
    dry-run check is ever made, whatever happens before: no query for the
    remote rebase branch or its diff, no query for the pull request of the
    rebase branch, no push, no creation and no retitling of a pull
    request.  And when the repositories are found, the working directory
    is set up and the rebase phase ends without error, a dry run returns
    true in the state the rebase phase left. *)
Theorem dry_run_stops_after_rebase {W} (h : handler W)
    (unicode_unescape : string -> res string) (fuel : nat)
    (source dest rebase : GitHubBranch) (working_dir git_username git_email : string)
    (slack_webhook : option string) (tag_policy : string)
    (bot_emails exclude_commits : list string)
    (update_go_modules ignore_manual_label : bool) :
  emits not_publish
    (run h unicode_unescape fuel source dest rebase working_dir git_username
       git_email slack_webhook tag_policy bot_emails exclude_commits
       update_go_modules true ignore_manual_label)
  /\ forall (dest_repo source_repo : Repository) (st st1 st2 st3 : state W),
      run_lookup h source dest rebase slack_webhook ignore_manual_label st
      = (Ret (Next (dest_repo, source_repo)), st1) ->
      run_workdir h source dest rebase working_dir git_username git_email
        slack_webhook st1 = (Ret (Next tt), st2) ->
      rebase_phase h unicode_unescape fuel source dest tag_policy bot_emails
        exclude_commits update_go_modules source_repo st2 = (Ret tt, st3) ->
      run h unicode_unescape fuel source dest rebase working_dir git_username
        git_email slack_webhook tag_policy bot_emails exclude_commits
        update_go_modules true ignore_manual_label st
      = (Ret true, st3).
Proof.
  split; [apply run_dry_emits|].
  intros dest_repo source_repo st st1 st2 st3 L D R.
  apply (run_after_rebase h unicode_unescape fuel source dest rebase working_dir
           git_username git_email slack_webhook tag_policy bot_emails
           exclude_commits update_go_modules true ignore_manual_label
           dest_repo source_repo st st1 st2 st3 L D R).
Qed.

Lemma dry_run_stops_after_rebase_witness :
  fst (run carries no_escapes 2 upstream_branch downstream_branch rebase_branch
         "/tmp/rebase" "rebase-bot" "bot@example.com" None "soft"
         ["bot@example.com"] [] false true false start)
  = Ret true
  /\ replayed
       (events
          (snd (run carries no_escapes 2 upstream_branch downstream_branch
                  rebase_branch "/tmp/rebase" "rebase-bot" "bot@example.com" None
                  "soft" ["bot@example.com"] [] false true false start)))
     = [pick_event "a1"; pick_event "a3";
        pick_event "b1"; pick_event "b2"; reset_event 2;
        commit_event "UPSTREAM: <carry>: bump deps again" "bot@example.com"].
Proof.
  pose proof (proj2 (dry_run_stops_after_rebase carries no_escapes 2 upstream_branch
                       downstream_branch rebase_branch "/tmp/rebase" "rebase-bot"
                       "bot@example.com" None "soft" ["bot@example.com"] [] false
                       false)) as H.
  eassert (E : run carries no_escapes 2 upstream_branch downstream_branch
                 rebase_branch "/tmp/rebase" "rebase-bot" "bot@example.com" None
                 "soft" ["bot@example.com"] [] false true false start
               = (Ret true, _)).
  { eapply H; (lazy; reflexivity). }
  rewrite E. split; reflexivity.
Defined.


Section ReplayReaches.

Context {W : Type} (h : handler W) (unicode_unescape : string -> res string).
Variable fuel : nat.
Variable source_repo : Repository.
Variable tag_policy : string.
Variables bot_emails exclude_commits : list string.
Variable update_go_modules : bool.






End ReplayReaches.



Lemma simulated_notified (answers : forall A : Type, call A -> nat -> res A)
    (slack_webhook : option string) :
  (forall u msg t, answers unit (SlackPost u msg) t = Ok tt) ->
  notified (simulated answers) slack_webhook.
Proof.
  intros Hs msg st. unfold _message_slack. destruct slack_webhook as [u|].
  - unfold perform, simulated. rewrite Hs. eexists. reflexivity.
  - eexists. reflexivity.
Qed.



(** ** A replay with no failing command runs to its end *)

Section ReplayCompletes.

Context {W : Type} (h : handler W) (unicode_unescape : string -> res string).
Variable fuel : nat.
Hypothesis git_ok : git_succeeds h.

Lemma git_returns (args : list string) (st : state W) :
  exists out st', git h args st = (Ret out, st').
Proof.
  destruct (git_ok args (world st)) as (out & w' & E).
  exists out. eexists. unfold git. rewrite (perform_answer h _ st _ _ E). reflexivity.
Qed.

Lemma pick_returns (commit_sha : string) (st : state W) :
  exists st', cherry_pick_or_resolve h unicode_unescape fuel commit_sha st = (Ret tt, st').
Proof.
  destruct (git_returns ["cherry-pick"; commit_sha; "-Xtheirs"] st) as (out & st' & E).
  exists st'. unfold cherry_pick_or_resolve, try_except, bind. rewrite E. reflexivity.
Qed.

Lemma pick_buffered_returns (value : list squash_entry) :
  forall st, exists st', pick_buffered h unicode_unescape fuel value st = (Ret tt, st').
Proof.
  induction value as [|e value IH]; intros st.
  - exists st. reflexivity.
  - destruct (pick_returns (entry_sha e) st) as (st1 & P).
    destruct (IH st1) as (st2 & R). exists st2.
    cbn [pick_buffered]. unfold bind. rewrite P. exact R.
Qed.

Lemma squash_bots_returns (squash : squash_map) :
  Forall (fun kv => snd kv <> []) squash ->
  forall st, exists st', squash_bots h unicode_unescape fuel squash st = (Ret tt, st').
Proof.
  induction 1 as [|[key value] squash NE _ IH]; intros st.
  - exists st. reflexivity.
  - cbn [snd] in NE. destruct (pick_buffered_returns value st) as (st1 & P).
    destruct (git_returns ["reset"; "--soft";
                           ("HEAD~" ++ Py.str_of_nat (List.length value))%string] st1)
      as (out & st2 & G).
    destruct (rev value) as [|newest older] eqn:V.
    { apply (f_equal (@rev _)) in V. rewrite rev_involutive in V. contradiction. }
    destruct (git_returns ["commit"; "-m"; entry_message newest; "--author"; key] st2)
      as (out2 & st3 & C).
    destruct (IH st3) as (st4 & R). exists st4.
    cbn [squash_bots]. unfold bind at 1, squash_bot, bind at 1. rewrite P.
    unfold bind at 1. rewrite G, V. unfold bind at 1. rewrite C. exact R.
Qed.

Lemma squash_append_nonempty (key : string) (e : squash_entry) (d : squash_map) :
  Forall (fun kv => snd kv <> []) d ->
  Forall (fun kv => snd kv <> []) (squash_append key e d).
Proof.
  induction 1 as [|[k v] d NE Hd IH]; cbn [squash_append].
  - constructor; [discriminate|constructor].
  - destruct (String.eqb k key); constructor; try assumption.
    cbn. intros E. apply app_eq_nil in E as [_ E]. discriminate E.
Qed.

Lemma buffer_nonempty (bots : list Commit) :
  forall squash,
    Forall (fun kv => snd kv <> []) squash ->
    Forall (fun kv => snd kv <> []) (buffer squash bots).
Proof.
  induction bots as [|c bots IH]; intros squash NE; [exact NE|].
  apply IH, squash_append_nonempty, NE.
Qed.

Variable source_repo : Repository.
Variable tag_policy : string.
Variables bot_emails exclude_commits : list string.
Variable update_go_modules : bool.
Variable carry : Commit -> bool.

Lemma replay_commits_returns (commits : list Commit) :
  forall lines,
    map split_commit_line lines = map (fun c => Some (commit_parts c)) commits ->
    verdicts h source_repo tag_policy exclude_commits update_go_modules carry commits ->
    forall squash st, exists squash' st',
        replay_commits h unicode_unescape fuel source_repo tag_policy bot_emails
          exclude_commits update_go_modules lines squash st = (Ret squash', st').
Proof.
  induction commits as [|c commits IH]; intros lines Hlines V squash st.
  - destruct lines; [|discriminate Hlines]. exists squash, st. reflexivity.
  - destruct lines as [|line lines]; [discriminate Hlines|].
    cbn [map] in Hlines. injection Hlines as Hline Hlines.
    assert (V' : verdicts h source_repo tag_policy exclude_commits
                   update_go_modules carry commits).
    { intros c' Hc'. apply V. right. exact Hc'. }
    specialize (IH lines Hlines V').
    cbn [replay_commits]. rewrite Hline. unfold commit_parts.
    destruct (_in_excluded_commits (sha c) exclude_commits) eqn:X; [apply IH|].
    destruct (update_go_modules && String.eqb (message c) GO_MOD_COMMIT_MESSAGE)
      eqn:G; [apply IH|].
    assert (O : offered exclude_commits update_go_modules c = true)
      by (unfold offered; rewrite X, G; reflexivity).
    destruct (V c (or_introl eq_refl) O st) as (st1 & A).
    unfold bind at 1. rewrite A.
    destruct (carry c); cbn [negb]; [|apply IH].
    destruct (allow_bot_squash bot_emails
              && Py.in_list (Py.split_last "+" (author_email c)) bot_emails);
      [apply IH|].
    destruct (pick_returns (sha c) st1) as (st2 & P).
    unfold bind at 1. rewrite P. apply IH.
Qed.

(** With git answering every command and the tag rules answering for
    every commit of the range, [_do_rebase] returns, whatever room the
    interpreter has for nested calls. *)
Lemma replay_completes (source dest : GitHubBranch) :
  (forall log, exists commits',
      map split_commit_line (Py.splitlines log)
      = map (fun c => Some (commit_parts c)) commits'
      /\ verdicts h source_repo tag_policy exclude_commits update_go_modules
           carry commits') ->
  forall st, exists st',
      _do_rebase h unicode_unescape fuel source_repo tag_policy bot_emails
        exclude_commits update_go_modules source dest st = (Ret tt, st').
Proof.
  intros Range st. unfold _do_rebase.
  destruct (git_returns ["merge-base"; ("source/" ++ branch source)%string;
                         ("dest/" ++ branch dest)%string] st) as (mb & st1 & B).
  unfold bind at 1. rewrite B.
  destruct (git_returns ["log"; "--reverse"; "--pretty=format:%H || %s || %aE";
                         "--no-merges"; "--ancestry-path";
                         (mb ++ "..dest/" ++ branch dest)%string] st1)
    as (log & st2 & L).
  unfold bind at 1. rewrite L.
  destruct (Range log) as (commits' & Hlines & V).
  destruct (replay_commits_returns commits' _ Hlines V [] st2) as (squash & st3 & R).
  unfold bind at 1. rewrite R.
  destruct (allow_bot_squash bot_emails) eqn:Allow; [|exists st3; reflexivity].
  apply squash_bots_returns.
  destruct bot_emails as [|b bs] eqn:Eb; [discriminate Allow|].
  rewrite <- Eb in *.
  assert (Bots : bot_emails <> []) by (rewrite Eb; discriminate).
  destruct (replay_commits_replayed h unicode_unescape fuel source_repo tag_policy
              bot_emails exclude_commits update_go_modules carry commits' Bots
              _ Hlines V _ _ _ _ R) as [_ ->].
  apply buffer_nonempty. constructor.
Qed.

End ReplayCompletes.

(** * Further properties of the code *)

(** ** Exclusions: [_in_excluded_commits] *)

Lemma startswith_prefix (p s : string) :
  Py.startswith p s = true <-> exists rest, s = (p ++ rest)%string.
Proof.
  split.
  - intros P. exists (Py.drop (String.length p) s). apply startswith_split, P.
  - intros [rest ->]. induction p as [|a p IH]; [reflexivity|].
    cbn. rewrite Ascii.eqb_refl. exact IH.
Qed.

(** X1: a commit is excluded exactly when some entry of the exclusion list is
    a prefix of its hash: an abbreviated hash excludes every commit it
    abbreviates, an empty entry excludes every commit, and an empty list
    excludes none. *)
Theorem excluded_iff_some_prefix (commit_sha : string) (exclude_commits : list string) :
  _in_excluded_commits commit_sha exclude_commits = true
  <-> exists excluded_sha rest,
        In excluded_sha exclude_commits
        /\ commit_sha = (excluded_sha ++ rest)%string.
Proof.
  induction exclude_commits as [|x l IH]; cbn [_in_excluded_commits].
  - split; [discriminate|]. intros (e & rest & [] & _).
  - destruct (Py.startswith x commit_sha) eqn:P.
    + split; [|reflexivity]. intros _.
      apply startswith_prefix in P as [rest E].
      exists x, rest. split; [left; reflexivity|exact E].
    + rewrite IH. split.
      * intros (e & rest & Hin & E). exists e, rest. split; [right; exact Hin|exact E].
      * intros (e & rest & [<-|Hin] & E).
        -- assert (T : Py.startswith x commit_sha = true)
             by (apply startswith_prefix; exists rest; exact E).
           congruence.
        -- exists e, rest. split; assumption.
Qed.

(** ** Reading the log: [split_commit_line] *)

Lemma find_unfold (sep : string) (c : ascii) (s : string) :
  Py.find sep (String c s)
  = if Py.startswith sep (String c s)
    then Some (EmptyString, Py.drop (String.length sep) (String c s))
    else match Py.find sep s with
         | Some (before, after) => Some (String c before, after)
         | None => None
         end.
Proof.
  reflexivity.
Qed.

(** The first [" || "] after a text without vertical bar is the one that
    follows it. *)
Lemma find_separator (field tail : string) :
  no_bar field = true ->
  Py.find " || " (field ++ " || " ++ tail) = Some (field, tail).
Proof.
  induction field as [|c field IH]; intros NB; [reflexivity|].
  unfold no_bar in NB. cbn [Py.forallb_string] in NB.
  apply andb_true_iff in NB as [Nc NB]. fold (no_bar field) in NB.
  change (String c field ++ " || " ++ tail)%string
    with (String c (field ++ " || " ++ tail)).
  rewrite find_unfold, (IH NB).
  replace (Py.startswith " || " (String c (field ++ " || " ++ tail))) with false;
    [reflexivity|].
  symmetry. cbn [Py.startswith].
  destruct field as [|d field]; cbn [append Py.startswith].
  - rewrite andb_false_r. reflexivity.
  - unfold no_bar in NB. cbn [Py.forallb_string] in NB.
    apply andb_true_iff in NB as [Nd _]. apply negb_true_iff in Nd.
    rewrite (Ascii.eqb_sym "|" d), Nd. cbn [andb]. apply andb_false_r.
Qed.

(** X2: a line of the log is read back into the fields git printed when
    neither the hash nor the subject holds a vertical bar; whatever
    follows the second separator, further separators included, is read as
    the author email: a subject that holds [" || "] is cut there, and its
    rest goes to the email. *)
Theorem log_line_read_back (commit_sha subject tail : string) :
  no_bar commit_sha = true -> no_bar subject = true ->
  split_commit_line (commit_sha ++ " || " ++ subject ++ " || " ++ tail)
  = Some (commit_sha, subject, tail).
Proof.
  intros Hs Hm. unfold split_commit_line.
  rewrite (find_separator commit_sha _ Hs), (find_separator subject _ Hm).
  reflexivity.
Qed.

Lemma log_line_read_back_witness :
  split_commit_line
    (log_line {| sha := "a1"; message := "UPSTREAM: <carry>: fix X";
                 author_email := "dev@example.com" |})
  = Some ("a1", "UPSTREAM: <carry>: fix X", "dev@example.com")
  /\ split_commit_line "a1 || fix a || b || dev@example.com"
     = Some ("a1", "fix a", "b || dev@example.com").
Proof.
  split.
  - apply (log_line_read_back "a1" "UPSTREAM: <carry>: fix X" "dev@example.com");
      reflexivity.
  - apply (log_line_read_back "a1" "fix a" "b || dev@example.com"); reflexivity.
Defined.

Lemma split_commit_line_none (line : string) :
  split_commit_line line = None <-> Py.count " || " line < 2.
Proof.
  unfold split_commit_line.
  destruct (Py.find " || " line) as [[first rest]|] eqn:F1.
  - destruct (py_find_some _ _ _ _ _ F1) as (_ & _ & C1).
    destruct (Py.find " || " rest) as [[second third]|] eqn:F2.
    + destruct (py_find_some _ _ _ _ _ F2) as (_ & _ & C2).
      split; [discriminate|]. intros L. exfalso.
      rewrite C1, C2 in L. apply Nat.succ_lt_mono, Nat.succ_lt_mono in L.
      exact (Nat.nlt_0_r _ L).
    + apply py_find_none in F2. split; [|reflexivity]. intros _.
      rewrite C1, F2. apply Nat.lt_succ_diag_r.
  - apply py_find_none in F1. split; [|reflexivity]. intros _.
    rewrite F1. apply Nat.lt_0_succ.
Qed.

(** X3: a line of the log in which [" || "] occurs fewer than twice
    cannot be unpacked into hash, subject and email: the replay raises
    [ValueError] at that line, before any call for it, and the lines after
    it are not read. *)
Theorem short_log_line_raises_value_error {W} (h : handler W)
    (unicode_unescape : string -> res string) (fuel : nat)
    (source_repo : Repository) (tag_policy : string)
    (bot_emails exclude_commits : list string) (update_go_modules : bool)
    (line : string) (rest : list string) (commits_to_squash : squash_map)
    (st : state W) :
  Py.count " || " line < 2 ->
  replay_commits h unicode_unescape fuel source_repo tag_policy bot_emails
    exclude_commits update_go_modules (line :: rest) commits_to_squash st
  = (Raise ValueError, st).
Proof.
  intros C. apply split_commit_line_none in C.
  cbn [replay_commits]. rewrite C. reflexivity.
Qed.

Lemma short_log_line_raises_value_error_witness :
  replay_commits quiet no_escapes 1 upstream "soft" [] [] false
    ["a1 || fix X"; "a2 || fix Y || dev@example.com"] [] start
  = (Raise ValueError, start).
Proof.
  apply (short_log_line_raises_value_error quiet no_escapes 1 upstream "soft" [] []
           false "a1 || fix X" ["a2 || fix Y || dev@example.com"] [] start).
  cbn. lia.
Defined.

(** ** Selection errors: [_add_to_rebase] *)

(** Commits that are excluded or pruned never reach the tag rules. *)
Lemma replay_skips_unoffered {W} (h : handler W)
    (unicode_unescape : string -> res string) (fuel : nat)
    (source_repo : Repository) (tag_policy : string)
    (bot_emails exclude_commits : list string) (update_go_modules : bool)
    (commits : list Commit) :
  Forall (fun c => offered exclude_commits update_go_modules c = false) commits ->
  forall lines commits_to_squash (st : state W),
    map split_commit_line lines = map (fun c => Some (commit_parts c)) commits ->
    replay_commits h unicode_unescape fuel source_repo tag_policy bot_emails
      exclude_commits update_go_modules lines commits_to_squash st
    = (Ret commits_to_squash, st).
Proof.
  induction 1 as [|c commits O _ IH]; intros lines squash st Hlines.
  - destruct lines; [reflexivity|discriminate Hlines].
  - destruct lines as [|line lines]; [discriminate Hlines|].
    cbn [map] in Hlines. injection Hlines as Hline Hlines.
    cbn [replay_commits]. rewrite Hline. unfold commit_parts.
    unfold offered in O.
    destruct (_in_excluded_commits (sha c) exclude_commits); [apply IH, Hlines|].
    cbn [negb andb] in O. apply negb_false_iff in O. rewrite O.
    apply IH, Hlines.
Qed.

(** X4: a tag policy other than [soft], [strict] and [none] is an error
    for every commit message, raised before the message is read and before
    any call; the replay meets it at the first commit that is neither
    excluded nor pruned, and picks nothing from there on.  A range whose
    commits are all excluded or pruned is replayed without the error, and
    without a call: the policy is checked per commit, not up front. *)
Theorem unknown_tag_policy_raises {W} (h : handler W)
    (unicode_unescape : string -> res string) (fuel : nat)
    (source_repo : Repository) (tag_policy : string)
    (bot_emails exclude_commits : list string) (update_go_modules : bool)
    (st : state W) :
  ~ In tag_policy ["soft"; "strict"; "none"] ->
  (forall commit_message,
      _add_to_rebase h commit_message source_repo tag_policy st
      = (Raise (Exception_ ("Unknown tag policy: " ++ tag_policy)), st))
  /\ (forall (c : Commit) line rest commits_to_squash,
         split_commit_line line = Some (commit_parts c) ->
         offered exclude_commits update_go_modules c = true ->
         replay_commits h unicode_unescape fuel source_repo tag_policy bot_emails
           exclude_commits update_go_modules (line :: rest) commits_to_squash st
         = (Raise (Exception_ ("Unknown tag policy: " ++ tag_policy)), st))
  /\ (forall (commits : list Commit) lines commits_to_squash,
         map split_commit_line lines = map (fun c => Some (commit_parts c)) commits ->
         Forall (fun c => offered exclude_commits update_go_modules c = false) commits ->
         replay_commits h unicode_unescape fuel source_repo tag_policy bot_emails
           exclude_commits update_go_modules lines commits_to_squash st
         = (Ret commits_to_squash, st)).
Proof.
  intros Unknown.
  assert (A : forall commit_message,
             _add_to_rebase h commit_message source_repo tag_policy st
             = (Raise (Exception_ ("Unknown tag policy: " ++ tag_policy)), st)).
  { intros commit_message. unfold _add_to_rebase.
    destruct (Py.in_list tag_policy ["soft"; "strict"; "none"]) eqn:I;
      [|reflexivity].
    exfalso. apply Unknown. apply in_list_iff, I. }
  split; [exact A|]. split.
  - intros c line rest squash Hline O. cbn [replay_commits]. rewrite Hline.
    unfold commit_parts. unfold offered in O.
    apply andb_true_iff in O as [X G]. apply negb_true_iff in X, G.
    rewrite X, G. unfold bind. rewrite A. reflexivity.
  - intros commits lines squash Hlines O.
    apply (replay_skips_unoffered h unicode_unescape fuel source_repo tag_policy
             bot_emails exclude_commits update_go_modules commits O lines squash st
             Hlines).
Qed.

Lemma unknown_tag_policy_raises_witness :
  _add_to_rebase quiet "UPSTREAM: <carry>: fix X" upstream "hard" start
  = (Raise (Exception_ "Unknown tag policy: hard"), start).
Proof.
  refine (proj1 (unknown_tag_policy_raises quiet no_escapes 1 upstream "hard" [] []
                   false start _) _).
  intros [E|[E|[E|[]]]]; discriminate E.
Defined.

(** X5: under [soft] and [strict], a message that starts with
    ["UPSTREAM: "] and whose tag is neither [<drop>], nor [<carry>], nor
    numeric is an error: [_add_to_rebase] raises, naming the tag, and makes
    no call.  The tags are compared as they are: another case or a blank
    inside is another tag. *)
Theorem unknown_tag_raises {W} (h : handler W) (commit_message : string)
    (source_repo : Repository) (tag_policy : string) (st : state W) :
  tag_policy = "soft" \/ tag_policy = "strict" ->
  Py.startswith "UPSTREAM: " commit_message = true ->
  commit_tag commit_message <> "<drop>" ->
  commit_tag commit_message <> "<carry>" ->
  Py.isnumeric (commit_tag commit_message) = false ->
  _add_to_rebase h commit_message source_repo tag_policy st
  = (Raise (Exception_ ("Unknown commit message tag: " ++ commit_tag commit_message)),
     st).
Proof.
  intros Hpol P Nd Nc Nn. unfold commit_tag in *. unfold _add_to_rebase.
  apply String.eqb_neq in Nd, Nc. rewrite P, Nd, Nc, Nn.
  destruct Hpol as [-> | ->]; reflexivity.
Qed.

Lemma unknown_tag_raises_witness :
  _add_to_rebase quiet "UPSTREAM: <Carry>: fix X" upstream "soft" start
  = (Raise (Exception_ "Unknown commit message tag: <Carry>"), start).
Proof.
  apply (unknown_tag_raises quiet "UPSTREAM: <Carry>: fix X" upstream "soft" start).
  - left. reflexivity.
  - reflexivity.
  - discriminate.
  - discriminate.
  - reflexivity.
Defined.

(** X6: a tag that [isnumeric] accepts and that is no string of decimal
    digits (a superscript digit, a vulgar fraction) passes the numeric
    test and fails the conversion: [_add_to_rebase] raises [ValueError]
    and asks GitHub nothing. *)
Theorem numeric_tag_without_value_raises {W} (h : handler W)
    (commit_message : string) (source_repo : Repository) (tag_policy : string)
    (st : state W) :
  tag_policy = "soft" \/ tag_policy = "strict" ->
  Py.startswith "UPSTREAM: " commit_message = true ->
  Py.isnumeric (commit_tag commit_message) = true ->
  Py.forallb_string Py.is_digit (commit_tag commit_message) = false ->
  _add_to_rebase h commit_message source_repo tag_policy st = (Raise ValueError, st).
Proof.
  intros Hpol P Hn Hd. unfold commit_tag in *. unfold _add_to_rebase.
  rewrite P, Hn.
  set (tag := Py.split_head ":" (Py.removeprefix "UPSTREAM: " commit_message)) in *.
  assert (Nd : String.eqb tag "<drop>" = false).
  { apply String.eqb_neq. intros E. rewrite E in Hn. discriminate Hn. }
  assert (Nc : String.eqb tag "<carry>" = false).
  { apply String.eqb_neq. intros E. rewrite E in Hn. discriminate Hn. }
  rewrite Nd, Nc. unfold Py.int. rewrite Hd.
  destruct Hpol as [-> | ->]; destruct tag; reflexivity.
Qed.

Lemma numeric_tag_without_value_raises_witness :
  _add_to_rebase quiet ("UPSTREAM: " ++ one_half ++ ": halve it") upstream "strict" start
  = (Raise ValueError, start).
Proof.
  apply (numeric_tag_without_value_raises quiet
           ("UPSTREAM: " ++ one_half ++ ": halve it") upstream "strict" start).
  - right. reflexivity.
  - reflexivity.
  - reflexivity.
  - reflexivity.
Defined.

(** ** The events and the result of a computation *)

Section Yields.

Context {W : Type} (P : event -> Prop).

Lemma yields_emits {A} (Q : A -> Prop) (m : M W A) : yields P Q m -> emits P m.
Proof.
  intros H st. apply H.
Qed.

Lemma emits_yields {A} (m : M W A) : emits P m -> yields P (fun _ => True) m.
Proof.
  intros H st. split; [apply H|trivial].
Qed.

Lemma yields_ret {A} (Q : A -> Prop) (a : A) : Q a -> yields P Q (@ret W A a).
Proof.
  intros Ha st. split; [apply (emits_ret P a st)|].
  intros a' E. injection E as <-. exact Ha.
Qed.

Lemma yields_raise {A} (Q : A -> Prop) (e : exn) : yields P Q (@raise W A e).
Proof.
  intros st. split; [apply (emits_raise P e st)|]. intros a E. discriminate E.
Qed.

Lemma yields_bind {A B} (Q : A -> Prop) (R : B -> Prop) (m : M W A) (k : A -> M W B) :
  yields P Q m -> (forall a, Q a -> yields P R (k a)) -> yields P R (bind m k).
Proof.
  intros Hm Hk st. destruct (Hm st) as [(d1 & E1 & F1) Q1]. unfold bind.
  destruct (m st) as [[a|e] st1]; cbn [fst snd] in *.
  - destruct (Hk a (Q1 a eq_refl) st1) as [(d2 & E2 & F2) R2].
    split; [|exact R2]. exists (d1 ++ d2). rewrite E2, E1, app_assoc.
    split; [reflexivity|]. apply Forall_app. split; assumption.
  - split; [exists d1; split; assumption|]. intros b E. discriminate E.
Qed.

End Yields.

(** ** Excluded commits are never picked *)

Section Spares.

Context {W : Type} (h : handler W) (unicode_unescape : string -> res string).
Variable fuel : nat.
Variable exclude_commits : list string.

Lemma quiet_spares (e : event) : quiet_event e -> spares_excluded exclude_commits e.
Proof.
  intros [R _] s E. destruct e as [A c]. destruct c; try discriminate E.
  destruct args as [|cmd [|a [|b [|x l]]]]; try discriminate E.
  cbn in R, E.
  destruct (String.eqb cmd "cherry-pick" && String.eqb b "-Xtheirs");
    [discriminate R|discriminate E].
Qed.

Lemma quiet_emits_spares {A} (m : M W A) :
  emits quiet_event m -> emits (spares_excluded exclude_commits) m.
Proof.
  apply emits_weaken, quiet_spares.
Qed.

Lemma pick_spares (commit_sha : string) :
  _in_excluded_commits commit_sha exclude_commits = false ->
  emits (spares_excluded exclude_commits)
    (cherry_pick_or_resolve h unicode_unescape fuel commit_sha).
Proof.
  intros X. unfold cherry_pick_or_resolve. apply emits_try.
  - apply emits_bind; [|intros; apply emits_ret].
    unfold git. apply emits_perform. intros picked E. cbn in E. injection E as <-. exact X.
  - intros e recover C. destruct e; try discriminate C. injection C as <-.
    apply emits_bind.
    + apply quiet_emits_spares, resolve_rebase_conflicts_is_quiet.
    + intros []; [apply emits_ret|apply emits_raise].
Qed.

Lemma pick_buffered_spares (value : list squash_entry) :
  Forall (fun e => _in_excluded_commits (entry_sha e) exclude_commits = false) value ->
  emits (spares_excluded exclude_commits) (pick_buffered h unicode_unescape fuel value).
Proof.
  induction 1 as [|e value X _ IH]; cbn [pick_buffered].
  - apply emits_ret.
  - apply emits_bind; [apply pick_spares, X|intros; exact IH].
Qed.

Lemma squash_bots_spares (squash : squash_map) :
  spared_buffer exclude_commits squash ->
  emits (spares_excluded exclude_commits) (squash_bots h unicode_unescape fuel squash).
Proof.
  induction 1 as [|[key value] squash S _ IH]; cbn [squash_bots].
  - apply emits_ret.
  - apply emits_bind; [|intros; exact IH]. unfold squash_bot.
    apply emits_bind; [apply pick_buffered_spares, S|intros _].
    apply emits_bind.
    + unfold git. apply emits_perform. intros picked E. discriminate E.
    + intros _. destruct (rev value); [apply emits_raise|].
      apply emits_bind; [|intros; apply emits_ret].
      unfold git. apply emits_perform. intros picked E. discriminate E.
Qed.

Lemma squash_append_spared (key : string) (e : squash_entry) (d : squash_map) :
  _in_excluded_commits (entry_sha e) exclude_commits = false ->
  spared_buffer exclude_commits d ->
  spared_buffer exclude_commits (squash_append key e d).
Proof.
  intros X. induction 1 as [|[k v] d S Hd IH]; cbn [squash_append].
  - repeat constructor. exact X.
  - destruct (String.eqb k key); constructor; try assumption.
    cbn [snd] in *. apply Forall_app. split; [exact S|]. constructor; [exact X|constructor].
Qed.

Variable source_repo : Repository.
Variable tag_policy : string.
Variable bot_emails : list string.
Variable update_go_modules : bool.

Lemma replay_commits_spares (lines : list string) :
  forall squash,
    spared_buffer exclude_commits squash ->
    yields (spares_excluded exclude_commits) (spared_buffer exclude_commits)
      (replay_commits h unicode_unescape fuel source_repo tag_policy bot_emails
         exclude_commits update_go_modules lines squash).
Proof.
  induction lines as [|line lines IH]; intros squash S; cbn [replay_commits].
  - apply yields_ret, S.
  - destruct (split_commit_line line) as [[[commit_sha commit_message] email]|];
      [|apply yields_raise].
    destruct (_in_excluded_commits commit_sha exclude_commits) eqn:X; [apply IH, S|].
    destruct (update_go_modules && String.eqb commit_message GO_MOD_COMMIT_MESSAGE);
      [apply IH, S|].
    apply (yields_bind _ (fun _ => True)).
    { apply emits_yields, quiet_emits_spares, add_to_rebase_is_quiet. }
    intros add _. destruct (negb add); [apply IH, S|].
    destruct (allow_bot_squash bot_emails
              && Py.in_list (Py.split_last "+" email) bot_emails).
    + apply IH, squash_append_spared; [exact X|exact S].
    + apply (yields_bind _ (fun _ => True)).
      * apply emits_yields, pick_spares, X.
      * intros _ _. apply IH, S.
Qed.

End Spares.

(** X7: whatever git and GitHub answer and however the replay ends,
    [_do_rebase] never cherry-picks a commit whose hash an entry of the
    exclusion list is a prefix of, neither in the loop over the range nor
    when it picks the buffered commits of a bot. *)
Theorem excluded_commits_never_picked {W} (h : handler W)
    (unicode_unescape : string -> res string) (fuel : nat)
    (source_repo : Repository) (tag_policy : string)
    (bot_emails exclude_commits : list string) (update_go_modules : bool)
    (source dest : GitHubBranch) :
  emits (spares_excluded exclude_commits)
    (_do_rebase h unicode_unescape fuel source_repo tag_policy bot_emails
       exclude_commits update_go_modules source dest).
Proof.
  apply (yields_emits _ (fun _ => True)). unfold _do_rebase.
  apply (yields_bind _ (fun _ => True)).
  { apply emits_yields. unfold git. apply emits_perform. intros picked E. discriminate E. }
  intros merge_base _. apply (yields_bind _ (fun _ => True)).
  { apply emits_yields. unfold git. apply emits_perform. intros picked E. discriminate E. }
  intros commits _. apply (yields_bind _ (spared_buffer exclude_commits)).
  { apply replay_commits_spares. constructor. }
  intros squash S. destruct (allow_bot_squash bot_emails).
  - apply emits_yields, squash_bots_spares, S.
  - apply yields_ret. exact I.
Qed.

(** ** The replay when no bot is configured *)

Section ReplayWithoutBots.

Context {W : Type} (h : handler W) (unicode_unescape : string -> res string).
Variable fuel : nat.
Variable source_repo : Repository.
Variable tag_policy : string.
Variable exclude_commits : list string.
Variable update_go_modules : bool.
Variable carry : Commit -> bool.

Lemma replay_commits_without_bots (commits : list Commit) :
  forall lines,
    map split_commit_line lines = map (fun c => Some (commit_parts c)) commits ->
    verdicts h source_repo tag_policy exclude_commits update_go_modules carry commits ->
    forall squash st squash' st',
      replay_commits h unicode_unescape fuel source_repo tag_policy []
        exclude_commits update_go_modules lines squash st = (Ret squash', st') ->
      replayed (events st')
      = replayed (events st)
        ++ map (fun c => pick_event (sha c))
             (filter (fun c => offered exclude_commits update_go_modules c && carry c)
                commits)
      /\ squash' = squash.
Proof.
  induction commits as [|c commits IH]; intros lines Hlines V squash st squash' st' R.
  - destruct lines; [|discriminate Hlines]. cbn in R. injection R as <- <-.
    cbn. rewrite app_nil_r. split; reflexivity.
  - destruct lines as [|line lines]; [discriminate Hlines|].
    cbn [map] in Hlines. injection Hlines as Hline Hlines.
    assert (V' : verdicts h source_repo tag_policy exclude_commits
                   update_go_modules carry commits).
    { intros c' Hc'. apply V. right. exact Hc'. }
    specialize (IH lines Hlines V').
    cbn [replay_commits] in R. rewrite Hline in R. unfold commit_parts in R.
    cbn [filter].
    destruct (_in_excluded_commits (sha c) exclude_commits) eqn:X.
    { assert (O : offered exclude_commits update_go_modules c = false)
        by (unfold offered; rewrite X; reflexivity).
      rewrite O. apply (IH _ _ _ _ R). }
    destruct (update_go_modules && String.eqb (message c) GO_MOD_COMMIT_MESSAGE)
      eqn:G.
    { assert (O : offered exclude_commits update_go_modules c = false)
        by (unfold offered; rewrite X, G; reflexivity).
      rewrite O. apply (IH _ _ _ _ R). }
    assert (O : offered exclude_commits update_go_modules c = true)
      by (unfold offered; rewrite X, G; reflexivity).
    rewrite O. cbn [andb].
    destruct (V c (or_introl eq_refl) O st) as (st1 & A).
    pose proof (replayed_quiet _ (add_to_rebase_is_quiet h (message c) source_repo
                                    tag_policy) st) as Q.
    unfold bind at 1 in R. rewrite A in R, Q. cbn [snd] in Q.
    destruct (carry c); cbn [negb] in R.
    + change (allow_bot_squash []) with false in R. cbn [andb] in R.
      unfold bind at 1 in R.
      pose proof (pick_replayed h unicode_unescape fuel (sha c) st1) as P.
      destruct (cherry_pick_or_resolve h unicode_unescape fuel (sha c) st1)
        as [[[]|x] st2]; try discriminate R.
      cbn [snd] in P. destruct (IH _ _ _ _ R) as [E S].
      cbn [map]. rewrite E, P, Q, <- app_assoc. split; [reflexivity|exact S].
    + destruct (IH _ _ _ _ R) as [E S]. rewrite E, Q. split; [reflexivity|exact S].
Qed.

End ReplayWithoutBots.

(** X8: with no bot email configured, a replay that runs to its end has
    cherry-picked every carried commit, in the order of the range, and has
    issued no other replay command: no reset and no commit with an author,
    whoever wrote the commits. *)
Theorem replay_without_bots_picks_in_order {W} (h : handler W)
    (unicode_unescape : string -> res string) (fuel : nat)
    (source_repo : Repository) (tag_policy : string)
    (exclude_commits : list string) (update_go_modules : bool)
    (source dest : GitHubBranch) (st st' : state W) (merge_base log : string)
    (w1 w2 : W) (commits : list Commit) (carry : Commit -> bool) :
  h _ (Git ["merge-base"; ("source/" ++ branch source)%string;
            ("dest/" ++ branch dest)%string]) (world st)
  = (Ok merge_base, w1) ->
  h _ (Git ["log"; "--reverse"; "--pretty=format:%H || %s || %aE"; "--no-merges";
            "--ancestry-path"; (merge_base ++ "..dest/" ++ branch dest)%string]) w1
  = (Ok log, w2) ->
  map split_commit_line (Py.splitlines log)
  = map (fun c => Some (commit_parts c)) commits ->
  verdicts h source_repo tag_policy exclude_commits update_go_modules carry commits ->
  _do_rebase h unicode_unescape fuel source_repo tag_policy []
    exclude_commits update_go_modules source dest st = (Ret tt, st') ->
  replayed (events st')
  = replayed (events st)
    ++ map (fun c => pick_event (sha c))
         (filter (fun c => offered exclude_commits update_go_modules c && carry c)
            commits).
Proof.
  intros Hbase Hlog Hlines V R.
  unfold _do_rebase in R. unfold bind at 1, git at 1, perform at 1 in R.
  rewrite Hbase in R. unfold bind at 1, git at 1, perform at 1 in R.
  cbn [world events] in R. rewrite Hlog in R. unfold bind at 1 in R.
  destruct (replay_commits h unicode_unescape fuel source_repo tag_policy []
              exclude_commits update_go_modules (Py.splitlines log) [] _)
    as [[squash|x] st3] eqn:L; try discriminate R.
  destruct (replay_commits_without_bots h unicode_unescape fuel source_repo tag_policy
              exclude_commits update_go_modules carry commits
              _ Hlines V _ _ _ _ L) as [E S].
  change (allow_bot_squash []) with false in R. injection R as <-.
  rewrite E. cbn [events]. rewrite !replayed_app.
  change (replayed [Event (Git ["merge-base"; ("source/" ++ branch source)%string;
                                ("dest/" ++ branch dest)%string])])
    with (@nil event).
  change (replayed [Event (Git ["log"; "--reverse"; "--pretty=format:%H || %s || %aE";
                                "--no-merges"; "--ancestry-path";
                                (merge_base ++ "..dest/" ++ branch dest)%string])])
    with (@nil event).
  rewrite !app_nil_r. reflexivity.
Qed.

Lemma replay_without_bots_picks_in_order_witness :
  replayed
    (events
       (snd (_do_rebase carries no_escapes 2 upstream "soft" [] []
               false upstream_branch downstream_branch start)))
  = [pick_event "a1"; pick_event "b1"; pick_event "a3"; pick_event "b2"].
Proof.
  apply (replay_without_bots_picks_in_order carries no_escapes 2 upstream "soft"
           [] false upstream_branch downstream_branch start
           _ EmptyString range_log 1 2 range_commits range_carry).
  - reflexivity.
  - reflexivity.
  - reflexivity.
  - exact range_verdicts.
  - reflexivity.
Defined.

(** ** Staged entries in the status report *)

Lemma ignored_not_conflict (line : string) :
  ignored_entry line = true -> conflict_entry line = false.
Proof.
  intros I. destruct (conflict_entry line) eqn:C; [|reflexivity].
  apply conflict_not_ignored in C. congruence.
Qed.

Lemma scan_status_mixed unicode_unescape (lines : list string) :
  Forall (fun line => ignored_entry line = true \/ conflict_entry line = true) lines ->
  forall files,
    Forall2 (fun line file => status_filename unicode_unescape line = Ok file)
      (filter conflict_entry lines) files ->
    forall ud_files,
      scan_status unicode_unescape lines ud_files = Ok (Some (ud_files ++ files)).
Proof.
  induction 1 as [|line lines Hline _ IH]; intros files F ud_files.
  - cbn in F. inversion F. cbn. rewrite app_nil_r. reflexivity.
  - cbn [scan_status filter] in *.
    destruct (ignored_entry line) eqn:I.
    + rewrite (ignored_not_conflict _ I) in F. unfold ignored_entry in I.
      rewrite I. apply IH, F.
    + destruct Hline as [Hi|C]; [congruence|]. rewrite C in F.
      unfold ignored_entry in I. rewrite I. unfold conflict_entry in C. rewrite C.
      cbn [negb]. inversion F as [|? file ? files' Hf F']; subst.
      rewrite Hf, (IH _ F'), <- app_assoc. reflexivity.
Qed.

(** X9: when every entry of the status report is either one of the three
    staged codes the automaton passes over or one of the five
    delete/modify shapes, the automaton removes the files of the
    delete/modify entries, in the order of the report, and only those: no
    file of a staged entry is touched; it then commits with [--no-edit]
    and reports success.  A report of staged entries only gives the commit
    alone. *)
Theorem staged_entries_are_left_alone {W} (h : handler W) unicode_unescape
    (st : state W) (report : string) (w1 w2 : W) (files : list string) :
  h _ (Git ["status"; "--porcelain"]) (world st) = (Ok report, w1) ->
  report <> EmptyString ->
  Forall (fun line => ignored_entry line = true \/ conflict_entry line = true)
    (Py.splitlines report) ->
  Forall2 (fun line file => status_filename unicode_unescape line = Ok file)
    (filter conflict_entry (Py.splitlines report)) files ->
  git_all_succeed h
    (map (fun file => ["rm"; file]) files ++ [["commit"; "--no-edit"]]) w1 w2 ->
  _resolve_conflict h unicode_unescape st
  = (Ret true,
     mkState w2
       (events st ++ [Event (Git ["status"; "--porcelain"])]
        ++ map (fun file => Event (Git ["rm"; file])) files
        ++ [Event (Git ["commit"; "--no-edit"])])).
Proof.
  intros Hstatus NE Shapes Files G.
  unfold _resolve_conflict, bind at 1, git at 1, perform. rewrite Hstatus.
  destruct report as [|c report]; [congruence|].
  rewrite (scan_status_mixed _ _ Shapes _ Files []). cbn [app].
  destruct (rm_all_succeeds h _ w2 files
              (mkState w1 (events st ++ [Event (Git ["status"; "--porcelain"])])) G)
    as (w & R & G').
  cbn in G'. destruct G' as (out & w3 & C & ->).
  unfold bind. rewrite R. unfold git, perform. cbn [world events].
  rewrite C. unfold ret. rewrite <- !app_assoc. reflexivity.
Qed.

Lemma staged_entries_are_left_alone_witness :
  _resolve_conflict staged_and_deleted no_escapes start
  = (Ret true,
     mkState 3 [Event (Git ["status"; "--porcelain"]);
                Event (Git ["rm"; "old.txt"]);
                Event (Git ["commit"; "--no-edit"])]).
Proof.
  apply (staged_entries_are_left_alone staged_and_deleted no_escapes start
           ("M  kept.go" ++ LF ++ "DD old.txt" ++ LF ++ "A  new.go")%string 1 3
           ["old.txt"]).
  - reflexivity.
  - discriminate.
  - constructor; [left; reflexivity|]. constructor; [right; reflexivity|].
    constructor; [left; reflexivity|]. constructor.
  - apply Forall2_cons; [reflexivity|apply Forall2_nil].
  - cbn. do 2 eexists. split; [reflexivity|].
    do 2 eexists. split; reflexivity.
Defined.

(** ** The title keeps its prefix *)

Lemma no_merge_at_head (c : ascii) (s : string) :
  occurrences "Merge" (String c s) = 0 ->
  Py.startswith "Merge" (String c s) = false /\ occurrences "Merge" s = 0.
Proof.
  cbn [occurrences]. destruct (Py.startswith "Merge" (String c s)).
  - discriminate.
  - intros E. split; [reflexivity|exact E].
Qed.

(** [Merge] has no border: an occurrence cannot begin in a text that
    holds none and run over into a [Merge] that follows it. *)
Lemma no_merge_across (c : ascii) (s tail : string) :
  Py.startswith "Merge" (String c s) = false ->
  Py.startswith "Merge" (String c (s ++ "Merge" ++ tail)) = false.
Proof.
  intros S.
  destruct s as [|c1 [|c2 [|c3 [|c4 s]]]]; cbn [Py.startswith append] in *;
    try exact S;
    repeat match goal with
           | |- (Ascii.eqb ?a ?b && _) = false =>
               destruct (Ascii.eqb a b); [cbn [andb]|reflexivity]
           end;
    reflexivity.
Qed.

Lemma find_merge_after (before tail : string) :
  occurrences "Merge" before = 0 ->
  Py.find "Merge" (before ++ "Merge" ++ tail) = Some (before, tail).
Proof.
  induction before as [|c before IH]; intros O; [reflexivity|].
  apply no_merge_at_head in O as [S O].
  change (String c before ++ "Merge" ++ tail)%string
    with (String c (before ++ "Merge" ++ tail)).
  rewrite find_unfold, (no_merge_across _ _ tail S), (IH O). reflexivity.
Qed.

Lemma split_head_clean (s : string) :
  occurrences "Merge" (Py.split_head "Merge" s) = 0.
Proof.
  rewrite <- count_merge_occurrences. unfold Py.split_head.
  destruct (Py.find "Merge" s) as [[before after]|] eqn:F.
  - apply (py_find_some _ _ _ _ _ F).
  - apply (py_find_none _ _ _ F).
Qed.

(** X10: when [_update_pr_title] rewrites a title, the text before
    [Merge] in the new title is the text before [Merge] in the old one: a
    ticket reference or a tag in front survives every rewrite, and only
    what follows is replaced.  A title that [_create_pr] made has nothing
    in front, and is replaced as a whole by the title [_create_pr] would
    make for the new head. *)
Theorem retitling_keeps_the_prefix {W} (h : handler W) (pull_req : PullRequest)
    (source dest : GitHubBranch) (st : state W) (source_head_commit : string)
    (w1 : W) :
  h _ (Git ["rev-parse"; "--short=7"; ("source/" ++ branch source)%string]) (world st)
  = (Ok source_head_commit, w1) ->
  Py.count "Merge" (title pull_req) = 1 ->
  exists new_title,
    events (snd (_update_pr_title h pull_req source dest st))
    = events st
      ++ [Event (Git ["rev-parse"; "--short=7"; ("source/" ++ branch source)%string]);
          Event (GhUpdateTitle pull_req new_title)]
    /\ Py.split_head "Merge" new_title = Py.split_head "Merge" (title pull_req)
    /\ (forall source0 dest0 head0,
           title pull_req = merge_title source0 dest0 head0 ->
           new_title = merge_title source dest source_head_commit).
Proof.
  intros Hrev C.
  exists (Py.split_head "Merge" (title pull_req)
          ++ merge_title source dest source_head_commit)%string.
  split; [|split].
  - unfold _update_pr_title, bind, git, perform. rewrite Hrev, C.
    cbn [Nat.eqb world events].
    destruct (h bool _ w1) as [[[|]|e] w2]; cbn [snd events];
      rewrite <- app_assoc; reflexivity.
  - unfold merge_title.
    change ("Merge " ++ url source ++ ":" ++ branch source ++ " ("
              ++ source_head_commit ++ ") into " ++ branch dest)%string
      with ("Merge" ++ (" " ++ url source ++ ":" ++ branch source ++ " ("
                          ++ source_head_commit ++ ") into " ++ branch dest))%string.
    unfold Py.split_head at 1.
    rewrite (find_merge_after _ _ (split_head_clean (title pull_req))). reflexivity.
  - intros source0 dest0 head0 E. rewrite E. reflexivity.
Qed.

Lemma retitling_keeps_the_prefix_witness :
  exists new_title,
    events (snd (_update_pr_title head_def5678 jira_pr old_old downstream_main start))
    = events start
      ++ [Event (Git ["rev-parse"; "--short=7"; ("source/" ++ branch old_old)%string]);
          Event (GhUpdateTitle jira_pr new_title)]
    /\ Py.split_head "Merge" new_title = "[JIRA-1] ".
Proof.
  destruct (retitling_keeps_the_prefix head_def5678 jira_pr old_old downstream_main
              start "def5678" 1 eq_refl eq_refl) as (new_title & E & P & _).
  exists new_title. split; [exact E|exact P].
Defined.

(** ** The push: [_push_rebase_branch] *)

Lemma land_error_bit (f : N) :
  N.land f PushInfo_ERROR = if N.testbit f 10 then PushInfo_ERROR else 0%N.
Proof.
  apply N.bits_inj. intros n. rewrite N.land_spec.
  change PushInfo_ERROR with (2 ^ 10)%N. rewrite N.pow2_bits_eqb.
  destruct (N.eqb_spec 10 n) as [<-|Hn].
  - rewrite andb_true_r. destruct (N.testbit f 10).
    + symmetry. apply N.pow2_bits_true.
    + symmetry. apply N.bits_0.
  - rewrite andb_false_r. destruct (N.testbit f 10).
    + symmetry. apply N.pow2_bits_false. exact Hn.
    + symmetry. apply N.bits_0.
Qed.

(** X11: the push is a failure exactly when bit 10 (the error flag) is
    set in the flags of the first result: the other flags of that result,
    and every later result, are not looked at.  The push itself is one
    call, of the refspec [HEAD:<rebase branch>] on the remote [rebase]. *)
Theorem push_fails_on_error_bit_of_first_result {W} (h : handler W)
    (rebase : GitHubBranch) (st : state W) (first : PushInfo)
    (others : list PushInfo) (w1 : W) :
  h _ (RemotePush "rebase" ("HEAD:" ++ branch rebase)) (world st)
  = (Ok (first :: others), w1) ->
  exists outcome_,
    _push_rebase_branch h rebase st
    = (outcome_,
       mkState w1 (events st ++ [Event (RemotePush "rebase" ("HEAD:" ++ branch rebase))]))
    /\ (N.testbit (flags first) 10 = false -> outcome_ = Ret tt)
    /\ (N.testbit (flags first) 10 = true -> exists msg, outcome_ = Raise (Exception_ msg)).
Proof.
  intros Hpush. unfold _push_rebase_branch, bind, perform. rewrite Hpush.
  rewrite land_error_bit. destruct (N.testbit (flags first) 10).
  - eexists. split; [reflexivity|]. split; [discriminate|]. intros _.
    eexists. reflexivity.
  - eexists. split; [reflexivity|]. split; [reflexivity|discriminate].
Qed.

Lemma push_fails_on_error_bit_of_first_result_witness :
  (exists msg, fst (_push_rebase_branch push_rejected rebase_branch start)
               = Raise (Exception_ msg))
  /\ fst (_push_rebase_branch push_error_later rebase_branch start) = Ret tt.
Proof.
  split.
  - destruct (push_fails_on_error_bit_of_first_result push_rejected rebase_branch start
                {| flags := 1032; summary := "[rejected] (fetch first)" |}
                [ {| flags := 0; summary := EmptyString |} ] 1 eq_refl)
      as (o & E & _ & Hset).
    destruct (Hset eq_refl) as (msg & ->). exists msg. rewrite E. reflexivity.
  - destruct (push_fails_on_error_bit_of_first_result push_error_later rebase_branch
                start {| flags := 128; summary := "forced update" |}
                [ {| flags := 1024; summary := "error" |} ] 1 eq_refl)
      as (o & E & Hclear & _).
    rewrite E, (Hclear eq_refl). reflexivity.
Defined.

(** ** The manual label: [_manual_rebase_pr_in_repo] *)

Lemma find_first {A} (f : A -> bool) (l : list A) (x : A) :
  List.find f l = Some x ->
  exists before after,
    l = before ++ x :: after /\ f x = true
    /\ forall y, In y before -> f y = false.
Proof.
  induction l as [|a l IH]; [discriminate|]. cbn [List.find].
  destruct (f a) eqn:Fa.
  - intros E. injection E as <-. exists [], l. repeat split; [exact Fa|].
    intros y [].
  - intros E. destruct (IH E) as (before & after & -> & Fx & Hb).
    exists (a :: before), after. repeat split; [exact Fx|].
    intros y [<-|Hy]; [exact Fa|apply Hb, Hy].
Qed.

(** X12: of the open pull requests as GitHub lists them,
    [_manual_rebase_pr_in_repo] returns the first that carries the label
    [rebase/manual], whatever its other labels, and none exactly when no
    listed pull request carries it; the listing is its only call. *)
Theorem manual_label_lookup_returns_first_labelled {W} (h : handler W)
    (repo : Repository) (st : state W) (prs : list PullRequest) (w1 : W) :
  h _ (GhPullRequests repo None) (world st) = (Ok prs, w1) ->
  exists found,
    _manual_rebase_pr_in_repo h repo st
    = (Ret found, mkState w1 (events st ++ [Event (GhPullRequests repo None)]))
    /\ match found with
       | Some pull_req =>
           exists before after,
             prs = before ++ pull_req :: after
             /\ In "rebase/manual" (labels pull_req)
             /\ forall earlier, In earlier before ->
                                ~ In "rebase/manual" (labels earlier)
       | None => forall pull_req, In pull_req prs ->
                                  ~ In "rebase/manual" (labels pull_req)
       end.
Proof.
  intros Hprs. unfold _manual_rebase_pr_in_repo, bind, perform. rewrite Hprs.
  eexists. split; [reflexivity|]. fold has_manual_label.
  destruct (List.find has_manual_label prs) as [pull_req|] eqn:F.
  - destruct (find_first _ _ _ F) as (before & after & E & L & Hb).
    exists before, after. split; [exact E|]. split.
    + apply in_list_iff, L.
    + intros earlier Hin Hl. apply in_list_iff in Hl.
      specialize (Hb earlier Hin). unfold has_manual_label in Hb. congruence.
  - intros pull_req Hin Hl. apply in_list_iff in Hl.
    pose proof (List.find_none _ _ F pull_req Hin) as N.
    unfold has_manual_label in N. congruence.
Qed.

Lemma manual_label_lookup_returns_first_labelled_witness :
  fst (_manual_rebase_pr_in_repo second_held_back upstream start) = Ret (Some held_pr)
  /\ fst (_manual_rebase_pr_in_repo quiet upstream start) = Ret None.
Proof.
  split.
  - destruct (manual_label_lookup_returns_first_labelled second_held_back upstream
                start [approved_pr; held_pr; jira_pr] 1 eq_refl) as (found & E & _).
    rewrite E. cbn [fst]. injection E as E. rewrite <- E. reflexivity.
  - destruct (manual_label_lookup_returns_first_labelled quiet upstream start [] 1
                eq_refl) as (found & E & _).
    rewrite E. cbn [fst]. injection E as E. rewrite <- E. reflexivity.
Defined.

(** ** The pull request of the rebase branch: [_is_pr_available] *)

(** X13: [_is_pr_available] asks GitHub once, for the pull requests whose
    head is [<rebase namespace>:<rebase branch>].  It returns the first of
    the listing with true, and no pull request with false when the listing
    is empty, so that the flag is true exactly when a pull request is
    returned; a [StopIteration] of the listing itself is read as an empty
    listing, and any other error is passed on. *)
Theorem pr_available_flag_matches {W} (h : handler W) (dest_repo : Repository)
    (rebase : GitHubBranch) (st : state W) (answer : res (list PullRequest))
    (w1 : W) :
  h _ (GhPullRequests dest_repo (Some (ns rebase ++ ":" ++ branch rebase)%string))
    (world st)
  = (answer, w1) ->
  _is_pr_available h dest_repo rebase st
  = (match answer with
     | Ok (gh_pr :: _) => Ret (Some gh_pr, true)
     | Ok [] => Ret (None, false)
     | Err StopIteration => Ret (None, false)
     | Err e => Raise e
     end,
     mkState w1
       (events st
        ++ [Event (GhPullRequests dest_repo
                     (Some (ns rebase ++ ":" ++ branch rebase)%string))])).
Proof.
  intros Hprs. unfold _is_pr_available, try_except, bind, perform. rewrite Hprs.
  destruct answer as [[|gh_pr prs]|[]]; reflexivity.
Qed.

Lemma pr_available_flag_matches_witness :
  _is_pr_available quiet upstream rebase_branch start
  = (Ret (None, false),
     mkState 1 [Event (GhPullRequests upstream (Some "openshift-bot:rebase-bot-main"))])
  /\ fst (_is_pr_available second_held_back upstream rebase_branch start)
     = Ret (Some approved_pr, true).
Proof.
  split.
  - apply (pr_available_flag_matches quiet upstream rebase_branch start (Ok []) 1).
    reflexivity.
  - rewrite (pr_available_flag_matches second_held_back upstream rebase_branch start
               (Ok [approved_pr; held_pr; jira_pr]) 1 eq_refl).
    reflexivity.
Defined.

(** ** Whether to push: [_is_push_required] *)

(** X14: [_is_push_required] answers no without a further call when
    [_needs_rebase] says that the destination holds the source head.
    Otherwise it asks whether the remote [rebase] has the rebase branch:
    when it has not, a push is required; when it has, the working tree is
    compared with [rebase/<branch>], and a push is required exactly when
    the diff is not empty. *)
Theorem push_required_cases {W} (h : handler W) (dest source rebase : GitHubBranch)
    (st st1 : state W) (needs_rebase : bool) :
  _needs_rebase h source dest st = (Ret needs_rebase, st1) ->
  (needs_rebase = false ->
   _is_push_required h dest source rebase st = (Ret false, st1))
  /\ (needs_rebase = true ->
      forall (known : bool) (w2 : W),
        h _ (RemoteHasRef "rebase" (branch rebase)) (world st1) = (Ok known, w2) ->
        (known = false ->
         _is_push_required h dest source rebase st
         = (Ret true,
            mkState w2 (events st1 ++ [Event (RemoteHasRef "rebase" (branch rebase))])))
        /\ (known = true ->
            forall (diff_index : string) (w3 : W),
              h _ (Git ["diff"; ("rebase/" ++ branch rebase)%string]) w2
              = (Ok diff_index, w3) ->
              _is_push_required h dest source rebase st
              = (Ret (negb (String.eqb diff_index EmptyString)),
                 mkState w3
                   (events st1
                    ++ [Event (RemoteHasRef "rebase" (branch rebase));
                        Event (Git ["diff"; ("rebase/" ++ branch rebase)%string])])))).
Proof.
  intros N. split.
  - intros ->. unfold _is_push_required, bind at 1. rewrite N. reflexivity.
  - intros -> known w2 Hk. split.
    + intros ->. unfold _is_push_required, bind at 1. rewrite N. cbn [negb].
      unfold bind at 1, perform at 1. rewrite Hk. reflexivity.
    + intros -> diff_index w3 Hd. unfold _is_push_required, bind at 1. rewrite N.
      cbn [negb]. unfold bind at 1, perform at 1. rewrite Hk.
      unfold bind, git, perform. cbn [world events].
      rewrite Hd, <- app_assoc. destruct diff_index; reflexivity.
Qed.

Lemma push_required_cases_witness :
  fst (_is_push_required rebase_branch_differs downstream_branch upstream_branch
         rebase_branch start)
  = Ret true.
Proof.
  rewrite (proj2 (proj2 (push_required_cases rebase_branch_differs downstream_branch
                           upstream_branch rebase_branch start
                           (mkState 1 [Event (Git ["branch"; "-r"; "--contains";
                                                    "source/master"])])
                           true eq_refl)
                    eq_refl true 2 eq_refl)
             eq_refl "diff --git a/go.mod b/go.mod" 3 eq_refl).
  reflexivity.
Defined.

(** ** The merge commit: [_prepare_rebase_branch] *)

(** X15: [_prepare_rebase_branch] goes on whether or not git can delete
    the branches [merge-tmp] and [rebase]: with the other four commands
    answered, it returns after these six commands, in this order, and the
    branch [rebase] is created at the commit that [commit-tree] printed: a
    commit with the tree of the source head and the two parents [HEAD]
    (the destination) and [merge-tmp] (the source). *)
Theorem prepare_rebase_branch_tolerates_missing_branches {W} (h : handler W)
    (source dest : GitHubBranch) (st : state W) (r1 r5 : res string)
    (o2 o3 commit o6 : string) (w1 w2 w3 w4 w5 w6 : W) :
  let delete_tmp := Git ["branch"; "--force"; "-d"; MERGE_TMP_BRANCH] in
  let create_tmp :=
    Git ["checkout"; "-b"; MERGE_TMP_BRANCH; ("source/" ++ branch source)%string] in
  let checkout_dest := Git ["checkout"; ("dest/" ++ branch dest)%string] in
  let commit_tree :=
    Git ["commit-tree"; (MERGE_TMP_BRANCH ++ "^{tree}")%string;
         "-p"; "HEAD"; "-p"; MERGE_TMP_BRANCH; "-m";
         ("merge upstream/" ++ branch source ++ " into " ++ branch dest)%string] in
  let delete_rebase := Git ["branch"; "--force"; "-d"; "rebase"] in
  let create_rebase := Git ["checkout"; "-b"; "rebase"; commit] in
  h _ delete_tmp (world st) = (r1, w1) -> tolerated r1 ->
  h _ create_tmp w1 = (Ok o2, w2) ->
  h _ checkout_dest w2 = (Ok o3, w3) ->
  h _ commit_tree w3 = (Ok commit, w4) ->
  h _ delete_rebase w4 = (r5, w5) -> tolerated r5 ->
  h _ create_rebase w5 = (Ok o6, w6) ->
  _prepare_rebase_branch h source dest st
  = (Ret tt,
     mkState w6
       (events st
        ++ [Event delete_tmp; Event create_tmp; Event checkout_dest;
            Event commit_tree; Event delete_rebase; Event create_rebase])).
Proof.
  intros delete_tmp create_tmp checkout_dest commit_tree delete_rebase create_rebase
    H1 T1 H2 H3 H4 H5 T5 H6.
  subst delete_tmp create_tmp checkout_dest commit_tree delete_rebase create_rebase.
  assert (D : forall (name_ : string) (s : state W) (r : res string) (w : W),
             h _ (Git ["branch"; "--force"; "-d"; name_]) (world s) = (r, w) ->
             tolerated r ->
             delete_branch h name_ s
             = (Ret tt,
                mkState w (events s ++ [Event (Git ["branch"; "--force"; "-d"; name_])]))).
  { intros name_ s r w E T. unfold delete_branch, try_except, bind, git, perform.
    rewrite E. destruct r as [out|[]]; try contradiction; reflexivity. }
  unfold _prepare_rebase_branch. unfold bind at 1.
  rewrite (D _ _ _ _ H1 T1).
  unfold bind at 1, git at 1, perform at 1. cbn [world events]. rewrite H2.
  unfold bind at 1, git at 1, perform at 1. cbn [world events]. rewrite H3.
  unfold bind at 1, git at 1, perform at 1. cbn [world events]. rewrite H4.
  unfold bind at 1.
  rewrite (D "rebase" (mkState w4 _) _ _ H5 T5).
  unfold bind, git, perform. cbn [world events]. rewrite H6.
  unfold ret. rewrite <- !app_assoc. reflexivity.
Qed.

Lemma prepare_rebase_branch_tolerates_missing_branches_witness :
  _prepare_rebase_branch no_branch_to_delete upstream_branch downstream_branch start
  = (Ret tt,
     mkState 6
       [Event (Git ["branch"; "--force"; "-d"; "merge-tmp"]);
        Event (Git ["checkout"; "-b"; "merge-tmp"; "source/master"]);
        Event (Git ["checkout"; "dest/main"]);
        Event (Git ["commit-tree"; "merge-tmp^{tree}"; "-p"; "HEAD"; "-p"; "merge-tmp";
                    "-m"; "merge upstream/master into main"]);
        Event (Git ["branch"; "--force"; "-d"; "rebase"]);
        Event (Git ["checkout"; "-b"; "rebase"; "c0ffee"])]).
Proof.
  apply (prepare_rebase_branch_tolerates_missing_branches no_branch_to_delete
           upstream_branch downstream_branch start
           (Err (GitCommandError "branch not found"))
           (Err (GitCommandError "branch not found"))
           EmptyString EmptyString "c0ffee" EmptyString 1 2 3 4 5 6);
    first [reflexivity | exact I].
Defined.

(** ** How [run] ends on errors *)

Section RunErrors.

Context {W : Type} (h : handler W) (unicode_unescape : string -> res string).
Variable fuel : nat.
Variables source dest rebase : GitHubBranch.
Variable working_dir : string.
Variables git_username git_email : string.
Variable slack_webhook : option string.
Variable tag_policy : string.
Variables bot_emails exclude_commits : list string.
Variables update_go_modules dry_run ignore_manual_label : bool.

Lemma run_after_lookup (dest_repo source_repo : Repository) (st st1 : state W) :
  run_lookup h source dest rebase slack_webhook ignore_manual_label st
  = (Ret (Next (dest_repo, source_repo)), st1) ->
  run h unicode_unescape fuel source dest rebase working_dir git_username
    git_email slack_webhook tag_policy bot_emails exclude_commits
    update_go_modules dry_run ignore_manual_label st
  = bind (run_workdir h source dest rebase working_dir git_username git_email
            slack_webhook)
      (fun prepared =>
         match prepared with
         | Return result => ret result
         | Next _ =>
             rebased <- run_rebase h unicode_unescape fuel source dest slack_webhook
                          tag_policy bot_emails exclude_commits update_go_modules
                          source_repo ;;
             match rebased with
             | Return result => ret result
             | Next _ =>
                 if dry_run then ret true
                 else run_publish h source dest rebase slack_webhook dest_repo
             end
         end) st1.
Proof.
  intros L. unfold run, bind at 1. rewrite L. reflexivity.
Qed.

End RunErrors.

(** X16: when the lookup of the destination repository fails, whatever
    the error, [run] posts one message that names it and returns false:
    after the failed lookup it makes no call but the post, in a dry run
    as in any other. *)
Theorem lookup_failure_returns_false {W} (h : handler W)
    (unicode_unescape : string -> res string) (fuel : nat)
    (source dest rebase : GitHubBranch) (working_dir git_username git_email : string)
    (slack_webhook : option string) (tag_policy : string)
    (bot_emails exclude_commits : list string)
    (update_go_modules dry_run ignore_manual_label : bool) (st : state W)
    (e : exn) (w1 : W) :
  notified h slack_webhook ->
  h _ (GhRepository github_app (ns dest) (name dest)) (world st) = (Err e, w1) ->
  exists w2,
    run h unicode_unescape fuel source dest rebase working_dir git_username
      git_email slack_webhook tag_policy bot_emails exclude_commits
      update_go_modules dry_run ignore_manual_label st
    = (Ret false,
       mkState w2
         ((events st ++ [Event (GhRepository github_app (ns dest) (name dest))])
          ++ slack_events slack_webhook
               ("I got an error fetching repo information from GitHub: "
                  ++ str_of_exn e))).
Proof.
  intros N Hd.
  destruct (slack_delivered h slack_webhook
              ("I got an error fetching repo information from GitHub: "
                 ++ str_of_exn e)
              (mkState w1
                 (events st ++ [Event (GhRepository github_app (ns dest) (name dest))]))
              N) as (w2 & S).
  exists w2. unfold run, bind at 1, run_lookup, try_except, bind at 1, perform at 1.
  rewrite Hd. unfold bind at 1. rewrite S. reflexivity.
Qed.

Lemma lookup_failure_returns_false_witness :
  fst (run github_down no_escapes 2 upstream_branch downstream_branch rebase_branch
         "/tmp/rebase" "rebase-bot" "bot@example.com" hook "soft" [] [] false false
         false start)
  = Ret false
  /\ events
       (snd (run github_down no_escapes 2 upstream_branch downstream_branch
               rebase_branch "/tmp/rebase" "rebase-bot" "bot@example.com" hook
               "soft" [] [] false false false start))
     = [Event (GhRepository github_app "openshift" "autoscaler");
        Event (SlackPost "https://hooks.example"
                 "I got an error fetching repo information from GitHub: ConnectionError")].
Proof.
  destruct (lookup_failure_returns_false github_down no_escapes 2 upstream_branch
              downstream_branch rebase_branch "/tmp/rebase" "rebase-bot"
              "bot@example.com" hook "soft" [] [] false false false start
              (OtherError "ConnectionError") 1
              (simulated_notified _ _ (fun _ _ _ => eq_refl)) eq_refl) as (w2 & E).
  rewrite E. split; reflexivity.
Defined.

(** X17: the post that announces a pull request labelled
    [rebase/manual] is made inside the block that guards the GitHub
    lookups.  When that post fails, the failure is handled as a lookup
    error: [run] posts that it got an error fetching repository information
    from GitHub, with the error of the webhook, and returns false, not
    true. *)
Theorem failed_label_notice_is_reported_as_lookup_error {W} (h : handler W)
    (unicode_unescape : string -> res string) (fuel : nat)
    (source dest rebase : GitHubBranch) (working_dir git_username git_email : string)
    (webhook_url : string) (tag_policy : string)
    (bot_emails exclude_commits : list string)
    (update_go_modules dry_run : bool) (st : state W)
    (dest_repo rebase_repo source_repo : Repository)
    (prs : list PullRequest) (pull_req : PullRequest) (e : exn)
    (w1 w2 w3 w4 w5 w6 : W) :
  h _ (GhRepository github_app (ns dest) (name dest)) (world st)
  = (Ok dest_repo, w1) ->
  h _ (GhRepository github_cloner_app (ns rebase) (name rebase)) w1
  = (Ok rebase_repo, w2) ->
  h _ (GhRepository github_app (ns source) (name source)) w2
  = (Ok source_repo, w3) ->
  h _ (GhPullRequests dest_repo None) w3 = (Ok prs, w4) ->
  List.find has_manual_label prs = Some pull_req ->
  h _ (SlackPost webhook_url (manual_label_message dest_repo pull_req)) w4
  = (Err e, w5) ->
  h _ (SlackPost webhook_url
         ("I got an error fetching repo information from GitHub: " ++ str_of_exn e)) w5
  = (Ok tt, w6) ->
  run h unicode_unescape fuel source dest rebase working_dir git_username
    git_email (Some webhook_url) tag_policy bot_emails exclude_commits
    update_go_modules dry_run false st
  = (Ret false,
     mkState w6
       (events st
        ++ [Event (GhRepository github_app (ns dest) (name dest));
            Event (GhRepository github_cloner_app (ns rebase) (name rebase));
            Event (GhRepository github_app (ns source) (name source));
            Event (GhPullRequests dest_repo None);
            Event (SlackPost webhook_url (manual_label_message dest_repo pull_req));
            Event (SlackPost webhook_url
                     ("I got an error fetching repo information from GitHub: "
                        ++ str_of_exn e))])).
Proof.
  intros Hd Hr Hs Hprs F Hpost Hpost2.
  unfold run, bind at 1, run_lookup, try_except, bind at 1, perform at 1.
  rewrite Hd. unfold bind at 1, perform at 1. cbn [world events]. rewrite Hr.
  unfold bind at 1, perform at 1. cbn [world events]. rewrite Hs.
  cbn [negb]. unfold bind at 1, _manual_rebase_pr_in_repo, bind at 1, perform at 1.
  cbn [world events]. rewrite Hprs. unfold ret at 1.
  fold has_manual_label. rewrite F.
  unfold bind at 1, _message_slack at 1, perform at 1. cbn [world events].
  rewrite Hpost.
  unfold bind at 1, _message_slack at 1, perform at 1. cbn [world events].
  rewrite Hpost2. unfold ret. rewrite <- !app_assoc. reflexivity.
Qed.

Lemma failed_label_notice_is_reported_as_lookup_error_witness :
  fst (run label_unannounced no_escapes 2 upstream_branch downstream_branch
         rebase_branch "/tmp/rebase" "rebase-bot" "bot@example.com"
         (Some "https://hooks.example") "soft" [] [] false false false start)
  = Ret false.
Proof.
  rewrite (failed_label_notice_is_reported_as_lookup_error label_unannounced
             no_escapes 2 upstream_branch downstream_branch rebase_branch
             "/tmp/rebase" "rebase-bot" "bot@example.com" "https://hooks.example"
             "soft" [] [] false false start
             {| repo_ns := "openshift"; repo_name := "autoscaler";
                clone_url := "https://github.com/openshift/autoscaler" |}
             {| repo_ns := "openshift-bot"; repo_name := "autoscaler";
                clone_url := "https://github.com/openshift-bot/autoscaler" |}
             {| repo_ns := "kubernetes"; repo_name := "autoscaler";
                clone_url := "https://github.com/kubernetes/autoscaler" |}
             [held_pr] held_pr (OtherError "ReadTimeout") 1 2 3 4 5 6
             eq_refl eq_refl eq_refl eq_refl eq_refl eq_refl eq_refl).
  reflexivity.
Defined.

(** X18: the creation of the working directory is guarded against one
    error only, the directory being there already.  Any other error of
    [os.mkdir] leaves [run] as it is: [run] raises it, returns no result
    and posts no message. *)
Theorem mkdir_error_escapes_run {W} (h : handler W)
    (unicode_unescape : string -> res string) (fuel : nat)
    (source dest rebase : GitHubBranch) (working_dir git_username git_email : string)
    (slack_webhook : option string) (tag_policy : string)
    (bot_emails exclude_commits : list string)
    (update_go_modules dry_run ignore_manual_label : bool)
    (dest_repo source_repo : Repository) (st st1 : state W) (e : exn) (w2 : W) :
  run_lookup h source dest rebase slack_webhook ignore_manual_label st
  = (Ret (Next (dest_repo, source_repo)), st1) ->
  h _ (OsMkdir working_dir) (world st1) = (Err e, w2) ->
  e <> FileExistsError ->
  run h unicode_unescape fuel source dest rebase working_dir git_username
    git_email slack_webhook tag_policy bot_emails exclude_commits
    update_go_modules dry_run ignore_manual_label st
  = (Raise e, mkState w2 (events st1 ++ [Event (OsMkdir working_dir)])).
Proof.
  intros L Hmk Ne.
  rewrite (run_after_lookup h unicode_unescape fuel source dest rebase working_dir
             git_username git_email slack_webhook tag_policy bot_emails
             exclude_commits update_go_modules dry_run ignore_manual_label
             dest_repo source_repo st st1 L).
  unfold bind at 1, run_workdir, bind at 1, try_except at 1, perform at 1.
  rewrite Hmk. destruct e; try reflexivity. contradiction.
Qed.

Lemma mkdir_error_escapes_run_witness :
  run readonly_parent no_escapes 2 upstream_branch downstream_branch rebase_branch
    "/srv/rebase" "rebase-bot" "bot@example.com" hook "soft" [] [] false false true
    start
  = (Raise (OtherError "PermissionError"),
     mkState 4
       [Event (GhRepository github_app "openshift" "autoscaler");
        Event (GhRepository github_cloner_app "openshift-bot" "autoscaler");
        Event (GhRepository github_app "kubernetes" "autoscaler");
        Event (OsMkdir "/srv/rebase")]).
Proof.
  apply (mkdir_error_escapes_run readonly_parent no_escapes 2 upstream_branch
           downstream_branch rebase_branch "/srv/rebase" "rebase-bot"
           "bot@example.com" hook "soft" [] [] false false true
           {| repo_ns := "openshift"; repo_name := "autoscaler";
              clone_url := "https://github.com/openshift/autoscaler" |}
           {| repo_ns := "kubernetes"; repo_name := "autoscaler";
              clone_url := "https://github.com/kubernetes/autoscaler" |}
           start
           (mkState 3
              [Event (GhRepository github_app "openshift" "autoscaler");
               Event (GhRepository github_cloner_app "openshift-bot" "autoscaler");
               Event (GhRepository github_app "kubernetes" "autoscaler")])
           (OtherError "PermissionError") 4).
  - reflexivity.
  - reflexivity.
  - discriminate.
Defined.

(** X19: the check whether a push is required comes after the last
    guarded block of the rebase and before the guarded push.  An error in
    it leaves [run] as it is: when the remote has the rebase branch and
    [git diff] against it fails, [_is_push_required] raises the git error,
    and [run], when not a dry run, raises it too, without result and
    without notification. *)
Theorem push_check_error_escapes_run {W} (h : handler W)
    (unicode_unescape : string -> res string) (fuel : nat)
    (source dest rebase : GitHubBranch) (working_dir git_username git_email : string)
    (slack_webhook : option string) (tag_policy : string)
    (bot_emails exclude_commits : list string)
    (update_go_modules ignore_manual_label : bool)
    (dest_repo source_repo : Repository) (st st1 st2 st3 st4 : state W)
    (e : exn) (w5 w6 : W) :
  run_lookup h source dest rebase slack_webhook ignore_manual_label st
  = (Ret (Next (dest_repo, source_repo)), st1) ->
  run_workdir h source dest rebase working_dir git_username git_email
    slack_webhook st1 = (Ret (Next tt), st2) ->
  rebase_phase h unicode_unescape fuel source dest tag_policy bot_emails
    exclude_commits update_go_modules source_repo st2 = (Ret tt, st3) ->
  _needs_rebase h source dest st3 = (Ret true, st4) ->
  h _ (RemoteHasRef "rebase" (branch rebase)) (world st4) = (Ok true, w5) ->
  h _ (Git ["diff"; ("rebase/" ++ branch rebase)%string]) w5 = (Err e, w6) ->
  let failed :=
    mkState w6
      (events st4
       ++ [Event (RemoteHasRef "rebase" (branch rebase));
           Event (Git ["diff"; ("rebase/" ++ branch rebase)%string])]) in
  _is_push_required h dest source rebase st3 = (Raise e, failed)
  /\ run h unicode_unescape fuel source dest rebase working_dir git_username
       git_email slack_webhook tag_policy bot_emails exclude_commits
       update_go_modules false ignore_manual_label st
     = (Raise e, failed).
Proof.
  intros L D R N Hk Hd failed.
  assert (P : _is_push_required h dest source rebase st3 = (Raise e, failed)).
  { unfold _is_push_required, bind at 1. rewrite N. cbn [negb].
    unfold bind at 1, perform at 1. rewrite Hk.
    unfold bind, git, perform. cbn [world events]. rewrite Hd.
    unfold failed. rewrite <- app_assoc. reflexivity. }
  split; [exact P|].
  rewrite (run_after_rebase h unicode_unescape fuel source dest rebase working_dir
             git_username git_email slack_webhook tag_policy bot_emails
             exclude_commits update_go_modules false ignore_manual_label
             dest_repo source_repo st st1 st2 st3 L D R).
  unfold run_publish, bind at 1. rewrite P. reflexivity.
Qed.

Lemma push_check_error_escapes_run_witness :
  fst (run diff_fails no_escapes 2 upstream_branch downstream_branch rebase_branch
         "/tmp/rebase" "rebase-bot" "bot@example.com" hook "soft" [] [] false false
         false start)
  = Raise (GitCommandError "bad revision").
Proof.
  eassert (E : _ /\ run diff_fails no_escapes 2 upstream_branch downstream_branch
                      rebase_branch "/tmp/rebase" "rebase-bot" "bot@example.com" hook
                      "soft" [] [] false false false start
                    = (Raise (GitCommandError "bad revision"), _)).
  { eapply (push_check_error_escapes_run diff_fails no_escapes 2 upstream_branch
              downstream_branch rebase_branch "/tmp/rebase" "rebase-bot"
              "bot@example.com" hook "soft" [] [] false false);
      (lazy; reflexivity). }
  destruct E as [_ E]. rewrite E. reflexivity.
Defined.

(** X20: when the rebase phase raises an exception that is no
    [RepoException], [run] posts that it got an error trying to rebase,
    with the source, the destination and a text of the error, and returns
    false, in a dry run as in any other; nothing is pushed.  The text is
    that of the exception when it carries one, as the errors of git, of
    GitHub and of the go tools do.  For an exception that the interpreter
    raises itself, such as the [ValueError] of a log line with fewer than
    three fields or the [RecursionError] of the retry cycle, the text is
    the interpreter's and is left open. *)
Theorem rebase_error_returns_false {W} (h : handler W)
    (unicode_unescape : string -> res string) (fuel : nat)
    (source dest rebase : GitHubBranch) (working_dir git_username git_email : string)
    (slack_webhook : option string) (tag_policy : string)
    (bot_emails exclude_commits : list string)
    (update_go_modules dry_run ignore_manual_label : bool)
    (dest_repo source_repo : Repository) (st st1 st2 st3 : state W) (e : exn) :
  notified h slack_webhook ->
  run_lookup h source dest rebase slack_webhook ignore_manual_label st
  = (Ret (Next (dest_repo, source_repo)), st1) ->
  run_workdir h source dest rebase working_dir git_username git_email
    slack_webhook st1 = (Ret (Next tt), st2) ->
  rebase_phase h unicode_unescape fuel source dest tag_policy bot_emails
    exclude_commits update_go_modules source_repo st2 = (Raise e, st3) ->
  (forall msg, e <> RepoException msg) ->
  exists w4 text,
    run h unicode_unescape fuel source dest rebase working_dir git_username
      git_email slack_webhook tag_policy bot_emails exclude_commits
      update_go_modules dry_run ignore_manual_label st
    = (Ret false,
       mkState w4
         (events st3
          ++ slack_events slack_webhook
               ("I got an error trying to rebase " ++ rebase_target source dest
                  ++ ": " ++ text)))
    /\ (carries_text e = true -> text = str_of_exn e).
Proof.
  intros N L D R Ne.
  destruct (slack_delivered h slack_webhook
              ("I got an error trying to rebase " ++ rebase_target source dest
                 ++ ": " ++ str_of_exn e) st3 N) as (w4 & S).
  exists w4, (str_of_exn e). split; [|reflexivity].
  unfold run, bind at 1. rewrite L. unfold bind at 1. rewrite D.
  unfold bind at 1, run_rebase, try_except, bind at 1. rewrite R.
  destruct e; try (unfold bind at 1; rewrite S; reflexivity).
  exfalso. apply (Ne msg). reflexivity.
Qed.

Lemma rebase_error_returns_false_witness :
  fst (run no_merge_base no_escapes 2 upstream_branch downstream_branch rebase_branch
         "/tmp/rebase" "rebase-bot" "bot@example.com" hook "soft" [] [] false false
         false start)
  = Ret false.
Proof.
  eassert (E : exists w4 text,
              run no_merge_base no_escapes 2 upstream_branch downstream_branch
                rebase_branch "/tmp/rebase" "rebase-bot" "bot@example.com" hook
                "soft" [] [] false false false start
              = (Ret false, mkState w4 _) /\ _).
  { eapply (rebase_error_returns_false no_merge_base no_escapes 2 upstream_branch
              downstream_branch rebase_branch "/tmp/rebase" "rebase-bot"
              "bot@example.com" hook "soft" [] [] false false false).
    - apply simulated_notified. intros. reflexivity.
    - lazy. reflexivity.
    - lazy. reflexivity.
    - lazy. reflexivity.
    - discriminate. }
  destruct E as (w4 & text & E & _). rewrite E. reflexivity.
Defined.

(** ** Go modules: [_commit_go_mod_updates] *)

(** X21: when [go mod tidy] fails in a module root, that is the command
    exits with an error status, [_commit_go_mod_updates] raises a
    [RepoException], the error of a manual intervention: later module
    roots are not visited and nothing is added or committed. *)
Theorem go_tool_failure_asks_for_manual_intervention {W} (h : handler W)
    (source : GitHubBranch) (st st2 : state W) (filepath : string)
    (others : list string) (detail stderr : string) (w1 w3 : W) :
  h _ (Glob "./**/go.mod") (world st) = (Ok (filepath :: others), w1) ->
  reset_go_files h source (Py.dirname filepath) ["go.mod"; "go.sum"]
    (mkState w1 (events st ++ [Event (Glob "./**/go.mod")]))
  = (Ret tt, st2) ->
  h _ (Subprocess "go mod tidy" (Py.dirname filepath)) (world st2)
  = (Err (CalledProcessError detail stderr), w3) ->
  exists msg,
    _commit_go_mod_updates h source st
    = (Raise (RepoException msg),
       mkState w3
         (events st2 ++ [Event (Subprocess "go mod tidy" (Py.dirname filepath))])).
Proof.
  intros Hglob Hreset Htidy. eexists.
  unfold _commit_go_mod_updates, bind at 1, perform at 1. rewrite Hglob.
  cbn [update_go_modules_in]. unfold bind at 1, bind at 1, update_go_module.
  unfold try_except, bind at 1. rewrite Hreset.
  unfold bind at 1, perform at 1. rewrite Htidy. reflexivity.
Qed.

Lemma go_tool_failure_asks_for_manual_intervention_witness :
  exists msg,
    _commit_go_mod_updates go_tidy_fails upstream_branch start
    = (Raise (RepoException msg),
       mkState 4
         [Event (Glob "./**/go.mod"); Event (OsPathExists "./go.mod");
          Event (OsPathExists "./go.sum"); Event (Subprocess "go mod tidy" ".")]).
Proof.
  apply (go_tool_failure_asks_for_manual_intervention go_tidy_fails upstream_branch
           start
           (mkState 3
              [Event (Glob "./**/go.mod"); Event (OsPathExists "./go.mod");
               Event (OsPathExists "./go.sum")])
           "./go.mod" []
           "Command 'go mod tidy' returned non-zero exit status 1."
           "go: errors parsing go.mod" 1 4).
  - reflexivity.
  - reflexivity.
  - reflexivity.
Defined.

(** ** What a run may do *)

Section Bounds.

Context {W : Type} (h : handler W) (unicode_unescape : string -> res string).
Variable rebase : GitHubBranch.
Variable slack_webhook : option string.

Let bounded (now : part) (e : event) : Prop :=
  within_bounds now rebase slack_webhook e = true.

Lemma slack_bounded now msg :
  emits (bounded now) (_message_slack h slack_webhook msg).
Proof.
  unfold _message_slack. destruct slack_webhook as [u|] eqn:Hook; [|apply emits_ret].
  apply emits_perform. unfold bounded. cbn. apply String.eqb_refl.
Qed.
Hint Resolve slack_bounded : emits.

Lemma needs_rebase_bounded source dest :
  emits (bounded InRebase) (_needs_rebase h source dest).
Proof. unfold _needs_rebase. emits_all. Qed.
Hint Resolve needs_rebase_bounded : emits.

Lemma add_to_rebase_bounded msg repo policy :
  emits (bounded InRebase) (_add_to_rebase h msg repo policy).
Proof. unfold _add_to_rebase, _is_pr_merged. emits_all. Qed.
Hint Resolve add_to_rebase_bounded : emits.

Lemma rm_all_bounded files : emits (bounded InRebase) (rm_all h files).
Proof. induction files; cbn [rm_all]; emits_all. Qed.
Hint Resolve rm_all_bounded : emits.

Lemma resolve_conflict_bounded :
  emits (bounded InRebase) (_resolve_conflict h unicode_unescape).
Proof. unfold _resolve_conflict. emits_all. Qed.
Hint Resolve resolve_conflict_bounded : emits.

Lemma resolve_rebase_conflicts_bounded fuel :
  emits (bounded InRebase) (_resolve_rebase_conflicts h unicode_unescape fuel).
Proof. induction fuel; cbn [_resolve_rebase_conflicts]; emits_all. Qed.
Hint Resolve resolve_rebase_conflicts_bounded : emits.

Lemma cherry_pick_bounded fuel sha :
  emits (bounded InRebase) (cherry_pick_or_resolve h unicode_unescape fuel sha).
Proof. unfold cherry_pick_or_resolve. emits_all. Qed.
Hint Resolve cherry_pick_bounded : emits.

Lemma replay_commits_bounded fuel repo policy bots excl gomod commits :
  forall squash,
    emits (bounded InRebase)
      (replay_commits h unicode_unescape fuel repo policy bots excl gomod
         commits squash).
Proof.
  induction commits as [|commit commits IH]; intros squash;
    cbn [replay_commits]; emits_all.
Qed.
Hint Resolve replay_commits_bounded : emits.

Lemma pick_buffered_bounded fuel value :
  emits (bounded InRebase) (pick_buffered h unicode_unescape fuel value).
Proof. induction value; cbn [pick_buffered]; emits_all. Qed.
Hint Resolve pick_buffered_bounded : emits.

Lemma squash_bots_bounded fuel squash :
  emits (bounded InRebase) (squash_bots h unicode_unescape fuel squash).
Proof.
  induction squash as [|[key value] squash IH]; cbn [squash_bots];
    unfold squash_bot; emits_all.
Qed.
Hint Resolve squash_bots_bounded : emits.

Lemma do_rebase_bounded fuel repo policy bots excl gomod source dest :
  emits (bounded InRebase)
    (_do_rebase h unicode_unescape fuel repo policy bots excl gomod source dest).
Proof. unfold _do_rebase. emits_all. Qed.
Hint Resolve do_rebase_bounded : emits.

Lemma reset_go_files_bounded source base filenames :
  emits (bounded InRebase) (reset_go_files h source base filenames).
Proof. induction filenames; cbn [reset_go_files]; emits_all. Qed.
Hint Resolve reset_go_files_bounded : emits.

Lemma update_go_modules_in_bounded source filepaths :
  emits (bounded InRebase) (update_go_modules_in h source filepaths).
Proof.
  induction filepaths; cbn [update_go_modules_in]; unfold update_go_module;
    emits_all.
Qed.
Hint Resolve update_go_modules_in_bounded : emits.

Lemma commit_go_mod_updates_bounded source :
  emits (bounded InRebase) (_commit_go_mod_updates h source).
Proof. unfold _commit_go_mod_updates. emits_all. Qed.
Hint Resolve commit_go_mod_updates_bounded : emits.

Lemma prepare_rebase_branch_bounded source dest :
  emits (bounded InRebase) (_prepare_rebase_branch h source dest).
Proof. unfold _prepare_rebase_branch, delete_branch. emits_all. Qed.
Hint Resolve prepare_rebase_branch_bounded : emits.

Lemma init_working_dir_bounded source dest username email :
  emits (bounded InSetup) (_init_working_dir h source dest rebase username email).
Proof.
  unfold _init_working_dir, configure_remote, configure_credential, is_ref_a_tag.
  emits_all.
Qed.
Hint Resolve init_working_dir_bounded : emits.

Lemma manual_rebase_pr_bounded repo :
  emits (bounded InLookup) (_manual_rebase_pr_in_repo h repo).
Proof. unfold _manual_rebase_pr_in_repo. emits_all. Qed.
Hint Resolve manual_rebase_pr_bounded : emits.

Lemma needs_rebase_bounded_later source dest :
  emits (bounded InPublish) (_needs_rebase h source dest).
Proof. unfold _needs_rebase. emits_all. Qed.
Hint Resolve needs_rebase_bounded_later : emits.

Lemma is_push_required_bounded dest source :
  emits (bounded InPublish) (_is_push_required h dest source rebase).
Proof. unfold _is_push_required. emits_all. Qed.
Hint Resolve is_push_required_bounded : emits.

Lemma is_pr_available_bounded repo :
  emits (bounded InPublish) (_is_pr_available h repo rebase).
Proof. unfold _is_pr_available. emits_all. Qed.
Hint Resolve is_pr_available_bounded : emits.

Lemma push_rebase_branch_bounded :
  emits (bounded InPublish) (_push_rebase_branch h rebase).
Proof.
  unfold _push_rebase_branch. apply emits_bind.
  - apply emits_perform. unfold bounded. cbn. apply String.eqb_refl.
  - intros result. emits_all.
Qed.
Hint Resolve push_rebase_branch_bounded : emits.

Lemma update_pr_title_bounded pull_req source dest :
  emits (bounded InPublish) (_update_pr_title h pull_req source dest).
Proof. unfold _update_pr_title. emits_all. Qed.
Hint Resolve update_pr_title_bounded : emits.

Lemma create_pr_bounded dest source :
  emits (bounded InPublish) (_create_pr h dest source rebase).
Proof. unfold _create_pr. emits_all. Qed.
Hint Resolve create_pr_bounded : emits.

Lemma report_result_bounded now push_required pr_available pr_url dest_url :
  emits (bounded now)
    (_report_result h push_required pr_available pr_url dest_url slack_webhook).
Proof. unfold _report_result. emits_all. Qed.
Hint Resolve report_result_bounded : emits.

Lemma run_lookup_bounded source dest ignore_manual_label :
  emits (bounded InLookup)
    (run_lookup h source dest rebase slack_webhook ignore_manual_label).
Proof. unfold run_lookup. emits_all. Qed.

Lemma run_workdir_bounded source dest working_dir git_username git_email :
  emits (bounded InSetup)
    (run_workdir h source dest rebase working_dir git_username git_email
       slack_webhook).
Proof. unfold run_workdir. emits_all. Qed.

Lemma run_rebase_bounded fuel source dest tag_policy bot_emails exclude_commits
    update_go_modules source_repo :
  emits (bounded InRebase)
    (run_rebase h unicode_unescape fuel source dest slack_webhook tag_policy
       bot_emails exclude_commits update_go_modules source_repo).
Proof. unfold run_rebase, rebase_phase. emits_all. Qed.

Lemma run_publish_bounded source dest dest_repo :
  emits (bounded InPublish)
    (run_publish h source dest rebase slack_webhook dest_repo).
Proof. unfold run_publish, run_push. emits_all. Qed.

End Bounds.

(** X22: whatever git, GitHub, the file system and the webhook answer,
    and however the run ends, the calls of a run are those of its four
    parts in their order, the lookups on GitHub, the set-up of the
    working directory, the rebase and the publication, and each part
    stays within its bounds.  Every command line handed to [gitwd.git] is
    one of the bot's subcommands; its [branch] commands list remote
    branches, force one branch onto a ref, or force-delete [merge-tmp] or
    [rebase] and no other branch; its [reset] commands are soft.  The
    hard reset of [gitwd.head.reset(index=True, working_tree=True)], the
    fetches, and the writes of remotes, configuration and heads happen in
    the set-up and nowhere else; the go tools run in the rebase and
    nowhere else; the only push is [HEAD] to the rebase branch on the
    remote [rebase], in the publication, where alone a pull request is
    created or retitled; and every post goes to the configured webhook,
    so none is made when none is configured. *)
Theorem run_stays_within_bounds {W} (h : handler W)
    (unicode_unescape : string -> res string) (fuel : nat)
    (source dest rebase : GitHubBranch) (working_dir git_username git_email : string)
    (slack_webhook : option string) (tag_policy : string)
    (bot_emails exclude_commits : list string)
    (update_go_modules dry_run ignore_manual_label : bool) (st : state W) :
  let bounded now e := within_bounds now rebase slack_webhook e = true in
  exists lookup setup rebasing publication,
    events
      (snd (run h unicode_unescape fuel source dest rebase working_dir
              git_username git_email slack_webhook tag_policy bot_emails
              exclude_commits update_go_modules dry_run ignore_manual_label st))
    = events st ++ lookup ++ setup ++ rebasing ++ publication
    /\ Forall (bounded InLookup) lookup
    /\ Forall (bounded InSetup) setup
    /\ Forall (bounded InRebase) rebasing
    /\ Forall (bounded InPublish) publication.
Proof.
  intros bounded. unfold run, bind.
  destruct (run_lookup_bounded h rebase slack_webhook source dest
              ignore_manual_label st) as (d1 & E1 & F1).
  destruct (run_lookup h source dest rebase slack_webhook ignore_manual_label st)
    as [[[result|[dest_repo source_repo]]|e] st1]; cbn [snd] in E1;
    try (exists d1, [], [], []; cbn [snd ret]; rewrite E1, !app_nil_r;
         repeat split; solve [assumption|constructor]).
  destruct (run_workdir_bounded h rebase slack_webhook source dest working_dir
              git_username git_email st1) as (d2 & E2 & F2).
  destruct (run_workdir h source dest rebase working_dir git_username git_email
              slack_webhook st1)
    as [[[result|[]]|e] st2]; cbn [snd] in E2;
    try (exists d1, d2, [], []; cbn [snd ret]; rewrite E2, E1, !app_nil_r, <- app_assoc;
         repeat split; solve [assumption|constructor]).
  destruct (run_rebase_bounded h unicode_unescape rebase slack_webhook fuel source
              dest tag_policy bot_emails exclude_commits update_go_modules
              source_repo st2) as (d3 & E3 & F3).
  destruct (run_rebase h unicode_unescape fuel source dest slack_webhook tag_policy
              bot_emails exclude_commits update_go_modules source_repo st2)
    as [[[result|[]]|e] st3]; cbn [snd] in E3;
    try (exists d1, d2, d3, []; cbn [snd ret]; rewrite E3, E2, E1, !app_nil_r, <- !app_assoc;
         repeat split; solve [assumption|constructor]).
  destruct dry_run.
  - exists d1, d2, d3, []. cbn [snd ret]. rewrite E3, E2, E1, !app_nil_r, <- !app_assoc.
    repeat split; solve [assumption|constructor].
  - destruct (run_publish_bounded h rebase slack_webhook source dest dest_repo st3)
      as (d4 & E4 & F4).
    exists d1, d2, d3, d4. rewrite E4, E3, E2, E1, <- !app_assoc.
    repeat split; assumption.
Qed.

(** ** A dry run ends with a result *)

Section NeverRaises.

Context {W : Type}.

Lemma never_raises_ret {A} (a : A) : never_raises (@ret W A a).
Proof.
  intros st e. discriminate.
Qed.

Lemma never_raises_bind {A B} (m : M W A) (k : A -> M W B) :
  never_raises m -> (forall a, never_raises (k a)) -> never_raises (bind m k).
Proof.
  intros Hm Hk st e. unfold bind. specialize (Hm st).
  destruct (m st) as [[a|x] st1]; cbn [fst] in *.
  - apply Hk.
  - exfalso. apply (Hm x). reflexivity.
Qed.

(** A [try] whose clauses catch every exception and do not raise. *)
Lemma never_raises_try {A} (m : M W A) (clause : exn -> option (M W A)) :
  (forall e, exists recover, clause e = Some recover /\ never_raises recover) ->
  never_raises (try_except m clause).
Proof.
  intros Hc st e. unfold try_except.
  destruct (m st) as [[a|x] st1]; cbn [fst]; try discriminate.
  destruct (Hc x) as (recover & -> & Hr). apply Hr.
Qed.

Lemma slack_never_raises (h : handler W) (slack_webhook : option string) (msg : string) :
  notified h slack_webhook -> never_raises (_message_slack h slack_webhook msg).
Proof.
  intros N st e. destruct (N msg st) as (st' & ->). discriminate.
Qed.

End NeverRaises.

(** X23: when the webhook, if one is configured, takes every post, and
    [os.mkdir] creates the working directory or finds it there, a dry run
    never ends in an exception: whatever GitHub and git answer, every
    failure of the lookups, of the set-up of the working directory and of
    the rebase is caught, and the run ends with a result.  (The two
    GitHub clients are read from the provider before the first guarded
    block; reading them is taken not to fail.) *)
Theorem dry_run_never_raises {W} (h : handler W)
    (unicode_unescape : string -> res string) (fuel : nat)
    (source dest rebase : GitHubBranch) (working_dir git_username git_email : string)
    (slack_webhook : option string) (tag_policy : string)
    (bot_emails exclude_commits : list string)
    (update_go_modules ignore_manual_label : bool) :
  notified h slack_webhook ->
  mkdir_settles h working_dir ->
  never_raises
    (run h unicode_unescape fuel source dest rebase working_dir git_username
       git_email slack_webhook tag_policy bot_emails exclude_commits
       update_go_modules true ignore_manual_label).
Proof.
  intros N Hmk.
  assert (Caught : forall (A : Type) (msg : string) (result : bool),
             never_raises (_message_slack h slack_webhook msg ;;
                           @ret W (flow A) (Return result))).
  { intros A msg result. apply never_raises_bind.
    - apply slack_never_raises, N.
    - intros _. apply never_raises_ret. }
  unfold run. apply never_raises_bind.
  { unfold run_lookup. apply never_raises_try. intros e. eexists.
    split; [reflexivity|apply Caught]. }
  intros [result|[dest_repo source_repo]]; [apply never_raises_ret|].
  apply never_raises_bind.
  { unfold run_workdir. apply never_raises_bind.
    - intros st e. unfold try_except, perform.
      destruct (Hmk (world st)) as (r & w' & -> & [-> | ->]); discriminate.
    - intros _. apply never_raises_try. intros e. eexists.
      split; [reflexivity|apply Caught]. }
  intros [result|[]]; [apply never_raises_ret|].
  apply never_raises_bind.
  { unfold run_rebase. apply never_raises_try. intros e.
    destruct e; eexists; (split; [reflexivity|apply Caught]). }
  intros [result|[]]; apply never_raises_ret.
Qed.

Lemma dry_run_never_raises_witness :
  never_raises
    (run unresolvable no_escapes 2 upstream_branch downstream_branch rebase_branch
       "/tmp/rebase" "rebase-bot" "bot@example.com" hook "soft" [] [] false true
       false).
Proof.
  apply (dry_run_never_raises unresolvable no_escapes 2 upstream_branch
           downstream_branch rebase_branch "/tmp/rebase" "rebase-bot"
           "bot@example.com" hook "soft" [] [] false false).
  - apply simulated_notified. intros. reflexivity.
  - intros w. exists (Ok tt), (S w). split; [reflexivity|left; reflexivity].
Defined.

(** ** The publish phase: [run] after the dry-run check *)

(** X24: the report of a run that goes through says what was done.
    With nothing to push and no pull request, [run] reports that the
    destination already contains the latest changes; with nothing to push
    and a pull request, that the pull request already contains them; after
    a push with no pull request, it creates one and reports its address as
    new; after a push with a pull request, it runs the title update and
    reports the pull request as updated.  In each case it returns true,
    and nothing is pushed, created or retitled unless the case says
    so. *)
Theorem publish_report_says_what_was_done {W} (h : handler W)
    (source dest rebase : GitHubBranch) (slack_webhook : option string)
    (dest_repo : Repository) (st st1 st2 : state W) (push_required : bool)
    (pull_req : option PullRequest) (pr_available : bool) :
  notified h slack_webhook ->
  _is_push_required h dest source rebase st = (Ret push_required, st1) ->
  _is_pr_available h dest_repo rebase st1 = (Ret (pull_req, pr_available), st2) ->
  let published (last : state W) (msg : string) :=
    exists w,
      run_publish h source dest rebase slack_webhook dest_repo st
      = (Ret true, mkState w (events last ++ slack_events slack_webhook msg)) in
  (push_required = false -> pull_req = None -> pr_available = false ->
   published st2
     ("Destination repo " ++ url dest ++ " already contains the latest changes")%string)
  /\ (forall pr,
         push_required = false -> pull_req = Some pr -> pr_available = true ->
         html_url pr <> EmptyString ->
         published st2
           ("PR " ++ html_url pr ++ " already contains the latest changes")%string)
  /\ (forall st3 st4 pr_url,
         push_required = true -> pull_req = None -> pr_available = false ->
         _push_rebase_branch h rebase st2 = (Ret tt, st3) ->
         _create_pr h dest source rebase st3 = (Ret pr_url, st4) ->
         published st4 ("I created a new rebase PR: " ++ pr_url)%string)
  /\ (forall pr st3 st4,
         push_required = true -> pull_req = Some pr -> pr_available = true ->
         _push_rebase_branch h rebase st2 = (Ret tt, st3) ->
         _update_pr_title h pr source dest st3 = (Ret tt, st4) ->
         published st4 ("I updated existing rebase PR: " ++ html_url pr)%string).
Proof.
  intros N P A published. subst published. cbv beta.
  assert (Start : forall k : bool -> option PullRequest * bool -> M W bool,
             bind (_is_push_required h dest source rebase)
               (fun push_required => bind (_is_pr_available h dest_repo rebase)
                                       (k push_required)) st
             = k push_required (pull_req, pr_available) st2).
  { intros k. unfold bind. rewrite P, A. reflexivity. }
  unfold run_publish. rewrite Start. clear Start.
  repeat split.
  - intros -> -> ->. cbn [run_push negb andb]. unfold bind at 1, ret at 1.
    unfold bind at 1, try_except, ret at 1. unfold bind at 1, _report_result.
    cbn [report_message String.eqb negb].
    destruct (slack_delivered h slack_webhook
                ("Destination repo " ++ url dest ++ " already contains the latest changes")
                st2 N) as (w & S).
    exists w. rewrite S. reflexivity.
  - intros pr -> -> -> Hurl. cbn [run_push negb andb]. unfold bind at 1, ret at 1.
    unfold bind at 1, try_except, ret at 1. unfold bind at 1, _report_result.
    unfold report_message. apply String.eqb_neq in Hurl. rewrite Hurl. cbn [negb].
    destruct (slack_delivered h slack_webhook
                ("PR " ++ html_url pr ++ " already contains the latest changes")
                st2 N) as (w & S).
    exists w. rewrite S. reflexivity.
  - intros st3 st4 pr_url -> -> -> Hpush Hcreate. cbn [run_push negb andb].
    unfold bind at 1, bind at 1, try_except at 1, bind at 1. rewrite Hpush.
    unfold ret at 1. cbv iota beta. unfold ret at 1.
    unfold bind at 1, try_except, bind at 1. rewrite Hcreate. unfold ret at 1.
    unfold bind at 1, _report_result. cbn [report_message negb].
    destruct (slack_delivered h slack_webhook
                ("I created a new rebase PR: " ++ pr_url) st4 N) as (w & S).
    exists w. rewrite S. reflexivity.
  - intros pr st3 st4 -> -> -> Hpush Htitle. cbn [run_push negb andb].
    unfold bind at 1, bind at 1, try_except at 1, bind at 1. rewrite Hpush.
    unfold ret at 1. cbv iota beta.
    unfold try_except at 1, bind at 1. rewrite Htitle. unfold ret at 1.
    unfold bind at 1, try_except, ret at 1. unfold bind at 1, _report_result.
    cbn [report_message negb].
    destruct (slack_delivered h slack_webhook
                ("I updated existing rebase PR: " ++ html_url pr) st4 N) as (w & S).
    exists w. rewrite S. reflexivity.
Qed.

Lemma publish_report_says_what_was_done_witness :
  (exists w,
      run_publish quiet upstream_branch downstream_branch rebase_branch hook upstream
        start
      = (Ret true,
         mkState w
           [Event (Git ["branch"; "-r"; "--contains"; "source/master"]);
            Event (RemoteHasRef "rebase" "rebase-bot-main");
            Event (GhPullRequests upstream (Some "openshift-bot:rebase-bot-main"));
            Event (RemotePush "rebase" "HEAD:rebase-bot-main");
            Event (Git ["rev-parse"; "--short=7"; "source/master"]);
            Event (GhRepository github_app "openshift" "autoscaler");
            Event (GhCreatePull
                     {| repo_ns := "openshift"; repo_name := "autoscaler";
                        clone_url := "https://github.com/openshift/autoscaler" |}
                     "Merge https://github.com/kubernetes/autoscaler:master () into main"
                     "openshift-bot:rebase-bot-main" "main" false);
            Event (SlackPost "https://hooks.example"
                     "I created a new rebase PR: https://github.com/pull/1")]))
  /\ exists w,
      run_publish up_to_date upstream_branch downstream_branch rebase_branch hook
        upstream start
      = (Ret true,
         mkState w
           [Event (Git ["branch"; "-r"; "--contains"; "source/master"]);
            Event (GhPullRequests upstream (Some "openshift-bot:rebase-bot-main"));
            Event (SlackPost "https://hooks.example"
                     "Destination repo https://github.com/openshift/autoscaler already contains the latest changes")]).
Proof.
  split.
  - apply (proj1 (proj2 (proj2
             (publish_report_says_what_was_done quiet upstream_branch downstream_branch
                rebase_branch hook upstream start
                (mkState 2 [Event (Git ["branch"; "-r"; "--contains"; "source/master"]);
                            Event (RemoteHasRef "rebase" "rebase-bot-main")])
                (mkState 3 [Event (Git ["branch"; "-r"; "--contains"; "source/master"]);
                            Event (RemoteHasRef "rebase" "rebase-bot-main");
                            Event (GhPullRequests upstream
                                     (Some "openshift-bot:rebase-bot-main"))])
                true None false
                (simulated_notified _ _ (fun _ _ _ => eq_refl)) eq_refl eq_refl)))
             (mkState 4 [Event (Git ["branch"; "-r"; "--contains"; "source/master"]);
                         Event (RemoteHasRef "rebase" "rebase-bot-main");
                         Event (GhPullRequests upstream
                                  (Some "openshift-bot:rebase-bot-main"));
                         Event (RemotePush "rebase" "HEAD:rebase-bot-main")])
             (mkState 7 [Event (Git ["branch"; "-r"; "--contains"; "source/master"]);
                         Event (RemoteHasRef "rebase" "rebase-bot-main");
                         Event (GhPullRequests upstream
                                  (Some "openshift-bot:rebase-bot-main"));
                         Event (RemotePush "rebase" "HEAD:rebase-bot-main");
                         Event (Git ["rev-parse"; "--short=7"; "source/master"]);
                         Event (GhRepository github_app "openshift" "autoscaler");
                         Event (GhCreatePull
                                  {| repo_ns := "openshift"; repo_name := "autoscaler";
                                     clone_url := "https://github.com/openshift/autoscaler" |}
                                  "Merge https://github.com/kubernetes/autoscaler:master () into main"
                                  "openshift-bot:rebase-bot-main" "main" false)])
             "https://github.com/pull/1"
             eq_refl eq_refl eq_refl eq_refl eq_refl).
  - apply (proj1
             (publish_report_says_what_was_done up_to_date upstream_branch
                downstream_branch rebase_branch hook upstream start
                (mkState 1 [Event (Git ["branch"; "-r"; "--contains"; "source/master"])])
                (mkState 2 [Event (Git ["branch"; "-r"; "--contains"; "source/master"]);
                            Event (GhPullRequests upstream
                                     (Some "openshift-bot:rebase-bot-main"))])
                false None false
                (simulated_notified _ _ (fun _ _ _ => eq_refl)) eq_refl eq_refl)
             eq_refl eq_refl eq_refl).
Defined.

(** X25: when the push fails, [run] posts that it got an error pushing
    to the rebase repository and branch, and returns false; no pull
    request is created or retitled after a failed push. *)
Theorem failed_push_returns_false {W} (h : handler W)
    (source dest rebase : GitHubBranch) (slack_webhook : option string)
    (dest_repo : Repository) (st st1 st2 st3 : state W)
    (pull_req : option PullRequest) (pr_available : bool) (e : exn) :
  notified h slack_webhook ->
  _is_push_required h dest source rebase st = (Ret true, st1) ->
  _is_pr_available h dest_repo rebase st1 = (Ret (pull_req, pr_available), st2) ->
  _push_rebase_branch h rebase st2 = (Raise e, st3) ->
  exists w,
    run_publish h source dest rebase slack_webhook dest_repo st
    = (Ret false,
       mkState w
         (events st3
          ++ slack_events slack_webhook
               ("I got an error pushing to " ++ ns rebase ++ "/" ++ name rebase
                  ++ ":" ++ branch rebase))).
Proof.
  intros N P A Hpush.
  destruct (slack_delivered h slack_webhook
              ("I got an error pushing to " ++ ns rebase ++ "/" ++ name rebase
                 ++ ":" ++ branch rebase) st3 N) as (w & S).
  exists w. unfold run_publish, bind at 1. rewrite P. unfold bind at 1. rewrite A.
  cbn [run_push]. unfold bind at 1, bind at 1, try_except at 1, bind at 1.
  rewrite Hpush. unfold bind at 1. rewrite S. reflexivity.
Qed.

Lemma failed_push_returns_false_witness :
  exists w,
    run_publish push_rejected upstream_branch downstream_branch rebase_branch hook
      upstream start
    = (Ret false,
       mkState w
         [Event (Git ["branch"; "-r"; "--contains"; "source/master"]);
          Event (RemoteHasRef "rebase" "rebase-bot-main");
          Event (GhPullRequests upstream (Some "openshift-bot:rebase-bot-main"));
          Event (RemotePush "rebase" "HEAD:rebase-bot-main");
          Event (SlackPost "https://hooks.example"
                   "I got an error pushing to openshift-bot/autoscaler:rebase-bot-main")]).
Proof.
  apply (failed_push_returns_false push_rejected upstream_branch downstream_branch
           rebase_branch hook upstream start
           (mkState 2 [Event (Git ["branch"; "-r"; "--contains"; "source/master"]);
                       Event (RemoteHasRef "rebase" "rebase-bot-main")])
           (mkState 3 [Event (Git ["branch"; "-r"; "--contains"; "source/master"]);
                       Event (RemoteHasRef "rebase" "rebase-bot-main");
                       Event (GhPullRequests upstream
                                (Some "openshift-bot:rebase-bot-main"))])
           (mkState 4 [Event (Git ["branch"; "-r"; "--contains"; "source/master"]);
                       Event (RemoteHasRef "rebase" "rebase-bot-main");
                       Event (GhPullRequests upstream
                                (Some "openshift-bot:rebase-bot-main"));
                       Event (RemotePush "rebase" "HEAD:rebase-bot-main")])
           None false
           (Exception_ "Error pushing to rebase-bot-main: [rejected] (fetch first)")
           (simulated_notified _ _ (fun _ _ _ => eq_refl)) eq_refl eq_refl eq_refl).
Defined.

(** ** Whether to rebase: [_needs_rebase] *)

(** X26: [_needs_rebase] asks git once, for the remote branches that
    contain the source head.  It answers no exactly when a line of the
    listing, leading blanks aside, is [dest/<branch>] in full: a longer
    branch name that starts the same way does not count.  When git fails,
    the answer is yes: the error is not passed on. *)
Theorem needs_rebase_unless_dest_is_listed {W} (h : handler W)
    (source dest : GitHubBranch) (st : state W) (answer : res string) (w1 : W) :
  h _ (Git ["branch"; "-r"; "--contains"; ("source/" ++ branch source)%string])
    (world st)
  = (answer, w1) ->
  (forall e, answer = Err e -> exists detail, e = GitCommandError detail) ->
  exists needs_rebase,
    _needs_rebase h source dest st
    = (Ret needs_rebase,
       mkState w1
         (events st
          ++ [Event (Git ["branch"; "-r"; "--contains";
                          ("source/" ++ branch source)%string])]))
    /\ (needs_rebase = false
        <-> exists listing line,
              answer = Ok listing /\ In line (Py.splitlines listing)
              /\ Py.lstrip line = ("dest/" ++ branch dest)%string).
Proof.
  intros Hgit Hgiterr. unfold _needs_rebase, try_except, bind, git, perform.
  rewrite Hgit. destruct answer as [listing|e].
  - destruct (existsb (fun b => String.eqb (Py.lstrip b) ("dest/" ++ branch dest))
                (Py.splitlines listing)) eqn:X.
    + exists false. split; [reflexivity|]. split; [|reflexivity]. intros _.
      apply existsb_exists in X as (line & Hin & E). apply String.eqb_eq in E.
      exists listing, line. repeat split; assumption.
    + exists true. split; [reflexivity|]. split; [discriminate|].
      intros (listing' & line & E & Hin & L). injection E as <-.
      assert (T : existsb (fun b => String.eqb (Py.lstrip b) ("dest/" ++ branch dest))
                    (Py.splitlines listing) = true).
      { apply existsb_exists. exists line. split; [exact Hin|].
        apply String.eqb_eq, L. }
      congruence.
  - destruct (Hgiterr e eq_refl) as (detail & ->).
    exists true. split; [reflexivity|]. split; [discriminate|].
    intros (listing & line & E & _). discriminate E.
Qed.

Lemma needs_rebase_unless_dest_is_listed_witness :
  fst (_needs_rebase up_to_date upstream_branch downstream_branch start) = Ret false
  /\ fst (_needs_rebase no_branch_to_delete upstream_branch downstream_branch start)
     = Ret true.
Proof.
  split.
  - destruct (needs_rebase_unless_dest_is_listed up_to_date upstream_branch
                downstream_branch start
                (Ok ("  dest/main" ++ LF ++ "  source/master")%string) 1 eq_refl)
      as (needs & E & _).
    + intros e D. discriminate D.
    + rewrite E. cbn [fst]. injection E as E. rewrite <- E. reflexivity.
  - destruct (needs_rebase_unless_dest_is_listed no_branch_to_delete upstream_branch
                downstream_branch start (Ok EmptyString) 1 eq_refl)
      as (needs & E & _).
    + intros e D. discriminate D.
    + rewrite E. cbn [fst]. injection E as E. rewrite <- E. reflexivity.
Defined.

(** ** The set-up of the working directory: [_init_working_dir] *)

Section InitBounds.

Context {W : Type} (h : handler W).
Variables source dest rebase : GitHubBranch.
Variables git_username git_email : string.

Let bounded (e : event) : Prop :=
  init_within_bounds source dest rebase git_username git_email e = true.




End InitBounds.


(** ** Go modules that the source does not have *)

(** X28: in a module root whose [go.mod] is in the working tree and
    cannot be checked out from the source branch, whatever the error,
    [_commit_go_mod_updates] stops resetting: [go.sum] is neither looked
    for nor checked out.  It still runs [go mod tidy] there, runs
    [go mod vendor] only when the root has a [vendor] directory, and with
    a clean tree afterwards it adds and commits nothing. *)
Theorem go_mod_absent_upstream_stops_the_reset {W} (h : handler W)
    (source : GitHubBranch) (st : state W) (filepath out : string) (e : exn)
    (w1 w2 w3 w4 w5 w6 : W) :
  let root := Py.dirname filepath in
  let checkout :=
    Git ["checkout"; ("source/" ++ branch source)%string; Py.path_join root "go.mod"] in
  h _ (Glob "./**/go.mod") (world st) = (Ok [filepath], w1) ->
  h _ (OsPathExists (Py.path_join root "go.mod")) w1 = (Ok true, w2) ->
  h _ checkout w2 = (Err e, w3) ->
  h _ (Subprocess "go mod tidy" root) w3 = (Ok out, w4) ->
  h _ (OsPathExists (Py.path_join root "vendor")) w4 = (Ok false, w5) ->
  h _ IsDirty w5 = (Ok false, w6) ->
  _commit_go_mod_updates h source st
  = (Ret tt,
     mkState w6
       (events st
        ++ [Event (Glob "./**/go.mod");
            Event (OsPathExists (Py.path_join root "go.mod"));
            Event checkout;
            Event (Subprocess "go mod tidy" root);
            Event (OsPathExists (Py.path_join root "vendor"));
            Event IsDirty])).
Proof.
  intros root checkout Hglob Hmod Hco Htidy Hvendor Hdirty. subst root checkout.
  unfold _commit_go_mod_updates, bind at 1, perform at 1. rewrite Hglob.
  cbn [update_go_modules_in]. unfold bind at 1, bind at 1, update_go_module.
  unfold try_except at 1, bind at 1. cbn [reset_go_files].
  unfold bind at 1, perform at 1. cbn [world events]. rewrite Hmod. cbn [negb].
  unfold bind at 1, try_except at 1, bind at 1, git at 1, perform at 1.
  cbn [world events]. rewrite Hco. unfold ret at 1. unfold ret at 1.
  unfold bind at 1, perform at 1. cbn [world events]. rewrite Htidy.
  unfold bind at 1, perform at 1. cbn [world events]. rewrite Hvendor.
  unfold ret at 1. unfold ret at 1.
  unfold bind at 1, perform at 1. cbn [world events]. rewrite Hdirty.
  unfold ret. rewrite <- !app_assoc. reflexivity.
Qed.

Lemma go_mod_absent_upstream_stops_the_reset_witness :
  _commit_go_mod_updates module_of_the_fork upstream_branch start
  = (Ret tt,
     mkState 6
       [Event (Glob "./**/go.mod");
        Event (OsPathExists "./tools/go.mod");
        Event (Git ["checkout"; "source/master"; "./tools/go.mod"]);
        Event (Subprocess "go mod tidy" "./tools");
        Event (OsPathExists "./tools/vendor");
        Event IsDirty]).
Proof.
  apply (go_mod_absent_upstream_stops_the_reset module_of_the_fork upstream_branch
           start "./tools/go.mod" EmptyString
           (GitCommandError "pathspec did not match") 1 2 3 4 5 6);
    reflexivity.
Defined.

(** ** The commit of the go modules, from one run to the next *)

(** X29: when updating the go modules left changes in the tree,
    [_commit_go_mod_updates] stages everything and commits it under one
    fixed message.  That message is tagged [<carry>]: the tag rules carry
    the commit under each of the three policies, without a call.  And a
    later replay with [update_go_modules] set passes over a commit with
    that message before the tag rules are asked, so that the commit is
    made anew rather than picked. *)
Theorem go_modules_commit_is_carried_or_remade {W} (h : handler W)
    (source : GitHubBranch) (st st1 : state W) (filepaths : list string)
    (o1 o2 : string) (w1 w2 w3 w4 : W) :
  h _ (Glob "./**/go.mod") (world st) = (Ok filepaths, w1) ->
  update_go_modules_in h source filepaths
    (mkState w1 (events st ++ [Event (Glob "./**/go.mod")]))
  = (Ret tt, st1) ->
  h _ IsDirty (world st1) = (Ok true, w2) ->
  h _ (Git ["add"; "--all"]) w2 = (Ok o1, w3) ->
  h _ (Git ["commit"; "-m"; GO_MOD_COMMIT_MESSAGE]) w3 = (Ok o2, w4) ->
  _commit_go_mod_updates h source st
  = (Ret tt,
     mkState w4
       (events st1
        ++ [Event IsDirty; Event (Git ["add"; "--all"]);
            Event (Git ["commit"; "-m"; GO_MOD_COMMIT_MESSAGE])]))
  /\ (forall (source_repo : Repository) (tag_policy : string) (st' : state W),
         In tag_policy ["soft"; "strict"; "none"] ->
         _add_to_rebase h GO_MOD_COMMIT_MESSAGE source_repo tag_policy st'
         = (Ret true, st'))
  /\ (forall (unicode_unescape : string -> res string) (fuel : nat)
             (source_repo : Repository) (tag_policy : string)
             (bot_emails exclude_commits : list string)
             (line commit_sha email : string) (rest : list string)
             (commits_to_squash : squash_map) (st' : state W),
         split_commit_line line = Some (commit_sha, GO_MOD_COMMIT_MESSAGE, email) ->
         replay_commits h unicode_unescape fuel source_repo tag_policy bot_emails
           exclude_commits true (line :: rest) commits_to_squash st'
         = replay_commits h unicode_unescape fuel source_repo tag_policy bot_emails
             exclude_commits true rest commits_to_squash st').
Proof.
  intros Hglob Hmods Hdirty Hadd Hcommit. split; [|split].
  - unfold _commit_go_mod_updates, bind at 1, perform at 1. rewrite Hglob.
    unfold bind at 1. rewrite Hmods.
    unfold bind at 1, perform at 1. rewrite Hdirty.
    unfold try_except, bind, git, perform. cbn [world events].
    rewrite Hadd. cbn [world events]. rewrite Hcommit.
    unfold ret. rewrite <- !app_assoc. reflexivity.
  - intros source_repo tag_policy st' Hin.
    destruct Hin as [<-|[<-|[<-|[]]]]; reflexivity.
  - intros unicode_unescape fuel source_repo tag_policy bot_emails exclude_commits
      line commit_sha email rest squash st' Hline.
    cbn [replay_commits]. rewrite Hline.
    destruct (_in_excluded_commits commit_sha exclude_commits); [reflexivity|].
    rewrite String.eqb_refl. reflexivity.
Qed.

Lemma go_modules_commit_is_carried_or_remade_witness :
  _commit_go_mod_updates dirty_tree upstream_branch start
  = (Ret tt,
     mkState 4
       [Event (Glob "./**/go.mod"); Event IsDirty; Event (Git ["add"; "--all"]);
        Event (Git ["commit"; "-m";
                    "UPSTREAM: <carry>: Updating and vendoring go modules after an upstream rebase"])]).
Proof.
  apply (go_modules_commit_is_carried_or_remade dirty_tree upstream_branch start
           (mkState 1 [Event (Glob "./**/go.mod")]) [] EmptyString EmptyString
           1 2 3 4);
    reflexivity.
Defined.

(** ** The file of a status entry *)

Lemma drop_code (code rest : string) :
  Py.drop (String.length code) (code ++ rest) = rest.
Proof.
  induction code as [|c code IH]; [reflexivity|exact IH].
Qed.

Lemma rstrip_char_other (ch : ascii) (s : string) (l : ascii) :
  Py.last_char s = Some l -> l <> ch -> Py.rstrip_char ch s = s.
Proof.
  induction s as [|c s IH]; [discriminate|].
  destruct s as [|d s].
  - cbn. intros E N. injection E as ->. apply Ascii.eqb_neq in N. rewrite N.
    reflexivity.
  - intros E N. change (Py.last_char (String c (String d s)))
      with (Py.last_char (String d s)) in E.
    cbn [Py.rstrip_char]. cbn [Py.rstrip_char] in IH. rewrite (IH E N). reflexivity.
Qed.

Lemma last_char_snoc (s : string) (q : ascii) :
  Py.last_char (s ++ String q EmptyString) = Some q.
Proof.
  induction s as [|c s IH]; [reflexivity|].
  cbn [append Py.last_char]. rewrite IH.
  destruct (s ++ String q EmptyString)%string eqn:E; [|reflexivity].
  destruct s; discriminate E.
Qed.

Lemma drop_last_snoc (s : string) (q : ascii) :
  Py.drop_last (s ++ String q EmptyString) = s.
Proof.
  induction s as [|c s IH]; [reflexivity|].
  cbn [append Py.drop_last]. rewrite IH.
  destruct (s ++ String q EmptyString)%string eqn:E; [|reflexivity].
  destruct s; discriminate E.
Qed.

(** X30: the file that the automaton removes for a status entry is the
    text after the three characters of the code, as it stands, when that
    text is not wrapped in double quotes; when it is, the file is what the
    codec chain makes of the text between the quotes, and an error of the
    chain is the error of the entry. *)
Theorem status_entry_names_its_file (unicode_unescape : string -> res string)
    (code : string) :
  String.length code = 3 ->
  (forall (first last_ : ascii) (rest : string),
      Py.last_char (String first rest) = Some last_ ->
      last_ <> newline ->
      first <> dquote \/ last_ <> dquote ->
      status_filename unicode_unescape (code ++ String first rest)
      = Ok (String first rest))
  /\ (forall inner : string,
         status_filename unicode_unescape
           (code ++ String dquote (inner ++ String dquote EmptyString))
         = unicode_unescape inner).
Proof.
  intros Hcode. split.
  - intros first last_ rest Hlast Hnl Plain. unfold status_filename.
    rewrite <- Hcode, drop_code, (rstrip_char_other _ _ _ Hlast Hnl), Hlast.
    destruct Plain as [N|N].
    + destruct (Ascii.eqb_spec first last_) as [->|_]; [|reflexivity].
      apply Ascii.eqb_neq in N. rewrite N. reflexivity.
    + apply Ascii.eqb_neq in N. rewrite N, andb_false_r. reflexivity.
  - intros inner. unfold status_filename. rewrite <- Hcode, drop_code.
    assert (L : Py.last_char (String dquote (inner ++ String dquote EmptyString))
                = Some dquote).
    { apply (last_char_snoc (String dquote inner) dquote). }
    rewrite (rstrip_char_other _ _ _ L); [|discriminate].
    rewrite L. rewrite Ascii.eqb_refl. cbn [andb Py.drop].
    rewrite drop_last_snoc. reflexivity.
Qed.

Lemma status_entry_names_its_file_witness :
  status_filename no_escapes "UD docs/gone.md" = Ok "docs/gone.md"
  /\ status_filename no_escapes
       ("DD " ++ String dquote ("a b.txt" ++ String dquote EmptyString))
     = Ok "a b.txt".
Proof.
  split.
  - apply (proj1 (status_entry_names_its_file no_escapes "UD " eq_refl)
             "d"%char "d"%char "ocs/gone.md").
    + reflexivity.
    + discriminate.
    + left. discriminate.
  - apply (proj2 (status_entry_names_its_file no_escapes "DD " eq_refl) "a b.txt").
Defined.
